(** * go-llm: provider abstraction and orchestration layer

    A shallow embedding of the model resolver ([resolveModel],
    [normalizeAnthropicModelID], [looksLikeOpenAIModelID]), of the two
    directions of the Responses wire translator ([buildBuiltinTool],
    [parseResponsesResponse]) and of the retry-and-fallback loop of
    [Builder.SendWithMeta], followed by the properties proved about them.
    It goes on with the builder methods for built-in tools, with the OpenAI
    provider itself ([Send], [SendStream], [sendResponses], the embeddings of
    [Embed]) over a model of the HTTP exchange, and with their properties.

    Go strings are byte strings and are modelled by [string]; Go [int] is
    modelled by [Z]; Go maps by [gmap]; slices by [list] (a nil slice and an
    empty slice are both [[]], the code only ever tests [len]). A
    [time.Duration] is its [int64] count of nanoseconds, and the arithmetic
    that computes one wraps around as in Go. *)

From Stdlib Require Import ZArith Ascii String List Bool Lia.
From stdpp Require Import base option list gmap strings fin_maps pretty.

Local Open Scope Z_scope.
Local Open Scope stdpp_scope.

(* ===================================================================== *)
(** * Part I: definitions                                                  *)
(* ===================================================================== *)

(** ** The [strings] package functions used by the resolver *)

(** [strings.HasPrefix(s, prefix)]. *)
Definition HasPrefix (s prefix : string) : bool := String.prefix prefix s.

(** [s[n:]] for [n <= len(s)]. *)
Fixpoint sliceFrom (n : nat) (s : string) : string :=
  match n, s with
  | O, _ => s
  | S _, EmptyString => EmptyString
  | S k, String _ s' => sliceFrom k s'
  end.

(** [s[:n]] for [n <= len(s)]. *)
Fixpoint sliceTo (n : nat) (s : string) : string :=
  match n, s with
  | O, _ => EmptyString
  | S _, EmptyString => EmptyString
  | S k, String c s' => String c (sliceTo k s')
  end.

(** [strings.TrimPrefix(s, prefix)]. *)
Definition TrimPrefix (s prefix : string) : string :=
  if HasPrefix s prefix then sliceFrom (String.length prefix) s else s.

(** [strings.CutPrefix(s, prefix)], returning [(after, found)]. *)
Definition CutPrefix (s prefix : string) : string * bool :=
  if HasPrefix s prefix then (sliceFrom (String.length prefix) s, true)
  else (s, false).

(** [strings.Contains(s, substr)]. *)
Fixpoint Contains (s substr : string) : bool :=
  HasPrefix s substr ||
  match s with
  | EmptyString => false
  | String _ s' => Contains s' substr
  end.

(** [strings.IndexByte(s, c)]: index of the first [c], or [-1]. *)
Fixpoint IndexByte (s : string) (c : ascii) : Z :=
  match s with
  | EmptyString => -1
  | String a s' =>
      if Ascii.eqb a c then 0
      else let i := IndexByte s' c in if i <? 0 then -1 else i + 1
  end.

(** The scan of [strings.ReplaceAll]: [skip] bytes of the current match are
    still to be consumed; otherwise a match of [old] at the head emits [new]
    and the scan resumes after the match (matches do not overlap). *)
Fixpoint replaceFrom (old new : string) (skip : nat) (s : string) : string :=
  match s with
  | EmptyString => EmptyString
  | String c s' =>
      match skip with
      | S k => replaceFrom old new k s'
      | O =>
          if HasPrefix s old
          then new +:+ replaceFrom old new (String.length old - 1) s'
          else String c (replaceFrom old new 0 s')
      end
  end.

(** [strings.ReplaceAll(s, old, new)] for a non-empty [old], which is how
    every call site of the resolver uses it. *)
Definition ReplaceAll (s old new : string) : string := replaceFrom old new 0 s.

(** ** Model resolver *)

Definition ProviderType := string.
Definition Model := string.

Definition ProviderOpenRouter : ProviderType := "openrouter".
Definition ProviderOpenAI : ProviderType := "openai".
Definition ProviderAnthropic : ProviderType := "anthropic".
Definition ProviderGoogle : ProviderType := "google".
Definition ProviderOllama : ProviderType := "ollama".
Definition ProviderAzure : ProviderType := "azure".

(** The [Model] constants that key [modelMappings]. Their declarations (the
    string each one stands for) are in other files of the package, so the
    identifier of a constant is a parameter of the development. *)
Inductive ModelConst : Set :=
  | ModelGPT52
  | ModelGPT52Pro
  | ModelGPT51
  | ModelGPT5Base
  | ModelGPT5Pro
  | ModelGPT5Mini
  | ModelGPT5Nano
  | ModelGPT51Codex
  | ModelGPT51CodexMax
  | ModelGPT5CodexBase
  | ModelGPT51CodexMini
  | ModelCodexMiniLatest
  | ModelGPT5SearchAPI
  | ModelComputerUsePreview
  | ModelGPT52ChatLatest
  | ModelGPT51ChatLatest
  | ModelGPT5ChatLatest
  | ModelChatGPT4oLatest
  | ModelGPT41
  | ModelGPT41Mini
  | ModelGPT41Nano
  | ModelGPT4o
  | ModelGPT4o20240513
  | ModelGPT4oMini
  | ModelO1
  | ModelO1Mini
  | ModelO1Pro
  | ModelO1Preview
  | ModelO3
  | ModelO3Mini
  | ModelO3Pro
  | ModelO3DeepResearch
  | ModelO4Mini
  | ModelO4MiniDeepResearch
  | ModelGPTRealtime
  | ModelGPTRealtimeMini
  | ModelGPT4oRealtimePreview
  | ModelGPT4oMiniRealtimePreview
  | ModelGPTAudio
  | ModelGPTAudioMini
  | ModelGPT4oAudioPreview
  | ModelGPT4oMiniAudioPreview
  | ModelGPT4oMiniSearchPreview
  | ModelGPT4oSearchPreview
  | ModelGPT4oMiniTTS
  | ModelGPT4oTranscribe
  | ModelGPT4oTranscribeDiarize
  | ModelGPT4oMiniTranscribe
  | ModelGPTImage15
  | ModelChatGPTImageLatest
  | ModelGPTImage1
  | ModelGPTImage1Mini
  | ModelSora2
  | ModelSora2Pro
  | ModelClaudeOpus
  | ModelClaudeSonnet
  | ModelClaudeHaiku
  | ModelClaudeOpus41
  | ModelClaudeOpus4
  | ModelClaudeSonnet4
  | ModelClaudeSonnet37
  | ModelClaudeHaiku35
  | ModelClaudeHaiku3
  | ModelClaudeOpus3
  | ModelClaudeSonnet3
  | ModelGemini3Pro
  | ModelGemini3Flash
  | ModelGemini25Pro
  | ModelGemini25Flash
  | ModelGemini25FlashLite
  | ModelGemini2Flash
  | ModelGemini2FlashLite
  | ModelGrok41Fast
  | ModelGrok3
  | ModelGrok3Mini
  | ModelQwen3Next
  | ModelQwen3
  | ModelLlama4
  | ModelMistralLarge.

Class ModelConstants := modelID : ModelConst → Model.

(** The four map literals of [modelMappings], in source order. *)
Definition openRouterModels : list (ModelConst * string) :=
  [
    (ModelGPT52, "openai/gpt-5.2");
    (ModelGPT52Pro, "openai/gpt-5.2-pro");
    (ModelGPT51, "openai/gpt-5.1");
    (ModelGPT5Base, "openai/gpt-5");
    (ModelGPT5Pro, "openai/gpt-5-pro");
    (ModelGPT5Mini, "openai/gpt-5-mini");
    (ModelGPT5Nano, "openai/gpt-5-nano");
    (ModelGPT51Codex, "openai/gpt-5.1-codex");
    (ModelGPT51CodexMax, "openai/gpt-5.1-codex-max");
    (ModelGPT5CodexBase, "openai/gpt-5-codex");
    (ModelGPT51CodexMini, "openai/gpt-5.1-codex-mini");
    (ModelCodexMiniLatest, "openai/codex-mini-latest");
    (ModelGPT5SearchAPI, "openai/gpt-5-search-api");
    (ModelComputerUsePreview, "openai/computer-use-preview");
    (ModelGPT52ChatLatest, "openai/gpt-5.2-chat-latest");
    (ModelGPT51ChatLatest, "openai/gpt-5.1-chat-latest");
    (ModelGPT5ChatLatest, "openai/gpt-5-chat-latest");
    (ModelChatGPT4oLatest, "openai/chatgpt-4o-latest");
    (ModelGPT41, "openai/gpt-4.1");
    (ModelGPT41Mini, "openai/gpt-4.1-mini");
    (ModelGPT41Nano, "openai/gpt-4.1-nano");
    (ModelGPT4o, "openai/gpt-4o");
    (ModelGPT4o20240513, "openai/gpt-4o-2024-05-13");
    (ModelGPT4oMini, "openai/gpt-4o-mini");
    (ModelO1, "openai/o1");
    (ModelO1Mini, "openai/o1-mini");
    (ModelO1Pro, "openai/o1-pro");
    (ModelO1Preview, "openai/o1-preview");
    (ModelO3, "openai/o3");
    (ModelO3Mini, "openai/o3-mini");
    (ModelO3Pro, "openai/o3-pro");
    (ModelO3DeepResearch, "openai/o3-deep-research");
    (ModelO4Mini, "openai/o4-mini");
    (ModelO4MiniDeepResearch, "openai/o4-mini-deep-research");
    (ModelGPTRealtime, "openai/gpt-realtime");
    (ModelGPTRealtimeMini, "openai/gpt-realtime-mini");
    (ModelGPT4oRealtimePreview, "openai/gpt-4o-realtime-preview");
    (ModelGPT4oMiniRealtimePreview, "openai/gpt-4o-mini-realtime-preview");
    (ModelGPTAudio, "openai/gpt-audio");
    (ModelGPTAudioMini, "openai/gpt-audio-mini");
    (ModelGPT4oAudioPreview, "openai/gpt-4o-audio-preview");
    (ModelGPT4oMiniAudioPreview, "openai/gpt-4o-mini-audio-preview");
    (ModelGPT4oMiniSearchPreview, "openai/gpt-4o-mini-search-preview");
    (ModelGPT4oSearchPreview, "openai/gpt-4o-search-preview");
    (ModelGPT4oMiniTTS, "openai/gpt-4o-mini-tts");
    (ModelGPT4oTranscribe, "openai/gpt-4o-transcribe");
    (ModelGPT4oTranscribeDiarize, "openai/gpt-4o-transcribe-diarize");
    (ModelGPT4oMiniTranscribe, "openai/gpt-4o-mini-transcribe");
    (ModelGPTImage15, "openai/gpt-image-1.5");
    (ModelChatGPTImageLatest, "openai/chatgpt-image-latest");
    (ModelGPTImage1, "openai/gpt-image-1");
    (ModelGPTImage1Mini, "openai/gpt-image-1-mini");
    (ModelSora2, "openai/sora-2");
    (ModelSora2Pro, "openai/sora-2-pro");
    (ModelClaudeOpus, "anthropic/claude-opus-4.5");
    (ModelClaudeSonnet, "anthropic/claude-sonnet-4.5");
    (ModelClaudeHaiku, "anthropic/claude-haiku-4.5");
    (ModelClaudeOpus41, "anthropic/claude-opus-4.1");
    (ModelClaudeOpus4, "anthropic/claude-opus-4");
    (ModelClaudeSonnet4, "anthropic/claude-sonnet-4");
    (ModelClaudeSonnet37, "anthropic/claude-3.7-sonnet");
    (ModelClaudeHaiku35, "anthropic/claude-3.5-haiku");
    (ModelClaudeHaiku3, "anthropic/claude-3-haiku");
    (ModelClaudeOpus3, "anthropic/claude-3-opus");
    (ModelClaudeSonnet3, "anthropic/claude-3-sonnet");
    (ModelGemini3Pro, "google/gemini-3-pro-preview");
    (ModelGemini3Flash, "google/gemini-3-flash-preview");
    (ModelGemini25Pro, "google/gemini-2.5-pro");
    (ModelGemini25Flash, "google/gemini-2.5-flash");
    (ModelGemini25FlashLite, "google/gemini-2.5-flash-lite");
    (ModelGemini2Flash, "google/gemini-2.0-flash-001");
    (ModelGemini2FlashLite, "google/gemini-2.0-flash-lite-001");
    (ModelGrok41Fast, "x-ai/grok-4.1-fast");
    (ModelGrok3, "x-ai/grok-3");
    (ModelGrok3Mini, "x-ai/grok-3-mini");
    (ModelQwen3Next, "qwen/qwen3-next");
    (ModelQwen3, "qwen/qwen-3-235b");
    (ModelLlama4, "meta-llama/llama-4-maverick");
    (ModelMistralLarge, "mistralai/mistral-large")
  ].

Definition openAIModels : list (ModelConst * string) :=
  [
    (ModelGPT52, "gpt-5.2");
    (ModelGPT52Pro, "gpt-5.2-pro");
    (ModelGPT51, "gpt-5.1");
    (ModelGPT5Base, "gpt-5");
    (ModelGPT5Pro, "gpt-5-pro");
    (ModelGPT5Mini, "gpt-5-mini");
    (ModelGPT5Nano, "gpt-5-nano");
    (ModelGPT51Codex, "gpt-5.1-codex");
    (ModelGPT51CodexMax, "gpt-5.1-codex-max");
    (ModelGPT5CodexBase, "gpt-5-codex");
    (ModelGPT51CodexMini, "gpt-5.1-codex-mini");
    (ModelCodexMiniLatest, "codex-mini-latest");
    (ModelGPT5SearchAPI, "gpt-5-search-api");
    (ModelComputerUsePreview, "computer-use-preview");
    (ModelGPT52ChatLatest, "gpt-5.2-chat-latest");
    (ModelGPT51ChatLatest, "gpt-5.1-chat-latest");
    (ModelGPT5ChatLatest, "gpt-5-chat-latest");
    (ModelChatGPT4oLatest, "chatgpt-4o-latest");
    (ModelGPT41, "gpt-4.1");
    (ModelGPT41Mini, "gpt-4.1-mini");
    (ModelGPT41Nano, "gpt-4.1-nano");
    (ModelGPT4o, "gpt-4o");
    (ModelGPT4o20240513, "gpt-4o-2024-05-13");
    (ModelGPT4oMini, "gpt-4o-mini");
    (ModelO1, "o1");
    (ModelO1Mini, "o1-mini");
    (ModelO1Pro, "o1-pro");
    (ModelO1Preview, "o1-preview");
    (ModelO3, "o3");
    (ModelO3Mini, "o3-mini");
    (ModelO3Pro, "o3-pro");
    (ModelO3DeepResearch, "o3-deep-research");
    (ModelO4Mini, "o4-mini");
    (ModelO4MiniDeepResearch, "o4-mini-deep-research");
    (ModelGPTRealtime, "gpt-realtime");
    (ModelGPTRealtimeMini, "gpt-realtime-mini");
    (ModelGPT4oRealtimePreview, "gpt-4o-realtime-preview");
    (ModelGPT4oMiniRealtimePreview, "gpt-4o-mini-realtime-preview");
    (ModelGPTAudio, "gpt-audio");
    (ModelGPTAudioMini, "gpt-audio-mini");
    (ModelGPT4oAudioPreview, "gpt-4o-audio-preview");
    (ModelGPT4oMiniAudioPreview, "gpt-4o-mini-audio-preview");
    (ModelGPT4oMiniSearchPreview, "gpt-4o-mini-search-preview");
    (ModelGPT4oSearchPreview, "gpt-4o-search-preview");
    (ModelGPT4oMiniTTS, "gpt-4o-mini-tts");
    (ModelGPT4oTranscribe, "gpt-4o-transcribe");
    (ModelGPT4oTranscribeDiarize, "gpt-4o-transcribe-diarize");
    (ModelGPT4oMiniTranscribe, "gpt-4o-mini-transcribe");
    (ModelGPTImage15, "gpt-image-1.5");
    (ModelChatGPTImageLatest, "chatgpt-image-latest");
    (ModelGPTImage1, "gpt-image-1");
    (ModelGPTImage1Mini, "gpt-image-1-mini")
  ].

Definition anthropicModels : list (ModelConst * string) :=
  [
    (ModelClaudeSonnet, "claude-sonnet-4-5-20250929");
    (ModelClaudeHaiku, "claude-haiku-4-5-20251001");
    (ModelClaudeOpus, "claude-opus-4-5-20251101");
    (ModelClaudeOpus41, "claude-opus-4-1-20250805");
    (ModelClaudeSonnet4, "claude-sonnet-4-20250514");
    (ModelClaudeOpus4, "claude-opus-4-20250514");
    (ModelClaudeSonnet37, "claude-3-7-sonnet-20250219");
    (ModelClaudeHaiku35, "claude-3-5-haiku-20241022");
    (ModelClaudeHaiku3, "claude-3-haiku-20240307");
    (ModelClaudeOpus3, "claude-3-opus-20240229");
    (ModelClaudeSonnet3, "claude-3-sonnet-20240229")
  ].

Definition googleModels : list (ModelConst * string) :=
  [
    (ModelGemini3Pro, "gemini-3-pro-preview");
    (ModelGemini3Flash, "gemini-3-flash-preview");
    (ModelGemini25Pro, "gemini-2.5-pro");
    (ModelGemini25Flash, "gemini-2.5-flash");
    (ModelGemini25FlashLite, "gemini-2.5-flash-lite");
    (ModelGemini2Flash, "gemini-2.0-flash");
    (ModelGemini2FlashLite, "gemini-2.0-flash-lite")
  ].

(** [looksLikeOpenAIModelID]. *)
Definition isDigit (c : ascii) : bool :=
  (48 <=? nat_of_ascii c)%nat && (nat_of_ascii c <=? 57)%nat.

Definition looksLikeOpenAIModelID (id : string) : bool :=
  if HasPrefix id "gpt-" then true
  else if HasPrefix id "chatgpt-" then true
  else if HasPrefix id "sora-" then true
  else if HasPrefix id "whisper-" then true
  else if HasPrefix id "tts-" then true
  else if HasPrefix id "text-embedding-" then true
  else
    match id with
    | String c0 (String c1 _) => Ascii.eqb c0 "o"%char && isDigit c1
    | _ => false
    end.

(** The first two statements of [normalizeAnthropicModelID]: the value of
    [raw] once an [anthropic/] prefix and a [:suffix] are cut off. *)
Definition routingCore (raw : string) : string :=
  let raw := let '(after, ok) := CutPrefix raw "anthropic/" in
             if ok then after else raw in
  let raw := let i := IndexByte raw ":"%char in
             if 0 <=? i then sliceTo (Z.to_nat i) raw else raw in
  raw.

(** [normalizeAnthropicModelID]. *)
Definition normalizeAnthropicModelID (raw : string) : string :=
  let raw := routingCore raw in
  if String.eqb raw "claude-sonnet-4.5" then "claude-sonnet-4-5-20250929"
  else if String.eqb raw "claude-haiku-4.5" then "claude-haiku-4-5-20251001"
  else if String.eqb raw "claude-opus-4.5" then "claude-opus-4-5-20251101"
  else if String.eqb raw "claude-opus-4.1" then "claude-opus-4-1-20250805"
  else if String.eqb raw "claude-opus-4" then "claude-opus-4-20250514"
  else if String.eqb raw "claude-sonnet-4" then "claude-sonnet-4-20250514"
  else if String.eqb raw "claude-3.7-sonnet" then "claude-3-7-sonnet-20250219"
  else if String.eqb raw "claude-3.5-haiku" then "claude-3-5-haiku-20241022"
  else if String.eqb raw "claude-3-haiku" then "claude-3-haiku-20240307"
  else if String.eqb raw "claude-3-opus" then "claude-3-opus-20240229"
  else if String.eqb raw "claude-3-sonnet" then "claude-3-sonnet-20240229"
  else
    let raw := ReplaceAll raw ".1" "-1" in
    let raw := ReplaceAll raw ".5" "-5" in
    let raw := ReplaceAll raw ".7" "-7" in
    let raw := ReplaceAll raw ".0" "-0" in
    let raw := ReplaceAll raw ".2" "-2" in
    let raw := ReplaceAll raw ".3" "-3" in
    let raw := ReplaceAll raw ".4" "-4" in
    let raw := ReplaceAll raw ".6" "-6" in
    let raw := ReplaceAll raw ".8" "-8" in
    let raw := ReplaceAll raw ".9" "-9" in
    raw.

Section Resolver.
Context `{ModelConstants}.

(** A map literal keyed by [Model] constants. *)
Definition modelTable (entries : list (ModelConst * string)) : gmap Model string :=
  list_to_map (prod_map modelID id <$> entries).

(** The composite literal assigned to [modelMappings]. *)
Definition modelMappingsLiteral : gmap ProviderType (gmap Model string) :=
  {[ ProviderOpenRouter := modelTable openRouterModels;
     ProviderOpenAI := modelTable openAIModels;
     ProviderAnthropic := modelTable anthropicModels;
     ProviderGoogle := modelTable googleModels;
     ProviderAzure := ∅ ]}.

(** [init]: the Azure table becomes the OpenAI table. *)
Definition init (mappings : gmap ProviderType (gmap Model string))
  : gmap ProviderType (gmap Model string) :=
  match mappings !! ProviderOpenAI with
  | Some m => <[ProviderAzure := m]> mappings
  | None => mappings
  end.

(** [modelMappings] as every caller sees it, that is after [init]. *)
Definition modelMappings : gmap ProviderType (gmap Model string) :=
  init modelMappingsLiteral.

(** [resolveModel]. *)
Definition resolveModel (providerType : ProviderType) (model : Model) : string :=
  match modelMappings !! providerType ≫= (λ mapping, mapping !! model) with
  | Some resolved => resolved
  | None =>
      let raw := model in
      if String.eqb providerType ProviderOpenAI || String.eqb providerType ProviderAzure then
        if HasPrefix raw "openai/" then TrimPrefix raw "openai/" else raw
      else if String.eqb providerType ProviderOpenRouter then
        if negb (Contains raw "/") && looksLikeOpenAIModelID raw
        then "openai/" +:+ raw else raw
      else if String.eqb providerType ProviderAnthropic then
        normalizeAnthropicModelID raw
      else if String.eqb providerType ProviderGoogle then
        if HasPrefix raw "google/" then TrimPrefix raw "google/" else raw
      else raw
  end.
End Resolver.

(** A sample assignment of the [Model] constants, used to run the resolver on
    concrete inputs: each constant stands for its OpenRouter slug. *)
Definition sampleModelID : ModelConstants := λ c,
  match c with
  | ModelGPT52 => "openai/gpt-5.2"
  | ModelGPT52Pro => "openai/gpt-5.2-pro"
  | ModelGPT51 => "openai/gpt-5.1"
  | ModelGPT5Base => "openai/gpt-5"
  | ModelGPT5Pro => "openai/gpt-5-pro"
  | ModelGPT5Mini => "openai/gpt-5-mini"
  | ModelGPT5Nano => "openai/gpt-5-nano"
  | ModelGPT51Codex => "openai/gpt-5.1-codex"
  | ModelGPT51CodexMax => "openai/gpt-5.1-codex-max"
  | ModelGPT5CodexBase => "openai/gpt-5-codex"
  | ModelGPT51CodexMini => "openai/gpt-5.1-codex-mini"
  | ModelCodexMiniLatest => "openai/codex-mini-latest"
  | ModelGPT5SearchAPI => "openai/gpt-5-search-api"
  | ModelComputerUsePreview => "openai/computer-use-preview"
  | ModelGPT52ChatLatest => "openai/gpt-5.2-chat-latest"
  | ModelGPT51ChatLatest => "openai/gpt-5.1-chat-latest"
  | ModelGPT5ChatLatest => "openai/gpt-5-chat-latest"
  | ModelChatGPT4oLatest => "openai/chatgpt-4o-latest"
  | ModelGPT41 => "openai/gpt-4.1"
  | ModelGPT41Mini => "openai/gpt-4.1-mini"
  | ModelGPT41Nano => "openai/gpt-4.1-nano"
  | ModelGPT4o => "openai/gpt-4o"
  | ModelGPT4o20240513 => "openai/gpt-4o-2024-05-13"
  | ModelGPT4oMini => "openai/gpt-4o-mini"
  | ModelO1 => "openai/o1"
  | ModelO1Mini => "openai/o1-mini"
  | ModelO1Pro => "openai/o1-pro"
  | ModelO1Preview => "openai/o1-preview"
  | ModelO3 => "openai/o3"
  | ModelO3Mini => "openai/o3-mini"
  | ModelO3Pro => "openai/o3-pro"
  | ModelO3DeepResearch => "openai/o3-deep-research"
  | ModelO4Mini => "openai/o4-mini"
  | ModelO4MiniDeepResearch => "openai/o4-mini-deep-research"
  | ModelGPTRealtime => "openai/gpt-realtime"
  | ModelGPTRealtimeMini => "openai/gpt-realtime-mini"
  | ModelGPT4oRealtimePreview => "openai/gpt-4o-realtime-preview"
  | ModelGPT4oMiniRealtimePreview => "openai/gpt-4o-mini-realtime-preview"
  | ModelGPTAudio => "openai/gpt-audio"
  | ModelGPTAudioMini => "openai/gpt-audio-mini"
  | ModelGPT4oAudioPreview => "openai/gpt-4o-audio-preview"
  | ModelGPT4oMiniAudioPreview => "openai/gpt-4o-mini-audio-preview"
  | ModelGPT4oMiniSearchPreview => "openai/gpt-4o-mini-search-preview"
  | ModelGPT4oSearchPreview => "openai/gpt-4o-search-preview"
  | ModelGPT4oMiniTTS => "openai/gpt-4o-mini-tts"
  | ModelGPT4oTranscribe => "openai/gpt-4o-transcribe"
  | ModelGPT4oTranscribeDiarize => "openai/gpt-4o-transcribe-diarize"
  | ModelGPT4oMiniTranscribe => "openai/gpt-4o-mini-transcribe"
  | ModelGPTImage15 => "openai/gpt-image-1.5"
  | ModelChatGPTImageLatest => "openai/chatgpt-image-latest"
  | ModelGPTImage1 => "openai/gpt-image-1"
  | ModelGPTImage1Mini => "openai/gpt-image-1-mini"
  | ModelSora2 => "openai/sora-2"
  | ModelSora2Pro => "openai/sora-2-pro"
  | ModelClaudeOpus => "anthropic/claude-opus-4.5"
  | ModelClaudeSonnet => "anthropic/claude-sonnet-4.5"
  | ModelClaudeHaiku => "anthropic/claude-haiku-4.5"
  | ModelClaudeOpus41 => "anthropic/claude-opus-4.1"
  | ModelClaudeOpus4 => "anthropic/claude-opus-4"
  | ModelClaudeSonnet4 => "anthropic/claude-sonnet-4"
  | ModelClaudeSonnet37 => "anthropic/claude-3.7-sonnet"
  | ModelClaudeHaiku35 => "anthropic/claude-3.5-haiku"
  | ModelClaudeHaiku3 => "anthropic/claude-3-haiku"
  | ModelClaudeOpus3 => "anthropic/claude-3-opus"
  | ModelClaudeSonnet3 => "anthropic/claude-3-sonnet"
  | ModelGemini3Pro => "google/gemini-3-pro-preview"
  | ModelGemini3Flash => "google/gemini-3-flash-preview"
  | ModelGemini25Pro => "google/gemini-2.5-pro"
  | ModelGemini25Flash => "google/gemini-2.5-flash"
  | ModelGemini25FlashLite => "google/gemini-2.5-flash-lite"
  | ModelGemini2Flash => "google/gemini-2.0-flash-001"
  | ModelGemini2FlashLite => "google/gemini-2.0-flash-lite-001"
  | ModelGrok41Fast => "x-ai/grok-4.1-fast"
  | ModelGrok3 => "x-ai/grok-3"
  | ModelGrok3Mini => "x-ai/grok-3-mini"
  | ModelQwen3Next => "qwen/qwen3-next"
  | ModelQwen3 => "qwen/qwen-3-235b"
  | ModelLlama4 => "meta-llama/llama-4-maverick"
  | ModelMistralLarge => "mistralai/mistral-large"
  end.

(** ** Wire translator, outbound: [buildBuiltinTool] *)

Record UserLocation := {
  ul_Type : string;
  ul_Country : string;
  ul_City : string;
  ul_Region : string;
  ul_Timezone : string }.

Record SearchFilter := { sf_AllowedDomains : list string }.

Record ContainerConfig := {
  cc_Type : string;
  cc_MemoryLimit : string;
  cc_FileIDs : list string }.

Record ToolNameFilter := { tnf_ToolNames : list string }.

Record ApprovalConfig := {
  ac_Never : option ToolNameFilter;
  ac_Always : option ToolNameFilter }.

(** A non-nil value of an [any] field of [BuiltinTool]: the dynamic types
    that the field comments and the builder methods name, and [AnyOther] for
    a value of any other type, carried by its rendering. *)
Inductive anyValue :=
  | AnyString (s : string)
  | AnyContainerConfig (c : ContainerConfig)
  | AnyApprovalConfig (a : ApprovalConfig)
  | AnyOther (rendering : string).

(** [BuiltinTool]. A pointer or [any] field is an [option] ([None] is nil). *)
Record BuiltinTool := {
  bt_Type : string;
  bt_UserLocation : option UserLocation;
  bt_SearchFilter : option SearchFilter;
  bt_VectorStoreIDs : list string;
  bt_MaxNumResults : Z;
  bt_FileFilter : option anyValue;
  bt_Container : option anyValue;
  bt_ServerLabel : string;
  bt_ServerURL : string;
  bt_ServerDescription : string;
  bt_ConnectorID : string;
  bt_Authorization : string;
  bt_RequireApproval : option anyValue;
  bt_AllowedTools : list string;
  bt_ImageSize : string;
  bt_ImageQuality : string;
  bt_ImageFormat : string;
  bt_ImageCompression : Z;
  bt_ImageBackground : string;
  bt_PartialImages : Z;
  bt_DisplayWidth : Z;
  bt_DisplayHeight : Z;
  bt_Environment : string }.

(** The values stored in the [map[string]any] that [buildBuiltinTool]
    returns, by the static type of the expression assigned. *)
Inductive wireValue :=
  | WString (s : string)
  | WInt (n : Z)
  | WStrings (l : list string)
  | WUserLocation (u : UserLocation)
  | WSearchFilter (f : SearchFilter)
  | WAny (a : anyValue).

(** [if s != "" { tool[k] = s }] *)
Definition setString (k s : string) (tool : gmap string wireValue) : gmap string wireValue :=
  if negb (String.eqb s "") then <[k := WString s]> tool else tool.

(** [if n > 0 { tool[k] = n }] *)
Definition setInt (k : string) (n : Z) (tool : gmap string wireValue) : gmap string wireValue :=
  if 0 <? n then <[k := WInt n]> tool else tool.

(** [if len(l) > 0 { tool[k] = l }] *)
Definition setStrings (k : string) (l : list string) (tool : gmap string wireValue) : gmap string wireValue :=
  if (0 <? length l)%nat then <[k := WStrings l]> tool else tool.

(** [if x != nil { tool[k] = x }] *)
Definition setNonNil {A} (k : string) (inj : A → wireValue) (x : option A)
    (tool : gmap string wireValue) : gmap string wireValue :=
  match x with
  | Some a => <[k := inj a]> tool
  | None => tool
  end.

(** [buildBuiltinTool]: the statements of each [case], in order. *)
Definition buildBuiltinTool (bt : BuiltinTool) : gmap string wireValue :=
  let tool : gmap string wireValue := {[ "type" := WString (bt_Type bt) ]} in
  if String.eqb (bt_Type bt) "web_search" then
    let tool := setNonNil "user_location" WUserLocation (bt_UserLocation bt) tool in
    let tool := setNonNil "filters" WSearchFilter (bt_SearchFilter bt) tool in
    tool
  else if String.eqb (bt_Type bt) "file_search" then
    let tool := setStrings "vector_store_ids" (bt_VectorStoreIDs bt) tool in
    let tool := setInt "max_num_results" (bt_MaxNumResults bt) tool in
    let tool := setNonNil "filters" WAny (bt_FileFilter bt) tool in
    tool
  else if String.eqb (bt_Type bt) "code_interpreter" then
    let tool := setNonNil "container" WAny (bt_Container bt) tool in
    tool
  else if String.eqb (bt_Type bt) "mcp" then
    let tool := setString "server_label" (bt_ServerLabel bt) tool in
    let tool := setString "server_url" (bt_ServerURL bt) tool in
    let tool := setString "server_description" (bt_ServerDescription bt) tool in
    let tool := setString "connector_id" (bt_ConnectorID bt) tool in
    let tool := setString "authorization" (bt_Authorization bt) tool in
    let tool := setNonNil "require_approval" WAny (bt_RequireApproval bt) tool in
    let tool := setStrings "allowed_tools" (bt_AllowedTools bt) tool in
    tool
  else if String.eqb (bt_Type bt) "image_generation" then
    let tool := setString "size" (bt_ImageSize bt) tool in
    let tool := setString "quality" (bt_ImageQuality bt) tool in
    let tool := setString "output_format" (bt_ImageFormat bt) tool in
    let tool := setInt "compression" (bt_ImageCompression bt) tool in
    let tool := setString "background" (bt_ImageBackground bt) tool in
    let tool := setInt "partial_images" (bt_PartialImages bt) tool in
    tool
  else if String.eqb (bt_Type bt) "computer_use_preview" then
    let tool := setInt "display_width" (bt_DisplayWidth bt) tool in
    let tool := setInt "display_height" (bt_DisplayHeight bt) tool in
    let tool := setString "environment" (bt_Environment bt) tool in
    tool
  else if String.eqb (bt_Type bt) "shell" then
    tool
  else if String.eqb (bt_Type bt) "apply_patch" then
    tool
  else
    tool.

(** The zero [BuiltinTool] with the given tag, as [BuiltinTool{Type: t}]. *)
Definition zeroBuiltinTool (t : string) : BuiltinTool :=
  {| bt_Type := t; bt_UserLocation := None; bt_SearchFilter := None;
     bt_VectorStoreIDs := []; bt_MaxNumResults := 0; bt_FileFilter := None;
     bt_Container := None; bt_ServerLabel := ""; bt_ServerURL := "";
     bt_ServerDescription := ""; bt_ConnectorID := ""; bt_Authorization := "";
     bt_RequireApproval := None; bt_AllowedTools := []; bt_ImageSize := "";
     bt_ImageQuality := ""; bt_ImageFormat := ""; bt_ImageCompression := 0;
     bt_ImageBackground := ""; bt_PartialImages := 0; bt_DisplayWidth := 0;
     bt_DisplayHeight := 0; bt_Environment := "" |}.

(** ** Provider request, response and error *)

(** [json.RawMessage]: the bytes of one JSON value, [""] when the member is
    absent. *)
Definition RawMessage := string.

(** [ToolCall] (function calling) is declared in other files of the package;
    the decoders below only move it around, so it is carried undecoded. *)
Record ToolCall := { toolCall_raw : RawMessage }.

Record Citation := {
  cit_Type : string;
  cit_URL : string;
  cit_Title : string;
  cit_FileID : string;
  cit_Filename : string;
  cit_StartIndex : Z;
  cit_EndIndex : Z }.

Record Source := { src_URL : string; src_Title : string }.

Record ComputerAction := {
  ca_Type : string;
  ca_X : Z;
  ca_Y : Z;
  ca_Button : string;
  ca_ScrollX : Z;
  ca_ScrollY : Z;
  ca_Keys : list string;
  ca_Text : string }.

Record SafetyCheck := { sc_ID : string; sc_Code : string; sc_Message : string }.

Record ShellAction := {
  sa_Commands : list string;
  sa_TimeoutMs : Z;
  sa_MaxOutputLength : Z }.

Record PatchOperation := { po_Type : string; po_Path : string; po_Diff : string }.

Record ResponsesToolCall := {
  rtc_ID : string;
  rtc_Type : string;
  rtc_Status : string;
  rtc_CallID : string;
  rtc_ServerLabel : string;
  rtc_Name : string;
  rtc_Arguments : string;
  rtc_Output : string;
  rtc_Error : string;
  rtc_RevisedPrompt : string;
  rtc_ImageResult : string;
  rtc_Action : option ComputerAction;
  rtc_ShellAction : option ShellAction;
  rtc_PatchOperation : option PatchOperation;
  rtc_PendingSafetyChecks : list SafetyCheck }.

Record ResponsesOutput := {
  ro_Text : string;
  ro_Citations : list Citation;
  ro_Sources : list Source;
  ro_ToolCalls : list ResponsesToolCall;
  ro_OutputItems : list anyValue }.

Record ProviderResponse := {
  pr_Content : string;
  pr_ToolCalls : list ToolCall;
  pr_PromptTokens : Z;
  pr_CompletionTokens : Z;
  pr_TotalTokens : Z;
  pr_FinishReason : string;
  pr_ResponsesOutput : option ResponsesOutput }.

(** [ProviderError]; [pe_Err] is the wrapped error, if any. *)
Record ProviderError := {
  pe_Provider : string;
  pe_Code : string;
  pe_Message : string;
  pe_Err : option string }.

(** A Go result pair [(value, error)] of which exactly one side is non-nil. *)
Inductive result (T E : Type) :=
  | Ok (v : T)
  | Err (e : E).
Arguments Ok {T E} v.
Arguments Err {T E} e.

(** ** Wire translator, inbound: [parseResponse], [parseResponsesResponse] *)

(** The anonymous struct types that the two decoders declare for
    [json.Unmarshal]. *)
Record errorObject := {
  eo_Message : string;
  eo_Type : string;
  eo_Code : string }.

Record chatMessage := {
  cm_Role : string;
  cm_Content : string;
  cm_ToolCalls : list ToolCall }.

Record chatChoice := {
  cc_Message : chatMessage;
  cc_FinishReason : string }.

Record chatUsage := {
  cu_PromptTokens : Z;
  cu_CompletionTokens : Z;
  cu_TotalTokens : Z }.

Record chatResult := {
  chat_ID : string;
  chat_Choices : list chatChoice;
  chat_Usage : chatUsage;
  chat_Error : option errorObject }.

Record annotation := {
  an_Type : string;
  an_URL : string;
  an_Title : string;
  an_FileID : string;
  an_Filename : string;
  an_StartIndex : Z;
  an_EndIndex : Z }.

Record contentPart := {
  cp_Type : string;
  cp_Text : string;
  cp_Annotations : list annotation }.

Record pendingCheck := { pc_ID : string; pc_Code : string; pc_Message : string }.

Record operationObject := { oo_Type : string; oo_Path : string; oo_Diff : string }.

Record outputItem := {
  it_ID : string;
  it_Type : string;
  it_Status : string;
  it_CallID : string;
  it_Role : string;
  it_Content : list contentPart;
  it_ServerLabel : string;
  it_Name : string;
  it_Arguments : string;
  it_OutputText : string;
  it_Error : string;
  it_RevisedPrompt : string;
  it_Result : string;
  it_Action : RawMessage;
  it_PendingSafetyChecks : list pendingCheck;
  it_Operation : option operationObject }.

Record responsesUsage := {
  ru_InputTokens : Z;
  ru_OutputTokens : Z;
  ru_TotalTokens : Z }.

Record responsesResult := {
  rr_ID : string;
  rr_Status : string;
  rr_Output : list outputItem;
  rr_OutputText : string;
  rr_Usage : responsesUsage;
  rr_Error : option errorObject }.

(** [encoding/json] is Go's standard library. The development is parametric
    in what [json.Unmarshal] answers for each target type the decoders use:
    the decoded value when it returns a nil error, the text of the error
    otherwise (the partly filled target is then never read by the code). *)
Class EncodingJSON := {
  Unmarshal_chatResult : string → result chatResult string;
  Unmarshal_responsesResult : string → result responsesResult string;
  Unmarshal_ComputerAction : RawMessage → result ComputerAction string;
  Unmarshal_ShellAction : RawMessage → result ShellAction string }.

Definition newline : string := String (ascii_of_nat 10) EmptyString.

(** The double quote, byte 34. *)
Definition doubleQuote : ascii := ascii_of_nat 34.

(** [OpenAIProvider.Name]. *)
Definition Name : string := "openai".

(** The state of the walk over [result.Output]: the three local variables
    [textContent], [citations] and [toolCalls]. *)
Record walk := {
  textContent : string;
  citations : list Citation;
  toolCalls : list ResponsesToolCall }.

(** The composite literal [ResponsesToolCall{ID, Type, Status, CallID}]. *)
Definition callHeader (item : outputItem) : ResponsesToolCall :=
  {| rtc_ID := it_ID item; rtc_Type := it_Type item;
     rtc_Status := it_Status item; rtc_CallID := it_CallID item;
     rtc_ServerLabel := ""; rtc_Name := ""; rtc_Arguments := "";
     rtc_Output := ""; rtc_Error := ""; rtc_RevisedPrompt := "";
     rtc_ImageResult := ""; rtc_Action := None; rtc_ShellAction := None;
     rtc_PatchOperation := None; rtc_PendingSafetyChecks := [] |}.

Definition toCitation (ann : annotation) : Citation :=
  {| cit_Type := an_Type ann; cit_URL := an_URL ann; cit_Title := an_Title ann;
     cit_FileID := an_FileID ann; cit_Filename := an_Filename ann;
     cit_StartIndex := an_StartIndex ann; cit_EndIndex := an_EndIndex ann |}.

Definition toSafetyCheck (sc : pendingCheck) : SafetyCheck :=
  {| sc_ID := pc_ID sc; sc_Code := pc_Code sc; sc_Message := pc_Message sc |}.

(** Body of [for _, c := range item.Content]. *)
Definition walkContent (w : walk) (c : contentPart) : walk :=
  if String.eqb (cp_Type c) "output_text" || String.eqb (cp_Type c) "text" then
    {| textContent := textContent w +:+ cp_Text c;
       citations := citations w ++ (toCitation <$> cp_Annotations c);
       toolCalls := toolCalls w |}
  else w.

Definition appendCall (w : walk) (tc : ResponsesToolCall) : walk :=
  {| textContent := textContent w;
     citations := citations w;
     toolCalls := toolCalls w ++ [tc] |}.

(** The statements after the loop: the [output_text] fallback and the
    [ProviderResponse] that is returned. *)
Definition respond (result : responsesResult) (w : walk) : ProviderResponse :=
  let textContent :=
    if String.eqb (textContent w) "" && negb (String.eqb (rr_OutputText result) "")
    then rr_OutputText result else textContent w in
  {| pr_Content := textContent;
     pr_ToolCalls := [];
     pr_PromptTokens := ru_InputTokens (rr_Usage result);
     pr_CompletionTokens := ru_OutputTokens (rr_Usage result);
     pr_TotalTokens := ru_TotalTokens (rr_Usage result);
     pr_FinishReason := "";
     pr_ResponsesOutput :=
       Some {| ro_Text := textContent;
               ro_Citations := citations w;
               ro_Sources := [];
               ro_ToolCalls := toolCalls w;
               ro_OutputItems := [] |} |}.

Section Inbound.
Context `{EncodingJSON}.

(** Body of [for _, item := range result.Output]: the [switch item.Type]. *)
Definition walkItem (w : walk) (item : outputItem) : walk :=
  let t := it_Type item in
  if String.eqb t "message" then
    fold_left walkContent (it_Content item) w
  else if String.eqb t "web_search_call" || String.eqb t "file_search_call"
          || String.eqb t "mcp_call" || String.eqb t "code_interpreter_call" then
    appendCall w
      {| rtc_ID := it_ID item; rtc_Type := it_Type item;
         rtc_Status := it_Status item; rtc_CallID := it_CallID item;
         rtc_ServerLabel := it_ServerLabel item; rtc_Name := it_Name item;
         rtc_Arguments := it_Arguments item; rtc_Output := it_OutputText item;
         rtc_Error := it_Error item; rtc_RevisedPrompt := "";
         rtc_ImageResult := ""; rtc_Action := None; rtc_ShellAction := None;
         rtc_PatchOperation := None; rtc_PendingSafetyChecks := [] |}
  else if String.eqb t "image_generation_call" then
    appendCall w
      {| rtc_ID := it_ID item; rtc_Type := it_Type item;
         rtc_Status := it_Status item; rtc_CallID := it_CallID item;
         rtc_ServerLabel := ""; rtc_Name := ""; rtc_Arguments := "";
         rtc_Output := ""; rtc_Error := "";
         rtc_RevisedPrompt := it_RevisedPrompt item;
         rtc_ImageResult := it_Result item; rtc_Action := None;
         rtc_ShellAction := None; rtc_PatchOperation := None;
         rtc_PendingSafetyChecks := [] |}
  else if String.eqb t "computer_call" then
    let tc := callHeader item in
    let action :=
      if (0 <? String.length (it_Action item))%nat then
        match Unmarshal_ComputerAction (it_Action item) with
        | Ok action => Some action
        | Err _ => None
        end
      else None in
    appendCall w
      {| rtc_ID := rtc_ID tc; rtc_Type := rtc_Type tc;
         rtc_Status := rtc_Status tc; rtc_CallID := rtc_CallID tc;
         rtc_ServerLabel := ""; rtc_Name := ""; rtc_Arguments := "";
         rtc_Output := ""; rtc_Error := ""; rtc_RevisedPrompt := "";
         rtc_ImageResult := ""; rtc_Action := action;
         rtc_ShellAction := None; rtc_PatchOperation := None;
         rtc_PendingSafetyChecks :=
           toSafetyCheck <$> it_PendingSafetyChecks item |}
  else if String.eqb t "shell_call" then
    let tc := callHeader item in
    let action :=
      if (0 <? String.length (it_Action item))%nat then
        match Unmarshal_ShellAction (it_Action item) with
        | Ok action => Some action
        | Err _ => None
        end
      else None in
    appendCall w
      {| rtc_ID := rtc_ID tc; rtc_Type := rtc_Type tc;
         rtc_Status := rtc_Status tc; rtc_CallID := rtc_CallID tc;
         rtc_ServerLabel := ""; rtc_Name := ""; rtc_Arguments := "";
         rtc_Output := ""; rtc_Error := ""; rtc_RevisedPrompt := "";
         rtc_ImageResult := ""; rtc_Action := None;
         rtc_ShellAction := action; rtc_PatchOperation := None;
         rtc_PendingSafetyChecks := [] |}
  else if String.eqb t "apply_patch_call" then
    let tc := callHeader item in
    appendCall w
      {| rtc_ID := rtc_ID tc; rtc_Type := rtc_Type tc;
         rtc_Status := rtc_Status tc; rtc_CallID := rtc_CallID tc;
         rtc_ServerLabel := ""; rtc_Name := ""; rtc_Arguments := "";
         rtc_Output := ""; rtc_Error := ""; rtc_RevisedPrompt := "";
         rtc_ImageResult := ""; rtc_Action := None; rtc_ShellAction := None;
         rtc_PatchOperation :=
           (λ op, {| po_Type := oo_Type op; po_Path := oo_Path op;
                     po_Diff := oo_Diff op |}) <$> it_Operation item;
         rtc_PendingSafetyChecks := [] |}
  else w.

(** The whole loop, from the three nil/empty locals. *)
Definition walkOutput (output : list outputItem) : walk :=
  fold_left walkItem output
    {| textContent := ""; citations := []; toolCalls := [] |}.

(** [parseResponsesResponse]. *)
Definition parseResponsesResponse (body : string)
  : result ProviderResponse ProviderError :=
  match Unmarshal_responsesResult body with
  | Err err =>
      Err {| pe_Provider := Name; pe_Code := "";
             pe_Message := "parse error: " +:+ err +:+ newline +:+ "Body: " +:+ body;
             pe_Err := None |}
  | Ok result =>
      match rr_Error result with
      | Some e =>
          Err {| pe_Provider := Name; pe_Code := eo_Code e;
                 pe_Message := eo_Message e; pe_Err := None |}
      | None => Ok (respond result (walkOutput (rr_Output result)))
      end
  end.

(** [parseResponse] (chat completions). *)
Definition parseResponse (body : string)
  : result ProviderResponse ProviderError :=
  match Unmarshal_chatResult body with
  | Err err =>
      Err {| pe_Provider := Name; pe_Code := "";
             pe_Message := "parse error: " +:+ err +:+ newline +:+ "Body: " +:+ body;
             pe_Err := None |}
  | Ok result =>
      match chat_Error result with
      | Some e =>
          Err {| pe_Provider := Name; pe_Code := eo_Code e;
                 pe_Message := eo_Message e; pe_Err := None |}
      | None =>
          match chat_Choices result with
          | [] =>
              Err {| pe_Provider := Name; pe_Code := "";
                     pe_Message := "no response choices"; pe_Err := None |}
          | choice :: _ =>
              Ok {| pr_Content := cm_Content (cc_Message choice);
                    pr_ToolCalls := cm_ToolCalls (cc_Message choice);
                    pr_PromptTokens := cu_PromptTokens (chat_Usage result);
                    pr_CompletionTokens := cu_CompletionTokens (chat_Usage result);
                    pr_TotalTokens := cu_TotalTokens (chat_Usage result);
                    pr_FinishReason := cc_FinishReason choice;
                    pr_ResponsesOutput := None |}
          end
      end
  end.
End Inbound.

(** ** An executable instance of [EncodingJSON]

    A scanner for JSON texts (without [\u] escapes) and decoders that follow
    the rules of [json.Unmarshal] for the target types above. It is used to
    run the two decoders on concrete bodies; every general statement below
    is proved for an arbitrary [EncodingJSON]. *)
Module SampleJSON.

#[warnings="-register-all"]
Inductive json :=
  | JNull
  | JBool (b : bool)
  | JInt (n : Z)              (* a number literal in integer syntax *)
  | JReal (literal : string)  (* a number literal with fraction or exponent *)
  | JString (s : string)
  | JArray (elements : list json)
  | JObject (members : list (string * json)).

(** *** Scanner *)

Definition isSpace (c : ascii) : bool :=
  let n := nat_of_ascii c in
  (n =? 32)%nat || (n =? 9)%nat || (n =? 10)%nat || (n =? 13)%nat.

Fixpoint skipSpace (s : string) : string :=
  match s with
  | String c s' => if isSpace c then skipSpace s' else s
  | EmptyString => s
  end.

Definition digitValue (c : ascii) : Z := Z.of_nat (nat_of_ascii c) - 48.

Fixpoint spanDigits (s : string) : string * string :=
  match s with
  | String c s' =>
      if isDigit c then let '(ds, rest) := spanDigits s' in (String c ds, rest)
      else (EmptyString, s)
  | EmptyString => (EmptyString, s)
  end.

Fixpoint digitsValue (acc : Z) (ds : string) : Z :=
  match ds with
  | String c ds' => digitsValue (10 * acc + digitValue c) ds'
  | EmptyString => acc
  end.

(** The integer part of a JSON number: ["0"] or a digit string without a
    leading zero. *)
Definition validIntDigits (ds : string) : bool :=
  match ds with
  | EmptyString => false
  | String c EmptyString => true
  | String c _ => negb (Ascii.eqb c "0"%char)
  end.

Definition scanFraction (s : string) : option (string * string) :=
  match s with
  | String "."%char s' =>
      let '(ds, rest) := spanDigits s' in
      if String.eqb ds "" then None else Some ("." +:+ ds, rest)
  | _ => Some ("", s)
  end.

Definition scanExponent (s : string) : option (string * string) :=
  match s with
  | String c s' =>
      if Ascii.eqb c "e"%char || Ascii.eqb c "E"%char then
        let '(sign, s'') :=
          match s' with
          | String d r =>
              if Ascii.eqb d "+"%char || Ascii.eqb d "-"%char
              then (String d EmptyString, r) else (EmptyString, s')
          | EmptyString => (EmptyString, s')
          end in
        let '(ds, rest) := spanDigits s'' in
        if String.eqb ds "" then None
        else Some (String c sign +:+ ds, rest)
      else Some ("", s)
  | EmptyString => Some ("", s)
  end.

Definition scanNumber (s : string) : option (json * string) :=
  let '(neg, s1) :=
    match s with
    | String "-"%char r => (true, r)
    | _ => (false, s)
    end in
  let '(ds, s2) := spanDigits s1 in
  if validIntDigits ds then
    '(frac, s3) ← scanFraction s2;
    '(exp, s4) ← scanExponent s3;
    if String.eqb frac "" && String.eqb exp "" then
      Some (JInt (if neg then - digitsValue 0 ds else digitsValue 0 ds), s4)
    else
      Some (JReal ((if neg then "-" else "") +:+ ds +:+ frac +:+ exp), s4)
  else None.

(** The body of a string literal, after the opening quote. *)
Fixpoint scanString (s : string) : option (string * string) :=
  match s with
  | EmptyString => None
  | String c s' =>
      if Ascii.eqb c doubleQuote then Some (EmptyString, s')
      else if Ascii.eqb c "\"%char then
        match s' with
        | String e s'' =>
            let unescaped :=
              if Ascii.eqb e doubleQuote then Some doubleQuote
              else if Ascii.eqb e "\"%char then Some "\"%char
              else if Ascii.eqb e "/"%char then Some "/"%char
              else if Ascii.eqb e "b"%char then Some (ascii_of_nat 8)
              else if Ascii.eqb e "f"%char then Some (ascii_of_nat 12)
              else if Ascii.eqb e "n"%char then Some (ascii_of_nat 10)
              else if Ascii.eqb e "r"%char then Some (ascii_of_nat 13)
              else if Ascii.eqb e "t"%char then Some (ascii_of_nat 9)
              else None in
            u ← unescaped;
            '(str, rest) ← scanString s'';
            Some (String u str, rest)
        | EmptyString => None
        end
      else if (nat_of_ascii c <? 32)%nat then None
      else
        '(str, rest) ← scanString s';
        Some (String c str, rest)
  end.

(** Recursive descent; [fuel] bounds the nesting plus the number of
    elements, the length of the text is always enough. *)
Fixpoint scanValue (fuel : nat) (s : string) : option (json * string) :=
  match fuel with
  | O => None
  | S fuel =>
      let s := skipSpace s in
      match s with
      | EmptyString => None
      | String c s' =>
          if Ascii.eqb c "{"%char then
            match skipSpace s' with
            | String "}"%char rest => Some (JObject [], rest)
            | _ => '(ms, rest) ← scanMembers fuel s'; Some (JObject ms, rest)
            end
          else if Ascii.eqb c "["%char then
            match skipSpace s' with
            | String "]"%char rest => Some (JArray [], rest)
            | _ => '(es, rest) ← scanElements fuel s'; Some (JArray es, rest)
            end
          else if Ascii.eqb c doubleQuote then
            '(str, rest) ← scanString s'; Some (JString str, rest)
          else if HasPrefix s "null" then Some (JNull, sliceFrom 4 s)
          else if HasPrefix s "true" then Some (JBool true, sliceFrom 4 s)
          else if HasPrefix s "false" then Some (JBool false, sliceFrom 5 s)
          else scanNumber s
      end
  end
with scanElements (fuel : nat) (s : string) : option (list json * string) :=
  match fuel with
  | O => None
  | S fuel =>
      '(v, rest) ← scanValue fuel s;
      match skipSpace rest with
      | String ","%char rest' =>
          '(vs, rest'') ← scanElements fuel rest'; Some (v :: vs, rest'')
      | String "]"%char rest' => Some ([v], rest')
      | _ => None
      end
  end
with scanMembers (fuel : nat) (s : string) : option (list (string * json) * string) :=
  match fuel with
  | O => None
  | S fuel =>
      match skipSpace s with
      | String c s1 =>
          if Ascii.eqb c doubleQuote then
            '(k, s2) ← scanString s1;
            match skipSpace s2 with
            | String ":"%char s3 =>
                '(v, rest) ← scanValue fuel s3;
                match skipSpace rest with
                | String ","%char rest' =>
                    '(ms, rest'') ← scanMembers fuel rest'; Some ((k, v) :: ms, rest'')
                | String "}"%char rest' => Some ([(k, v)], rest')
                | _ => None
                end
            | _ => None
            end
          else None
      | EmptyString => None
      end
  end.

(** A whole text: one value, then only white space. *)
Definition scan (text : string) : option json :=
  '(v, rest) ← scanValue (S (String.length text)) text;
  if String.eqb (skipSpace rest) "" then Some v else None.

(** *** Printer, for the bytes kept in a [json.RawMessage] *)

Fixpoint quoteBody (s : string) : string :=
  match s with
  | EmptyString => EmptyString
  | String c s' =>
      let n := nat_of_ascii c in
      (if Ascii.eqb c doubleQuote then String "\"%char (String doubleQuote "")
       else if Ascii.eqb c "\"%char then "\\"
       else if (n =? 8)%nat then "\b"
       else if (n =? 12)%nat then "\f"
       else if (n =? 10)%nat then "\n"
       else if (n =? 13)%nat then "\r"
       else if (n =? 9)%nat then "\t"
       else String c EmptyString) +:+ quoteBody s'
  end.

Definition quote (s : string) : string :=
  String doubleQuote (quoteBody s +:+ String doubleQuote "").

Fixpoint render (j : json) : string :=
  match j with
  | JNull => "null"
  | JBool b => if b then "true" else "false"
  | JInt n => pretty n
  | JReal literal => literal
  | JString s => quote s
  | JArray es =>
      "[" +:+
      (fix elements (es : list json) : string :=
         match es with
         | [] => ""
         | [e] => render e
         | e :: es' => render e +:+ "," +:+ elements es'
         end) es +:+ "]"
  | JObject ms =>
      "{" +:+
      (fix members (ms : list (string * json)) : string :=
         match ms with
         | [] => ""
         | [(k, v)] => quote k +:+ ":" +:+ render v
         | (k, v) :: ms' => quote k +:+ ":" +:+ render v +:+ "," +:+ members ms'
         end) ms +:+ "}"
  end.

(** *** Decoding a value into a target, as [json.Unmarshal] does

    A decoder receives the JSON value and the current content of the
    target; [None] is an [UnmarshalTypeError]. JSON [null] leaves a string,
    a number or a struct as it is and sets a slice or a pointer to nil. *)
Definition decoder (A : Type) : Type := json → A → option A.

Definition intoString : decoder string := λ j cur,
  match j with
  | JString s => Some s
  | JNull => Some cur
  | _ => None
  end.

(** Go [int] is 64 bits wide on the platforms the library is built for. *)
Definition intoInt : decoder Z := λ j cur,
  match j with
  | JInt n => if (- 2 ^ 63 <=? n) && (n <? 2 ^ 63) then Some n else None
  | JNull => Some cur
  | _ => None
  end.

(** Element [i] is decoded into the element already at [i], or into a zero
    value past the current length. *)
Fixpoint intoElements {A} (d : decoder A) (zero : A)
    (es : list json) (cur : list A) : option (list A) :=
  match es with
  | [] => Some []
  | e :: es' =>
      x ← d e (hd zero cur);
      xs ← intoElements d zero es' (tl cur);
      Some (x :: xs)
  end.

Definition intoSlice {A} (d : decoder A) (zero : A) : decoder (list A) := λ j cur,
  match j with
  | JArray es => intoElements d zero es cur
  | JNull => Some []
  | _ => None
  end.

Definition intoPointer {A} (d : decoder A) (zero : A) : decoder (option A) := λ j cur,
  match j with
  | JNull => Some None
  | _ => Some <$> d j (default zero cur)
  end.

(** [json.RawMessage] keeps the bytes of any value, [null] included. *)
Definition intoRaw : decoder RawMessage := λ j _, Some (render j).

Definition upper (c : ascii) : ascii :=
  let n := nat_of_ascii c in
  if (97 <=? n)%nat && (n <=? 122)%nat then ascii_of_nat (n - 32) else c.

(** The case folding under which member names match field names: ASCII
    letters to upper case, U+017F to [S] and U+212A to [K]. *)
Fixpoint foldName (s : string) : string :=
  match s with
  | EmptyString => EmptyString
  | String c s1 =>
      match s1 with
      | String c2 s2 =>
          if (nat_of_ascii c =? 197)%nat && (nat_of_ascii c2 =? 191)%nat
          then String "S"%char (foldName s2)
          else
            match s2 with
            | String c3 s3 =>
                if (nat_of_ascii c =? 226)%nat && (nat_of_ascii c2 =? 132)%nat
                   && (nat_of_ascii c3 =? 170)%nat
                then String "K"%char (foldName s3)
                else String (upper c) (foldName s1)
            | EmptyString => String (upper c) (foldName s1)
            end
      | EmptyString => String (upper c) EmptyString
      end
  end.

(** The members of an object are decoded in order; each one whose name
    matches [name] is decoded into the field, the others do not touch it. *)
Definition member {A} (name : string) (d : decoder A)
    (ms : list (string * json)) (cur : A) : option A :=
  fold_left
    (λ acc m, cur ← acc;
              if String.eqb (foldName m.1) (foldName name) then d m.2 cur
              else Some cur)
    ms (Some cur).

Definition intoStruct {A} (fields : list (string * json) → A → option A)
  : decoder A := λ j cur,
  match j with
  | JObject ms => fields ms cur
  | JNull => Some cur
  | _ => None
  end.

Definition intoStrings : decoder (list string) := intoSlice intoString "".

Definition intoErrorObject : decoder errorObject :=
  intoStruct (λ ms cur,
    message ← member "message" intoString ms (eo_Message cur);
    type ← member "type" intoString ms (eo_Type cur);
    code ← member "code" intoString ms (eo_Code cur);
    Some {| eo_Message := message; eo_Type := type; eo_Code := code |}).

Definition zeroErrorObject : errorObject :=
  {| eo_Message := ""; eo_Type := ""; eo_Code := "" |}.

Definition intoAnnotation : decoder annotation :=
  intoStruct (λ ms cur,
    type ← member "type" intoString ms (an_Type cur);
    url ← member "url" intoString ms (an_URL cur);
    title ← member "title" intoString ms (an_Title cur);
    fileID ← member "file_id" intoString ms (an_FileID cur);
    filename ← member "filename" intoString ms (an_Filename cur);
    startIndex ← member "start_index" intoInt ms (an_StartIndex cur);
    endIndex ← member "end_index" intoInt ms (an_EndIndex cur);
    Some {| an_Type := type; an_URL := url; an_Title := title;
            an_FileID := fileID; an_Filename := filename;
            an_StartIndex := startIndex; an_EndIndex := endIndex |}).

Definition zeroAnnotation : annotation :=
  {| an_Type := ""; an_URL := ""; an_Title := ""; an_FileID := "";
     an_Filename := ""; an_StartIndex := 0; an_EndIndex := 0 |}.

Definition intoContentPart : decoder contentPart :=
  intoStruct (λ ms cur,
    type ← member "type" intoString ms (cp_Type cur);
    text ← member "text" intoString ms (cp_Text cur);
    annotations ← member "annotations" (intoSlice intoAnnotation zeroAnnotation)
                    ms (cp_Annotations cur);
    Some {| cp_Type := type; cp_Text := text; cp_Annotations := annotations |}).

Definition zeroContentPart : contentPart :=
  {| cp_Type := ""; cp_Text := ""; cp_Annotations := [] |}.

Definition intoPendingCheck : decoder pendingCheck :=
  intoStruct (λ ms cur,
    id ← member "id" intoString ms (pc_ID cur);
    code ← member "code" intoString ms (pc_Code cur);
    message ← member "message" intoString ms (pc_Message cur);
    Some {| pc_ID := id; pc_Code := code; pc_Message := message |}).

Definition zeroPendingCheck : pendingCheck :=
  {| pc_ID := ""; pc_Code := ""; pc_Message := "" |}.

Definition intoOperationObject : decoder operationObject :=
  intoStruct (λ ms cur,
    type ← member "type" intoString ms (oo_Type cur);
    path ← member "path" intoString ms (oo_Path cur);
    diff ← member "diff" intoString ms (oo_Diff cur);
    Some {| oo_Type := type; oo_Path := path; oo_Diff := diff |}).

Definition zeroOperationObject : operationObject :=
  {| oo_Type := ""; oo_Path := ""; oo_Diff := "" |}.

Definition intoOutputItem : decoder outputItem :=
  intoStruct (λ ms cur,
    id ← member "id" intoString ms (it_ID cur);
    type ← member "type" intoString ms (it_Type cur);
    status ← member "status" intoString ms (it_Status cur);
    callID ← member "call_id" intoString ms (it_CallID cur);
    role ← member "role" intoString ms (it_Role cur);
    content ← member "content" (intoSlice intoContentPart zeroContentPart)
                ms (it_Content cur);
    serverLabel ← member "server_label" intoString ms (it_ServerLabel cur);
    name ← member "name" intoString ms (it_Name cur);
    arguments ← member "arguments" intoString ms (it_Arguments cur);
    outputText ← member "output" intoString ms (it_OutputText cur);
    error ← member "error" intoString ms (it_Error cur);
    revisedPrompt ← member "revised_prompt" intoString ms (it_RevisedPrompt cur);
    result ← member "result" intoString ms (it_Result cur);
    action ← member "action" intoRaw ms (it_Action cur);
    checks ← member "pending_safety_checks"
               (intoSlice intoPendingCheck zeroPendingCheck)
               ms (it_PendingSafetyChecks cur);
    operation ← member "operation"
                  (intoPointer intoOperationObject zeroOperationObject)
                  ms (it_Operation cur);
    Some {| it_ID := id; it_Type := type; it_Status := status;
            it_CallID := callID; it_Role := role; it_Content := content;
            it_ServerLabel := serverLabel; it_Name := name;
            it_Arguments := arguments; it_OutputText := outputText;
            it_Error := error; it_RevisedPrompt := revisedPrompt;
            it_Result := result; it_Action := action;
            it_PendingSafetyChecks := checks; it_Operation := operation |}).

Definition zeroOutputItem : outputItem :=
  {| it_ID := ""; it_Type := ""; it_Status := ""; it_CallID := "";
     it_Role := ""; it_Content := []; it_ServerLabel := ""; it_Name := "";
     it_Arguments := ""; it_OutputText := ""; it_Error := "";
     it_RevisedPrompt := ""; it_Result := ""; it_Action := "";
     it_PendingSafetyChecks := []; it_Operation := None |}.

Definition intoResponsesUsage : decoder responsesUsage :=
  intoStruct (λ ms cur,
    input ← member "input_tokens" intoInt ms (ru_InputTokens cur);
    output ← member "output_tokens" intoInt ms (ru_OutputTokens cur);
    total ← member "total_tokens" intoInt ms (ru_TotalTokens cur);
    Some {| ru_InputTokens := input; ru_OutputTokens := output;
            ru_TotalTokens := total |}).

Definition intoResponsesResult : decoder responsesResult :=
  intoStruct (λ ms cur,
    id ← member "id" intoString ms (rr_ID cur);
    status ← member "status" intoString ms (rr_Status cur);
    output ← member "output" (intoSlice intoOutputItem zeroOutputItem)
               ms (rr_Output cur);
    outputText ← member "output_text" intoString ms (rr_OutputText cur);
    usage ← member "usage" intoResponsesUsage ms (rr_Usage cur);
    error ← member "error" (intoPointer intoErrorObject zeroErrorObject)
              ms (rr_Error cur);
    Some {| rr_ID := id; rr_Status := status; rr_Output := output;
            rr_OutputText := outputText; rr_Usage := usage;
            rr_Error := error |}).

Definition zeroResponsesResult : responsesResult :=
  {| rr_ID := ""; rr_Status := ""; rr_Output := []; rr_OutputText := "";
     rr_Usage := {| ru_InputTokens := 0; ru_OutputTokens := 0;
                    ru_TotalTokens := 0 |};
     rr_Error := None |}.

Definition intoComputerAction : decoder ComputerAction :=
  intoStruct (λ ms cur,
    type ← member "type" intoString ms (ca_Type cur);
    x ← member "x" intoInt ms (ca_X cur);
    y ← member "y" intoInt ms (ca_Y cur);
    button ← member "button" intoString ms (ca_Button cur);
    scrollX ← member "scroll_x" intoInt ms (ca_ScrollX cur);
    scrollY ← member "scroll_y" intoInt ms (ca_ScrollY cur);
    keys ← member "keys" intoStrings ms (ca_Keys cur);
    text ← member "text" intoString ms (ca_Text cur);
    Some {| ca_Type := type; ca_X := x; ca_Y := y; ca_Button := button;
            ca_ScrollX := scrollX; ca_ScrollY := scrollY; ca_Keys := keys;
            ca_Text := text |}).

Definition zeroComputerAction : ComputerAction :=
  {| ca_Type := ""; ca_X := 0; ca_Y := 0; ca_Button := ""; ca_ScrollX := 0;
     ca_ScrollY := 0; ca_Keys := []; ca_Text := "" |}.

Definition intoShellAction : decoder ShellAction :=
  intoStruct (λ ms cur,
    commands ← member "commands" intoStrings ms (sa_Commands cur);
    timeoutMs ← member "timeout_ms" intoInt ms (sa_TimeoutMs cur);
    maxOutputLength ← member "max_output_length" intoInt ms (sa_MaxOutputLength cur);
    Some {| sa_Commands := commands; sa_TimeoutMs := timeoutMs;
            sa_MaxOutputLength := maxOutputLength |}).

Definition zeroShellAction : ShellAction :=
  {| sa_Commands := []; sa_TimeoutMs := 0; sa_MaxOutputLength := 0 |}.

Definition intoToolCall : decoder ToolCall := λ j _,
  Some {| toolCall_raw := render j |}.

Definition intoChatMessage : decoder chatMessage :=
  intoStruct (λ ms cur,
    role ← member "role" intoString ms (cm_Role cur);
    content ← member "content" intoString ms (cm_Content cur);
    calls ← member "tool_calls" (intoSlice intoToolCall {| toolCall_raw := "" |})
              ms (cm_ToolCalls cur);
    Some {| cm_Role := role; cm_Content := content; cm_ToolCalls := calls |}).

Definition intoChatChoice : decoder chatChoice :=
  intoStruct (λ ms cur,
    message ← member "message" intoChatMessage ms (cc_Message cur);
    reason ← member "finish_reason" intoString ms (cc_FinishReason cur);
    Some {| cc_Message := message; cc_FinishReason := reason |}).

Definition zeroChatChoice : chatChoice :=
  {| cc_Message := {| cm_Role := ""; cm_Content := ""; cm_ToolCalls := [] |};
     cc_FinishReason := "" |}.

Definition intoChatUsage : decoder chatUsage :=
  intoStruct (λ ms cur,
    prompt ← member "prompt_tokens" intoInt ms (cu_PromptTokens cur);
    completion ← member "completion_tokens" intoInt ms (cu_CompletionTokens cur);
    total ← member "total_tokens" intoInt ms (cu_TotalTokens cur);
    Some {| cu_PromptTokens := prompt; cu_CompletionTokens := completion;
            cu_TotalTokens := total |}).

Definition intoChatResult : decoder chatResult :=
  intoStruct (λ ms cur,
    id ← member "id" intoString ms (chat_ID cur);
    choices ← member "choices" (intoSlice intoChatChoice zeroChatChoice)
                ms (chat_Choices cur);
    usage ← member "usage" intoChatUsage ms (chat_Usage cur);
    error ← member "error" (intoPointer intoErrorObject zeroErrorObject)
              ms (chat_Error cur);
    Some {| chat_ID := id; chat_Choices := choices; chat_Usage := usage;
            chat_Error := error |}).

Definition zeroChatResult : chatResult :=
  {| chat_ID := ""; chat_Choices := [];
     chat_Usage := {| cu_PromptTokens := 0; cu_CompletionTokens := 0;
                      cu_TotalTokens := 0 |};
     chat_Error := None |}.

(** [json.Unmarshal(text, &target)] for a zero [target]. *)
Definition Unmarshal {A} (d : decoder A) (zero : A) (text : string)
  : result A string :=
  match scan text with
  | None => Err "invalid character or unexpected end of JSON input"
  | Some j =>
      match d j zero with
      | Some v => Ok v
      | None => Err "json: cannot unmarshal value into Go value of this type"
      end
  end.

Definition encodingJSON : EncodingJSON :=
  {| Unmarshal_chatResult := Unmarshal intoChatResult zeroChatResult;
     Unmarshal_responsesResult := Unmarshal intoResponsesResult zeroResponsesResult;
     Unmarshal_ComputerAction := Unmarshal intoComputerAction zeroComputerAction;
     Unmarshal_ShellAction := Unmarshal intoShellAction zeroShellAction |}.
End SampleJSON.

(** ** Orchestrator: [Builder.SendWithMeta] *)

(** A Go [error] value: a [*ProviderError], or any other error by its text. *)
Inductive error :=
  | ErrProvider (e : ProviderError)
  | ErrOther (text : string).

Record ProviderCapabilities := {
  cap_Tools : bool;
  cap_Vision : bool;
  cap_Streaming : bool;
  cap_JSON : bool;
  cap_Thinking : bool;
  cap_PDF : bool;
  cap_Embeddings : bool;
  cap_TTS : bool;
  cap_STT : bool;
  cap_WebSearch : bool;
  cap_FileSearch : bool;
  cap_CodeInterpreter : bool;
  cap_MCP : bool;
  cap_ImageGeneration : bool;
  cap_ComputerUse : bool;
  cap_Shell : bool;
  cap_ApplyPatch : bool }.

(** Types declared in other files of the package, or external to the program:
    they are only passed along by [SendWithMeta]. [Env] is the state of
    everything outside the builder (network and providers, clock, the
    process-wide rate limiter, request statistics). [Prompt] stands for the
    builder fields that only [buildMessages] reads. *)
Class Opaque := {
  Env : Type;
  Client : Type;
  GoContext : Type;
  Message : Type;
  Tool : Type;
  Validator : Type;
  RetryConfig : Type;
  float64 : Type;
  Prompt : Type }.

(** Arithmetic on Go's [int64] (and on [int], 64 bits wide): a result outside
    the range wraps around. *)
Definition wrap64 (z : Z) : Z := (z + 2 ^ 63) mod 2 ^ 64 - 2 ^ 63.

(** [time.Millisecond], a [time.Duration]: the nanoseconds of a millisecond. *)
Definition Millisecond : Z := 1000000.

Section Orchestrator.
Context `{Opaque}.

Record ProviderRequest := {
  req_Model : string;
  req_Messages : list Message;
  req_Temperature : option float64;
  req_Thinking : string;
  req_Tools : list Tool;
  req_BuiltinTools : list BuiltinTool;
  req_JSONMode : bool;
  req_Stream : bool }.

Record ResponseMeta := {
  rm_Content : string;
  rm_Error : option error;
  rm_Model : Model;
  rm_Tokens : Z;
  rm_PromptTokens : Z;
  rm_CompletionTokens : Z;
  rm_Latency : Z;
  rm_Retries : Z;
  rm_ResponsesOutput : option ResponsesOutput }.

Record Builder := {
  b_model : Model;
  b_prompt : Prompt;
  b_debug : bool;
  b_maxRetries : Z;
  b_fallbacks : list Model;
  b_jsonMode : bool;
  b_temperature : option float64;
  b_thinking : string;
  b_tools : list Tool;
  b_builtinTools : list BuiltinTool;
  b_ctx : option GoContext;
  b_client : option Client;
  b_retryConfig : option RetryConfig;
  b_validators : list Validator }.

(** What the run of a call does to the outside, in order. *)
Inductive event :=
  | EvRateLimit                                  (* waitForRateLimit() *)
  | EvSend (client : Client) (req : ProviderRequest)   (* client.provider.Send *)
  | EvSleep (nanoseconds : Z)                    (* time.Sleep *)
  | EvWarning (provider feature : string)        (* checkCapability prints *)
  | EvDebugRequest (model : Model)               (* printDebugRequest *)
  | EvPretty (model : Model) (content : string)  (* printPrettyResponse *)
  | EvTrack (meta : ResponseMeta).               (* trackRequest *)

(** The package-level variables [Debug] and [Pretty], the outside, and the
    events so far. *)
Record World := {
  Debug : bool;
  Pretty : bool;
  env : Env;
  trace : list event }.

(** Computations of [SendWithMeta]: state passing over [World]. *)
Definition M (A : Type) : Type := World → A * World.

#[export] Instance M_ret : MRet M := λ A a w, (a, w).
#[export] Instance M_bind : MBind M := λ A B k m w, let '(a, w') := m w in k a w'.

Definition emit (e : event) : M unit := λ w,
  (tt, {| Debug := Debug w; Pretty := Pretty w; env := env w;
          trace := trace w ++ [e] |}).

Definition onEnv {A} (f : Env → A * Env) : M A := λ w,
  let '(a, e) := f (env w) in
  (a, {| Debug := Debug w; Pretty := Pretty w; env := e; trace := trace w |}).

Definition getDebug : M bool := λ w, (Debug w, w).
Definition getPretty : M bool := λ w, (Pretty w, w).
Definition setDebug (d : bool) : M unit := λ w,
  (tt, {| Debug := d; Pretty := Pretty w; env := env w; trace := trace w |}).

(** The locals [retries] and [totalRetries] captured by the closure handed
    to [WithRetry]. *)
Definition counters : Type := Z * Z.

(** The collaborators of [SendWithMeta]: the [Provider] interface of the
    client, the clock, and the functions [getDefaultClient], [getContext],
    [waitForRateLimit], [WithRetry], [runValidators] and [trackRequest] of
    other files of the package; [buildMessages], whose result is only passed
    on to the provider. [provider_Send] answers with exactly one of a
    response and an error. [WithRetry] receives the closure as a state
    transformer. *)
Class Collaborators := {
  getDefaultClient : Env → Client;
  getContext : Builder → GoContext;
  buildMessages : Builder → list Message;
  provider_Name : Client → string;
  provider_Capabilities : Client → ProviderCapabilities;
  provider_Send : Client → GoContext → ProviderRequest → Env →
                  result ProviderResponse error * Env;
  rateLimiter : Env → Env;
  sleeping : Z → Env → Env;
  timeNow : Env → Z;
  tracking : ResponseMeta → Env → Env;
  WithRetry : GoContext → RetryConfig →
              (counters → M (result ProviderResponse error * counters)) →
              counters → M (result ProviderResponse error * counters);
  runValidators : Builder → string → result string error }.

Context `{Collaborators}.

(** [checkCapability]. *)
Definition checkCapability (provider : Client) (feature : string)
    (supported : bool) : M unit :=
  debug ← getDebug;
  if negb supported && debug
  then emit (EvWarning (provider_Name provider) feature)
  else mret tt.

Definition waitForRateLimit : M unit :=
  _ ← emit EvRateLimit; onEnv (λ e, (tt, rateLimiter e)).

(** [time.Sleep(d)]: a [time.Duration] is an [int64] count of nanoseconds. *)
Definition timeSleep (d : Z) : M unit :=
  _ ← emit (EvSleep d); onEnv (λ e, (tt, sleeping d e)).

Definition Send (client : Client) (ctx : GoContext) (req : ProviderRequest)
  : M (result ProviderResponse error) :=
  _ ← emit (EvSend client req); onEnv (provider_Send client ctx req).

Definition trackRequest (meta : ResponseMeta) : M unit :=
  _ ← emit (EvTrack meta); onEnv (λ e, (tt, tracking meta e)).

Definition since (start : Z) : M Z := λ w, (timeNow (env w) - start, w).

(** The capability warnings for one built-in tool ([switch bt.Type]). *)
Definition checkBuiltinTool (client : Client) (bt : BuiltinTool) : M unit :=
  let caps := provider_Capabilities client in
  let t := bt_Type bt in
  if String.eqb t "web_search" then
    checkCapability client "web_search" (cap_WebSearch caps)
  else if String.eqb t "file_search" then
    checkCapability client "file_search" (cap_FileSearch caps)
  else if String.eqb t "code_interpreter" then
    checkCapability client "code_interpreter" (cap_CodeInterpreter caps)
  else if String.eqb t "mcp" then
    checkCapability client "mcp" (cap_MCP caps)
  else if String.eqb t "image_generation" then
    checkCapability client "image_generation" (cap_ImageGeneration caps)
  else if String.eqb t "computer_use_preview" then
    checkCapability client "computer_use" (cap_ComputerUse caps)
  else if String.eqb t "shell" then
    checkCapability client "shell" (cap_Shell caps)
  else if String.eqb t "apply_patch" then
    checkCapability client "apply_patch" (cap_ApplyPatch caps)
  else mret tt.

Fixpoint checkBuiltinTools (client : Client) (bts : list BuiltinTool) : M unit :=
  match bts with
  | [] => mret tt
  | bt :: bts' => _ ← checkBuiltinTool client bt; checkBuiltinTools client bts'
  end.

(** [time.Duration(attempt*attempt) * 100 * time.Millisecond]: the square is
    taken on [int] (64 bits wide), the two products on [time.Duration], and
    each of the three wraps around. *)
Definition backoff (attempt : Z) : Z :=
  wrap64 (wrap64 (wrap64 (attempt * attempt) * 100) * Millisecond).

(** The legacy retry loop from iteration [attempt] on, entered with
    [attempt <= b.maxRetries]; [more] is [b.maxRetries - attempt]. *)
Fixpoint legacyRetry (client : Client) (ctx : GoContext) (req : ProviderRequest)
    (more : nat) (attempt : Z) (totalRetries : Z)
  : M (result ProviderResponse error * Z) :=
  totalRetries ←
    (if 0 <? attempt then
       _ ← timeSleep (backoff attempt); mret (totalRetries + 1)
     else mret totalRetries);
  _ ← waitForRateLimit;
  r ← Send client ctx req;
  match r, more with
  | Ok _, _ => mret (r, totalRetries)
  | Err _, O => mret (r, totalRetries)
  | Err _, S more' => legacyRetry client ctx req more' (attempt + 1) totalRetries
  end.

(** The closure passed to [WithRetry]. *)
Definition retryClosure (client : Client) (ctx : GoContext) (req : ProviderRequest)
    (c : counters) : M (result ProviderResponse error * counters) :=
  let '(retries, totalRetries) := c in
  let retries := retries + 1 in
  let totalRetries := if 1 <? retries then totalRetries + 1 else totalRetries in
  _ ← waitForRateLimit;
  r ← Send client ctx req;
  mret (r, (retries, totalRetries)).

(** The three retry disciplines: the attempts made for one model. *)
Definition attempt (b : Builder) (client : Client) (ctx : GoContext)
    (req : ProviderRequest) (totalRetries : Z)
  : M (result ProviderResponse error * Z) :=
  match b_retryConfig b with
  | Some config =>
      '(r, (_, totalRetries)) ←
        WithRetry ctx config (retryClosure client ctx req) (0, totalRetries);
      mret (r, totalRetries)
  | None =>
      if 0 <? b_maxRetries b then
        legacyRetry client ctx req (Z.to_nat (b_maxRetries b)) 0 totalRetries
      else
        _ ← waitForRateLimit;
        r ← Send client ctx req;
        mret (r, totalRetries)
  end.

(** The [ProviderRequest] built for one model. *)
Definition requestFor (b : Builder) (msgs : list Message) (model : Model)
  : ProviderRequest :=
  {| req_Model := model; req_Messages := msgs;
     req_Temperature := b_temperature b; req_Thinking := b_thinking b;
     req_Tools := b_tools b; req_BuiltinTools := b_builtinTools b;
     req_JSONMode := b_jsonMode b; req_Stream := false |}.

(** The capability warnings and the debug print that precede the attempts
    for one model. *)
Definition announce (b : Builder) (client : Client) (model : Model) : M unit :=
  _ ← (if (0 <? length (b_tools b))%nat
       then checkCapability client "tools"
              (cap_Tools (provider_Capabilities client))
       else mret tt);
  _ ← (if negb (String.eqb (b_thinking b) "")
       then checkCapability client "thinking/reasoning"
              (cap_Thinking (provider_Capabilities client))
       else mret tt);
  _ ← checkBuiltinTools client (b_builtinTools b);
  debug ← getDebug;
  if (debug : bool) then emit (EvDebugRequest model) else mret tt.

(** What follows the attempts for one model: [inl] is a [return] from
    inside the loop, [inr] the values of [lastErr] and [totalRetries] with
    which the loop goes on. *)
Definition conclude (b : Builder) (start : Z) (model : Model)
    (r : result ProviderResponse error) (totalRetries : Z)
  : M (ResponseMeta + error * Z) :=
  match r with
  | Ok resp =>
      let content := pr_Content resp in
      let validated :=
        if (0 <? length (b_validators b))%nat
        then runValidators b content else Ok content in
      match validated with
      | Err validationErr =>
          latency ← since start;
          mret (inl {| rm_Content := ""; rm_Error := Some validationErr;
                       rm_Model := model; rm_Tokens := 0;
                       rm_PromptTokens := 0; rm_CompletionTokens := 0;
                       rm_Latency := latency; rm_Retries := totalRetries;
                       rm_ResponsesOutput := None |})
      | Ok content =>
          latency ← since start;
          let meta :=
            {| rm_Content := content; rm_Error := None; rm_Model := model;
               rm_Tokens := pr_TotalTokens resp;
               rm_PromptTokens := pr_PromptTokens resp;
               rm_CompletionTokens := pr_CompletionTokens resp;
               rm_Latency := latency; rm_Retries := totalRetries;
               rm_ResponsesOutput := pr_ResponsesOutput resp |} in
          showPretty ← getPretty;
          _ ← (if (showPretty : bool) then emit (EvPretty model content) else mret tt);
          _ ← trackRequest meta;
          mret (inl meta)
      end
  | Err err => mret (inr (err, totalRetries))
  end.

(** One iteration of [for _, model := range models]. *)
Definition tryModel (b : Builder) (msgs : list Message) (start : Z)
    (client : Client) (ctx : GoContext) (model : Model) (totalRetries : Z)
  : M (ResponseMeta + error * Z) :=
  _ ← announce b client model;
  '(r, totalRetries) ← attempt b client ctx (requestFor b msgs model) totalRetries;
  conclude b start model r totalRetries.

(** The loop over [models], entered with the given [lastErr] and
    [totalRetries]. *)
Fixpoint tryModels (b : Builder) (msgs : list Message) (start : Z)
    (client : Client) (ctx : GoContext) (models : list Model)
    (lastErr : option error) (totalRetries : Z)
  : M (ResponseMeta + option error * Z) :=
  match models with
  | [] => mret (inr (lastErr, totalRetries))
  | model :: models' =>
      r ← tryModel b msgs start client ctx model totalRetries;
      match r with
      | inl meta => mret (inl meta)
      | inr (err, totalRetries) =>
          tryModels b msgs start client ctx models' (Some err) totalRetries
      end
  end.

Definition now : M Z := λ w, (timeNow (env w), w).

(** [client := b.client], or the default client when it is nil. *)
Definition chooseClient (b : Builder) : M Client := λ w,
  (match b_client b with
   | Some client => client
   | None => getDefaultClient (env w)
   end, w).

(** The statements before the loop: the start time, the saved [Debug], the
    debug switch and the choice of the client. *)
Definition enter (b : Builder) : M (Z * bool * Client) :=
  start ← now;
  oldDebug ← getDebug;
  _ ← (if b_debug b then setDebug true else mret tt);
  client ← chooseClient b;
  mret (start, oldDebug, client).

(** [SendWithMeta]. The deferred function restores [Debug] on every return. *)
Definition SendWithMeta (b : Builder) : M ResponseMeta :=
  let msgs := buildMessages b in
  '(start, oldDebug, client) ← enter b;
  let ctx := getContext b in
  let models := b_model b :: b_fallbacks b in
  r ← tryModels b msgs start client ctx models None 0;
  meta ← match r with
         | inl meta => mret meta
         | inr (lastErr, totalRetries) =>
             latency ← since start;
             mret {| rm_Content := ""; rm_Error := lastErr;
                     rm_Model := b_model b; rm_Tokens := 0;
                     rm_PromptTokens := 0; rm_CompletionTokens := 0;
                     rm_Latency := latency; rm_Retries := totalRetries;
                     rm_ResponsesOutput := None |}
         end;
  _ ← setDebug oldDebug;
  mret meta.

(** The models of the provider attempts recorded in a trace, in order. *)
Definition sentModels (events : list event) : list string :=
  omap (λ e, match e with EvSend _ req => Some (req_Model req) | _ => None end)
       events.
End Orchestrator.

(** ** An executable instance of the orchestrator's collaborators

    A provider that answers every request through a fixed function, a clock
    that advances by one per request and by the time slept, [WithRetry] as a
    bounded number of calls of the closure, validators as functions. It is
    used to run [SendWithMeta] on concrete builders; every general statement
    below is proved for arbitrary collaborators. *)
Module SampleWorld.

#[export] Instance opaque : Opaque :=
  {| Env := Z;
     Client := string;
     GoContext := unit;
     Message := string;
     Tool := string;
     Validator := string → result string error;
     RetryConfig := nat;
     float64 := Z;
     Prompt := list string |}.

Definition capabilities : ProviderCapabilities :=
  {| cap_Tools := true; cap_Vision := true; cap_Streaming := true;
     cap_JSON := true; cap_Thinking := true; cap_PDF := false;
     cap_Embeddings := true; cap_TTS := true; cap_STT := true;
     cap_WebSearch := true; cap_FileSearch := true;
     cap_CodeInterpreter := true; cap_MCP := true;
     cap_ImageGeneration := true; cap_ComputerUse := true;
     cap_Shell := true; cap_ApplyPatch := true |}.

Fixpoint retryTimes {S R E : Type} (n : nat) (fn : S → M (result R E * S))
    (s : S) : M (result R E * S) :=
  '(r, s) ← fn s;
  match r, n with
  | Err _, S n' => retryTimes n' fn s
  | _, _ => mret (r, s)
  end.

Fixpoint validate (vs : list (string → result string error)) (content : string)
  : result string error :=
  match vs with
  | [] => Ok content
  | v :: vs' =>
      match v content with
      | Ok content' => validate vs' content'
      | Err e => Err e
      end
  end.

Definition collaborators
    (answer : ProviderRequest → result ProviderResponse error)
  : Collaborators :=
  {| getDefaultClient := λ _, "openai";
     getContext := λ _, tt;
     buildMessages := λ b, b_prompt b;
     provider_Name := λ client, client;
     provider_Capabilities := λ _, capabilities;
     provider_Send := λ _ _ req e, (answer req, e + 1);
     rateLimiter := λ e, e;
     sleeping := λ d e, e + d;
     timeNow := λ e, e;
     tracking := λ _ e, e;
     WithRetry := λ _ config fn c, retryTimes config fn c;
     runValidators := λ b content, validate (b_validators b) content |}.

(** A provider that fails every request. *)
Definition unreachable : ProviderRequest → result ProviderResponse error :=
  λ req, Err (ErrProvider {| pe_Provider := "openai"; pe_Code := "503";
                             pe_Message := "no route to " +:+ req_Model req;
                             pe_Err := None |}).

(** A provider that fails the requests for one model and answers the
    others with a fixed text. *)
Definition downFor (model : Model) (text : string)
  : ProviderRequest → result ProviderResponse error :=
  λ req, if String.eqb (req_Model req) model then unreachable req
         else Ok {| pr_Content := text; pr_ToolCalls := []; pr_PromptTokens := 1;
                    pr_CompletionTokens := 1; pr_TotalTokens := 2;
                    pr_FinishReason := "stop"; pr_ResponsesOutput := None |}.

(** A provider that answers every request with the same text. *)
Definition echo (text : string) : ProviderRequest → result ProviderResponse error :=
  λ _, Ok {| pr_Content := text; pr_ToolCalls := []; pr_PromptTokens := 1;
             pr_CompletionTokens := 1; pr_TotalTokens := 2;
             pr_FinishReason := "stop"; pr_ResponsesOutput := None |}.

Definition builder (model : Model) (fallbacks : list Model) (maxRetries : Z)
    (validators : list (string → result string error)) : Builder :=
  {| b_model := model; b_prompt := ["hello"]; b_debug := false;
     b_maxRetries := maxRetries; b_fallbacks := fallbacks; b_jsonMode := false;
     b_temperature := None; b_thinking := ""; b_tools := [];
     b_builtinTools := []; b_ctx := None; b_client := None;
     b_retryConfig := None; b_validators := validators |}.

Definition world0 : World :=
  {| Debug := false; Pretty := false; env := 0; trace := [] |}.

(** A validator that rejects every content. *)
Definition rejectAll : string → result string error :=
  λ _, Err (ErrOther "validation failed").
End SampleWorld.

(** ** Notions used to state the properties *)

(** The cases of the [switch] of [normalizeAnthropicModelID]. *)
Definition snapshotCases : list (string * string) :=
  [ ("claude-sonnet-4.5", "claude-sonnet-4-5-20250929");
    ("claude-haiku-4.5", "claude-haiku-4-5-20251001");
    ("claude-opus-4.5", "claude-opus-4-5-20251101");
    ("claude-opus-4.1", "claude-opus-4-1-20250805");
    ("claude-opus-4", "claude-opus-4-20250514");
    ("claude-sonnet-4", "claude-sonnet-4-20250514");
    ("claude-3.7-sonnet", "claude-3-7-sonnet-20250219");
    ("claude-3.5-haiku", "claude-3-5-haiku-20241022");
    ("claude-3-haiku", "claude-3-haiku-20240307");
    ("claude-3-opus", "claude-3-opus-20240229");
    ("claude-3-sonnet", "claude-3-sonnet-20240229") ].

Definition nextIs (P : ascii → bool) (s : string) : bool :=
  match s with
  | String c _ => P c
  | EmptyString => false
  end.

(** Every dot that is directly followed by a byte satisfying [P] becomes a
    dash; nothing else changes. *)
Fixpoint dashWhen (P : ascii → bool) (s : string) : string :=
  match s with
  | EmptyString => EmptyString
  | String c s' =>
      String (if Ascii.eqb c "."%char && nextIs P s' then "-"%char else c)
             (dashWhen P s')
  end.

(** The transliteration of version separators: a dot followed by a decimal
    digit becomes a dash. *)
Definition dashVersionDots (s : string) : string := dashWhen isDigit s.

(** Does a dot followed by a decimal digit occur in [s]? *)
Fixpoint hasVersionDot (s : string) : bool :=
  match s with
  | EmptyString => false
  | String c s' => Ascii.eqb c "."%char && nextIs isDigit s' || hasVersionDot s'
  end.

(** [resolveModel] finds no table entry for the model. *)
Definition tableMiss `{ModelConstants} (providerType : ProviderType) (model : Model) : Prop :=
  modelMappings !! providerType ≫= (λ mapping, mapping !! model) = None.

(** The eight tags that [buildBuiltinTool] has a [case] for. *)
Definition recognizedTags : list string :=
  [ "web_search"; "file_search"; "code_interpreter"; "mcp"; "image_generation";
    "computer_use_preview"; "shell"; "apply_patch" ].

(** The content of a configuration field of [BuiltinTool], by Go type. *)
Inductive fieldContent :=
  | GoString (s : string)
  | GoInt (n : Z)
  | GoStrings (l : list string)
  | GoUserLocation (p : option UserLocation)
  | GoSearchFilter (p : option SearchFilter)
  | GoAny (x : option anyValue).

(** The empty or zero contents, as [omitempty] of [encoding/json] has them:
    the empty string, 0, a slice of length 0, a nil pointer, a nil interface
    value. *)
Definition isZero (c : fieldContent) : bool :=
  match c with
  | GoString s => String.eqb s ""
  | GoInt n => n =? 0
  | GoStrings l => (length l =? 0)%nat
  | GoUserLocation p => bool_decide (p = None)
  | GoSearchFilter p => bool_decide (p = None)
  | GoAny x => bool_decide (x = None)
  end.

(** A content as a value of the wire object. *)
Definition onWire (c : fieldContent) : option wireValue :=
  match c with
  | GoString s => Some (WString s)
  | GoInt n => Some (WInt n)
  | GoStrings l => Some (WStrings l)
  | GoUserLocation p => WUserLocation <$> p
  | GoSearchFilter p => WSearchFilter <$> p
  | GoAny x => WAny <$> x
  end.

(** The configuration fields that belong to each tag, as the comments of
    [BuiltinTool] group them, each under its wire name. *)
Definition tagFields (tag : string) : list (string * (BuiltinTool → fieldContent)) :=
  if String.eqb tag "web_search" then
    [ ("user_location", λ bt, GoUserLocation (bt_UserLocation bt));
      ("filters", λ bt, GoSearchFilter (bt_SearchFilter bt)) ]
  else if String.eqb tag "file_search" then
    [ ("vector_store_ids", λ bt, GoStrings (bt_VectorStoreIDs bt));
      ("max_num_results", λ bt, GoInt (bt_MaxNumResults bt));
      ("filters", λ bt, GoAny (bt_FileFilter bt)) ]
  else if String.eqb tag "code_interpreter" then
    [ ("container", λ bt, GoAny (bt_Container bt)) ]
  else if String.eqb tag "mcp" then
    [ ("server_label", λ bt, GoString (bt_ServerLabel bt));
      ("server_url", λ bt, GoString (bt_ServerURL bt));
      ("server_description", λ bt, GoString (bt_ServerDescription bt));
      ("connector_id", λ bt, GoString (bt_ConnectorID bt));
      ("authorization", λ bt, GoString (bt_Authorization bt));
      ("require_approval", λ bt, GoAny (bt_RequireApproval bt));
      ("allowed_tools", λ bt, GoStrings (bt_AllowedTools bt)) ]
  else if String.eqb tag "image_generation" then
    [ ("size", λ bt, GoString (bt_ImageSize bt));
      ("quality", λ bt, GoString (bt_ImageQuality bt));
      ("output_format", λ bt, GoString (bt_ImageFormat bt));
      ("compression", λ bt, GoInt (bt_ImageCompression bt));
      ("background", λ bt, GoString (bt_ImageBackground bt));
      ("partial_images", λ bt, GoInt (bt_PartialImages bt)) ]
  else if String.eqb tag "computer_use_preview" then
    [ ("display_width", λ bt, GoInt (bt_DisplayWidth bt));
      ("display_height", λ bt, GoInt (bt_DisplayHeight bt));
      ("environment", λ bt, GoString (bt_Environment bt)) ]
  else [].


(** The item types that the [switch] of [parseResponsesResponse] has a
    [case] for. *)
Definition knownItemTypes : list string :=
  [ "message"; "web_search_call"; "file_search_call"; "mcp_call";
    "code_interpreter_call"; "image_generation_call"; "computer_call";
    "shell_call"; "apply_patch_call" ].

(** The text carried by the parts of one message item. *)
Fixpoint partsText (parts : list contentPart) : string :=
  match parts with
  | [] => ""
  | c :: parts' =>
      (if String.eqb (cp_Type c) "output_text" || String.eqb (cp_Type c) "text"
       then cp_Text c else "") +:+ partsText parts'
  end.

(** The text carried by the message items of an output, in order. *)
Fixpoint messagesText (output : list outputItem) : string :=
  match output with
  | [] => ""
  | item :: output' =>
      (if String.eqb (it_Type item) "message" then partsText (it_Content item)
       else "") +:+ messagesText output'
  end.

(** JSON texts are written with ['] where the text has a double quote. *)
Fixpoint jsonText (s : string) : string :=
  match s with
  | EmptyString => EmptyString
  | String c s' =>
      String (if Ascii.eqb c "'"%char then doubleQuote else c) (jsonText s')
  end.

(** A body with a message item that says [hi] and a web search call whose
    [id] is a number instead of a string. *)
Definition bodyWithIllTypedCall : string :=
  jsonText "{'output':[{'type':'message','content':[{'type':'output_text','text':'hi'}]},{'type':'web_search_call','id':42}]}".

(** The same body without the web search call. *)
Definition bodyWithMessageOnly : string :=
  jsonText "{'output':[{'type':'message','content':[{'type':'output_text','text':'hi'}]}]}".

(** A body with a message item that says [hi], an item of an unknown type
    and a computer call whose action does not decode. *)
Definition bodyWithOddItems : string :=
  jsonText "{'output':[{'type':'reasoning','id':'rs_1'},{'type':'message','content':[{'type':'output_text','text':'hi'}]},{'type':'computer_call','id':'cu_1','action':{'type':'click','x':1.5}}],'output_text':'ignored'}".

(** A body with a top-level error object next to output and usage. *)
Definition bodyWithError : string :=
  jsonText "{'error':{'message':'quota exceeded','type':'insufficient_quota','code':'429'},'output':[{'type':'message','content':[{'type':'output_text','text':'partial'}]}],'output_text':'partial','usage':{'total_tokens':9}}".

(** A chat completion body with a top-level error object next to choices. *)
Definition chatBodyWithError : string :=
  jsonText "{'error':{'message':'bad key','code':'invalid_api_key'},'choices':[{'message':{'role':'assistant','content':'partial'}}]}".

(** A body whose only text is the convenience field. *)
Definition bodyWithOutputTextOnly : string :=
  jsonText "{'output':[{'type':'web_search_call','id':'ws_1','status':'completed'}],'output_text':'from the field'}".

Section OrchestratorNotions.
Context `{Collaborators}.

(** A computation is quiet when it makes no provider attempt. *)
Definition quiet {A} (m : M A) : Prop :=
  ∀ w, sentModels (trace (m w).2) = sentModels (trace w).

(** The provider fails every request. *)
Definition alwaysFails : Prop :=
  ∀ client ctx req e, ∃ err e', provider_Send client ctx req e = (Err err, e').

(** The error was the provider's answer to a request for [model]. *)
Definition failureOf (model : Model) (err : error) : Prop :=
  ∃ client ctx req e e',
    req_Model req = model ∧ provider_Send client ctx req e = (Err err, e').

(** The loop of [SendWithMeta b], started in world [w], has gone through
    the models [pre] without a success and stands in world [w1] with
    [totalRetries]. *)
Definition exhausted (b : Builder) (w : World) (pre : list Model)
    (totalRetries : Z) (w1 : World) : Prop :=
  ∃ lastErr,
    tryModels b (buildMessages b) (enter b w).1.1.1 (enter b w).1.2
      (getContext b) pre None 0 (enter b w).2
    = (inr (lastErr, totalRetries), w1).

(** From there, the attempts for [model] end with the response [resp], in
    world [w2] and with [totalRetries']. *)
Definition answered (b : Builder) (w : World) (model : Model)
    (totalRetries : Z) (w1 : World)
    (resp : ProviderResponse) (totalRetries' : Z) (w2 : World) : Prop :=
  attempt b (enter b w).1.2 (getContext b)
    (requestFor b (buildMessages b) model) totalRetries
    (announce b (enter b w).1.2 model w1).2
  = ((Ok resp, totalRetries'), w2).

End OrchestratorNotions.

(** ** Notions used to state the further properties *)

(** Does the walk read the text and annotations of this content part? *)
Definition isTextPart (c : contentPart) : bool :=
  String.eqb (cp_Type c) "output_text" || String.eqb (cp_Type c) "text".

(** The citations carried by the parts of one message item, in order. *)
Fixpoint partsCitations (parts : list contentPart) : list Citation :=
  match parts with
  | [] => []
  | c :: parts' =>
      (if isTextPart c then toCitation <$> cp_Annotations c else [])
      ++ partsCitations parts'
  end.

(** The citations carried by the message items of an output, in order. *)
Fixpoint messagesCitations (output : list outputItem) : list Citation :=
  match output with
  | [] => []
  | item :: output' =>
      (if String.eqb (it_Type item) "message"
       then partsCitations (it_Content item) else [])
      ++ messagesCitations output'
  end.

(** The item types for which the walk appends a tool call. *)
Definition isCallItem (item : outputItem) : bool :=
  let t := it_Type item in
  String.eqb t "web_search_call" || String.eqb t "file_search_call"
  || String.eqb t "mcp_call" || String.eqb t "code_interpreter_call"
  || String.eqb t "image_generation_call" || String.eqb t "computer_call"
  || String.eqb t "shell_call" || String.eqb t "apply_patch_call".

(** The four fields that every tool call takes from its output item. *)
Definition callIdentity (tc : ResponsesToolCall) : string * string * string * string :=
  (rtc_ID tc, rtc_Type tc, rtc_Status tc, rtc_CallID tc).

Definition itemIdentity (item : outputItem) : string * string * string * string :=
  (it_ID item, it_Type item, it_Status item, it_CallID item).

(** A body with a web search call followed by a message whose text part
    carries two citations and whose refusal part carries one. *)
Definition bodyWithCitations : string :=
  jsonText "{'output':[{'type':'web_search_call','id':'ws_1','status':'completed'},{'type':'message','id':'msg_1','content':[{'type':'refusal','text':'no','annotations':[{'type':'url_citation','url':'https://ignored.example'}]},{'type':'output_text','text':'see','annotations':[{'type':'url_citation','url':'https://a.example','title':'A'},{'type':'url_citation','url':'https://b.example','title':'B'}]}]},{'type':'shell_call','id':'sh_1','call_id':'call_7'}]}".

(** A chat completion body with two choices. *)
Definition chatBodyWithTwoChoices : string :=
  jsonText "{'choices':[{'message':{'role':'assistant','content':'first'},'finish_reason':'stop'},{'message':{'role':'assistant','content':'second'},'finish_reason':'length'}],'usage':{'prompt_tokens':3,'completion_tokens':4,'total_tokens':7}}".

(** A chat completion body that decodes but has no choice. *)
Definition chatBodyWithoutChoices : string :=
  jsonText "{'id':'chatcmpl-1','choices':[],'usage':{'total_tokens':7}}".

(** ** Notions used to state the properties of the run of a call *)

Section TraceNotions.
Context `{Opaque}.

(** The [ResponseMeta] values handed to [trackRequest], in order. *)
Definition trackedMetas (events : list event) : list ResponseMeta :=
  omap (λ e, match e with EvTrack meta => Some meta | _ => None end) events.

(** The durations passed to [time.Sleep], in nanoseconds, in order. *)
Definition sleeps (events : list event) : list Z :=
  omap (λ e, match e with EvSleep d => Some d | _ => None end) events.

Definition isSend (e : event) : bool :=
  match e with EvSend _ _ => true | _ => false end.

(** The events of the attempts for a model: passes of the rate-limit gate,
    provider calls and sleeps. *)
Definition isAttemptEvent (e : event) : bool :=
  match e with EvRateLimit | EvSend _ _ | EvSleep _ => true | _ => false end.

(** The diagnostic prints: capability warnings and the debug print of the
    request. *)
Definition isDiagnostic (e : event) : bool :=
  match e with EvWarning _ _ | EvDebugRequest _ => true | _ => false end.

(** Every provider call of [events] directly follows a pass of the
    rate-limit gate. *)
Definition gateBeforeEverySend (events : list event) : Prop :=
  ∀ i client req,
    events !! i = Some (EvSend client req) →
    ∃ j, i = S j ∧ events !! j = Some EvRateLimit.

(** The same, built up from the front of the list. *)
Inductive Gated : list event → Prop :=
  | Gated_nil : Gated []
  | Gated_other (e : event) (events : list event) :
      isSend e = false → Gated events → Gated (e :: events)
  | Gated_send (client : Client) (req : ProviderRequest) (events : list event) :
      Gated events → Gated (EvRateLimit :: EvSend client req :: events).

(** A computation leaves [Debug] as it is, appends [events] to the trace,
    and [P] relates the value of [Debug], the result and [events]. *)
Definition footprint {A} (m : M A) (P : bool → A → list event → Prop) : Prop :=
  ∀ w, Debug (m w).2 = Debug w
       ∧ ∃ events, trace (m w).2 = trace w ++ events
                   ∧ P (Debug w) (m w).1 events.

(** Only diagnostic prints, and none of them unless [Debug] is set. *)
Definition diagnostics (debug : bool) (events : list event) : Prop :=
  Forall (λ e, isDiagnostic e = true) events ∧ (debug = false → events = []).

(** Only attempt events, every provider call behind the gate. *)
Definition attempts (events : list event) : Prop :=
  Gated events ∧ Forall (λ e, isAttemptEvent e = true) events.

(** The events of a stretch of the run after which the loop goes on. *)
Definition calm (debug : bool) (events : list event) : Prop :=
  Gated events
  ∧ trackedMetas events = []
  ∧ (debug = false → Forall (λ e, isDiagnostic e = false) events).

(** The events of a stretch of the run that ends with the return of
    [meta]. *)
Definition landed (debug : bool) (meta : ResponseMeta) (events : list event) : Prop :=
  Gated events
  ∧ trackedMetas events
    = match rm_Error meta with None => [meta] | Some _ => [] end
  ∧ (debug = false → Forall (λ e, isDiagnostic e = false) events).

(** The events that may follow the attempts for a model: the pretty print
    and the tracking of a success. *)
Definition isEpilogue (e : event) : bool :=
  match e with EvPretty _ _ | EvTrack _ => true | _ => false end.

(** The events of the legacy loop from iteration [attempt] on when none of
    its [more + 1] attempts succeeds. *)
Fixpoint legacyEvents (client : Client) (req : ProviderRequest) (more : nat)
    (attempt : Z) : list event :=
  (if 0 <? attempt then [EvSleep (backoff attempt)] else [])
  ++ [EvRateLimit; EvSend client req]
  ++ match more with
     | O => []
     | S more' => legacyEvents client req more' (attempt + 1)
     end.

(** The quadratic back-off of the legacy policy: the sleeps before the
    retries [1] to [maxRetries] of one model, as [time.Sleep] gets them. *)
Definition backoffSchedule (maxRetries : Z) : list Z :=
  backoff <$> seqZ 1 maxRetries.

End TraceNotions.

Section ProviderNotions.
Context `{Collaborators}.

(** The provider fails every request for [model]. *)
Definition failsFor (model : Model) : Prop :=
  ∀ client ctx req e,
    req_Model req = model →
    ∃ err e', provider_Send client ctx req e = (Err err, e').

(** The provider answers every request for [model]. *)
Definition answersFor (model : Model) : Prop :=
  ∀ client ctx req e,
    req_Model req = model →
    ∃ resp e', provider_Send client ctx req e = (Ok resp, e').

(** The response was the provider's answer to a request for [model]. *)
Definition answerOf (model : Model) (resp : ProviderResponse) : Prop :=
  ∃ client ctx req e e',
    req_Model req = model ∧ provider_Send client ctx req e = (Ok resp, e').

End ProviderNotions.

(** ** Built-in tools: the option types and the builder methods that add a
    tool to the request *)

Record WebSearchOptions := {
  wso_Country : string;
  wso_City : string;
  wso_Region : string;
  wso_Timezone : string;
  wso_AllowedDomains : list string }.

Record FileSearchOptions := {
  fso_VectorStoreIDs : list string;
  fso_MaxNumResults : Z;
  fso_Filters : option anyValue }.

Record CodeInterpreterOptions := {
  cio_ContainerID : string;
  cio_MemoryLimit : string;
  cio_FileIDs : list string }.

Record MCPOptions := {
  mcp_Label : string;
  mcp_URL : string;
  mcp_ConnectorID : string;
  mcp_Description : string;
  mcp_Authorization : string;
  mcp_RequireApproval : string;
  mcp_AllowedTools : list string }.

Record ImageGenerationOptions := {
  igo_Size : string;
  igo_Quality : string;
  igo_Format : string;
  igo_Compression : Z;
  igo_Background : string;
  igo_PartialImages : Z }.

Record ComputerUseOptions := {
  cuo_DisplayWidth : Z;
  cuo_DisplayHeight : Z;
  cuo_Environment : string }.

Section BuilderTools.
Context `{Opaque}.

(** [b.builtinTools = append(b.builtinTools, tool); return b]: the builder
    after the statement. *)
Definition appendBuiltinTool (b : Builder) (tool : BuiltinTool) : Builder :=
  {| b_model := b_model b; b_prompt := b_prompt b; b_debug := b_debug b;
     b_maxRetries := b_maxRetries b; b_fallbacks := b_fallbacks b;
     b_jsonMode := b_jsonMode b; b_temperature := b_temperature b;
     b_thinking := b_thinking b; b_tools := b_tools b;
     b_builtinTools := b_builtinTools b ++ [tool];
     b_ctx := b_ctx b; b_client := b_client b;
     b_retryConfig := b_retryConfig b; b_validators := b_validators b |}.

(** [Builder.WebSearch]. *)
Definition WebSearch (b : Builder) : Builder :=
  appendBuiltinTool b
    {| bt_Type := "web_search"; bt_UserLocation := None; bt_SearchFilter := None;
       bt_VectorStoreIDs := []; bt_MaxNumResults := 0; bt_FileFilter := None;
       bt_Container := None; bt_ServerLabel := ""; bt_ServerURL := "";
       bt_ServerDescription := ""; bt_ConnectorID := ""; bt_Authorization := "";
       bt_RequireApproval := None; bt_AllowedTools := []; bt_ImageSize := "";
       bt_ImageQuality := ""; bt_ImageFormat := ""; bt_ImageCompression := 0;
       bt_ImageBackground := ""; bt_PartialImages := 0; bt_DisplayWidth := 0;
       bt_DisplayHeight := 0; bt_Environment := "" |}.

(** [Builder.WebSearchWith]. *)
Definition WebSearchWith (b : Builder) (opts : WebSearchOptions) : Builder :=
  let tool :=
    {| bt_Type := "web_search";
       bt_UserLocation :=
         (if negb (String.eqb (wso_Country opts) "")
             || negb (String.eqb (wso_City opts) "")
             || negb (String.eqb (wso_Region opts) "")
             || negb (String.eqb (wso_Timezone opts) "")
          then Some {| ul_Type := "approximate"; ul_Country := wso_Country opts;
                       ul_City := wso_City opts; ul_Region := wso_Region opts;
                       ul_Timezone := wso_Timezone opts |}
          else None);
       bt_SearchFilter :=
         (if (0 <? length (wso_AllowedDomains opts))%nat
          then Some {| sf_AllowedDomains := wso_AllowedDomains opts |}
          else None);
       bt_VectorStoreIDs := []; bt_MaxNumResults := 0; bt_FileFilter := None;
       bt_Container := None; bt_ServerLabel := ""; bt_ServerURL := "";
       bt_ServerDescription := ""; bt_ConnectorID := ""; bt_Authorization := "";
       bt_RequireApproval := None; bt_AllowedTools := []; bt_ImageSize := "";
       bt_ImageQuality := ""; bt_ImageFormat := ""; bt_ImageCompression := 0;
       bt_ImageBackground := ""; bt_PartialImages := 0; bt_DisplayWidth := 0;
       bt_DisplayHeight := 0; bt_Environment := "" |} in
  appendBuiltinTool b tool.

(** [Builder.FileSearch], a variadic method: [vectorStoreIDs] is the slice of
    its arguments. *)
Definition FileSearch (b : Builder) (vectorStoreIDs : list string) : Builder :=
  appendBuiltinTool b
    {| bt_Type := "file_search"; bt_UserLocation := None; bt_SearchFilter := None;
       bt_VectorStoreIDs := vectorStoreIDs; bt_MaxNumResults := 0;
       bt_FileFilter := None; bt_Container := None; bt_ServerLabel := "";
       bt_ServerURL := ""; bt_ServerDescription := ""; bt_ConnectorID := "";
       bt_Authorization := ""; bt_RequireApproval := None; bt_AllowedTools := [];
       bt_ImageSize := ""; bt_ImageQuality := ""; bt_ImageFormat := "";
       bt_ImageCompression := 0; bt_ImageBackground := ""; bt_PartialImages := 0;
       bt_DisplayWidth := 0; bt_DisplayHeight := 0; bt_Environment := "" |}.

(** [Builder.FileSearchWith]. *)
Definition FileSearchWith (b : Builder) (opts : FileSearchOptions) : Builder :=
  appendBuiltinTool b
    {| bt_Type := "file_search"; bt_UserLocation := None; bt_SearchFilter := None;
       bt_VectorStoreIDs := fso_VectorStoreIDs opts;
       bt_MaxNumResults := fso_MaxNumResults opts; bt_FileFilter := fso_Filters opts;
       bt_Container := None; bt_ServerLabel := ""; bt_ServerURL := "";
       bt_ServerDescription := ""; bt_ConnectorID := ""; bt_Authorization := "";
       bt_RequireApproval := None; bt_AllowedTools := []; bt_ImageSize := "";
       bt_ImageQuality := ""; bt_ImageFormat := ""; bt_ImageCompression := 0;
       bt_ImageBackground := ""; bt_PartialImages := 0; bt_DisplayWidth := 0;
       bt_DisplayHeight := 0; bt_Environment := "" |}.

(** [Builder.CodeInterpreter]. *)
Definition CodeInterpreter (b : Builder) : Builder :=
  appendBuiltinTool b
    {| bt_Type := "code_interpreter"; bt_UserLocation := None; bt_SearchFilter := None;
       bt_VectorStoreIDs := []; bt_MaxNumResults := 0; bt_FileFilter := None;
       bt_Container :=
         Some (AnyContainerConfig
               {| cc_Type := "auto"; cc_MemoryLimit := ""; cc_FileIDs := [] |});
       bt_ServerLabel := ""; bt_ServerURL := ""; bt_ServerDescription := "";
       bt_ConnectorID := ""; bt_Authorization := ""; bt_RequireApproval := None;
       bt_AllowedTools := []; bt_ImageSize := ""; bt_ImageQuality := "";
       bt_ImageFormat := ""; bt_ImageCompression := 0; bt_ImageBackground := "";
       bt_PartialImages := 0; bt_DisplayWidth := 0; bt_DisplayHeight := 0;
       bt_Environment := "" |}.

(** [Builder.CodeInterpreterWith]. *)
Definition CodeInterpreterWith (b : Builder) (opts : CodeInterpreterOptions) : Builder :=
  let tool :=
    {| bt_Type := "code_interpreter"; bt_UserLocation := None; bt_SearchFilter := None;
       bt_VectorStoreIDs := []; bt_MaxNumResults := 0; bt_FileFilter := None;
       bt_Container :=
         (if negb (String.eqb (cio_ContainerID opts) "")
          then Some (AnyString (cio_ContainerID opts))
          else Some (AnyContainerConfig
                       {| cc_Type := "auto"; cc_MemoryLimit := cio_MemoryLimit opts;
                          cc_FileIDs := cio_FileIDs opts |}));
       bt_ServerLabel := ""; bt_ServerURL := ""; bt_ServerDescription := "";
       bt_ConnectorID := ""; bt_Authorization := ""; bt_RequireApproval := None;
       bt_AllowedTools := []; bt_ImageSize := ""; bt_ImageQuality := "";
       bt_ImageFormat := ""; bt_ImageCompression := 0; bt_ImageBackground := "";
       bt_PartialImages := 0; bt_DisplayWidth := 0; bt_DisplayHeight := 0;
       bt_Environment := "" |} in
  appendBuiltinTool b tool.

(** [Builder.MCP]. *)
Definition MCP (b : Builder) (label url : string) : Builder :=
  appendBuiltinTool b
    {| bt_Type := "mcp"; bt_UserLocation := None; bt_SearchFilter := None;
       bt_VectorStoreIDs := []; bt_MaxNumResults := 0; bt_FileFilter := None;
       bt_Container := None; bt_ServerLabel := label; bt_ServerURL := url;
       bt_ServerDescription := ""; bt_ConnectorID := ""; bt_Authorization := "";
       bt_RequireApproval := Some (AnyString "never"); bt_AllowedTools := [];
       bt_ImageSize := ""; bt_ImageQuality := ""; bt_ImageFormat := "";
       bt_ImageCompression := 0; bt_ImageBackground := ""; bt_PartialImages := 0;
       bt_DisplayWidth := 0; bt_DisplayHeight := 0; bt_Environment := "" |}.

(** [Builder.MCPWith]. *)
Definition MCPWith (b : Builder) (opts : MCPOptions) : Builder :=
  let tool :=
    {| bt_Type := "mcp"; bt_UserLocation := None; bt_SearchFilter := None;
       bt_VectorStoreIDs := []; bt_MaxNumResults := 0; bt_FileFilter := None;
       bt_Container := None; bt_ServerLabel := mcp_Label opts;
       bt_ServerURL := mcp_URL opts; bt_ServerDescription := mcp_Description opts;
       bt_ConnectorID := mcp_ConnectorID opts;
       bt_Authorization := mcp_Authorization opts;
       bt_RequireApproval :=
         (if negb (String.eqb (mcp_RequireApproval opts) "")
          then Some (AnyString (mcp_RequireApproval opts))
          else Some (AnyString "never"));
       bt_AllowedTools := mcp_AllowedTools opts; bt_ImageSize := "";
       bt_ImageQuality := ""; bt_ImageFormat := ""; bt_ImageCompression := 0;
       bt_ImageBackground := ""; bt_PartialImages := 0; bt_DisplayWidth := 0;
       bt_DisplayHeight := 0; bt_Environment := "" |} in
  appendBuiltinTool b tool.

(** [Builder.MCPConnector]. *)
Definition MCPConnector (b : Builder) (label connectorID authToken : string) : Builder :=
  appendBuiltinTool b
    {| bt_Type := "mcp"; bt_UserLocation := None; bt_SearchFilter := None;
       bt_VectorStoreIDs := []; bt_MaxNumResults := 0; bt_FileFilter := None;
       bt_Container := None; bt_ServerLabel := label; bt_ServerURL := "";
       bt_ServerDescription := ""; bt_ConnectorID := connectorID;
       bt_Authorization := authToken; bt_RequireApproval := Some (AnyString "never");
       bt_AllowedTools := []; bt_ImageSize := ""; bt_ImageQuality := "";
       bt_ImageFormat := ""; bt_ImageCompression := 0; bt_ImageBackground := "";
       bt_PartialImages := 0; bt_DisplayWidth := 0; bt_DisplayHeight := 0;
       bt_Environment := "" |}.

(** [Builder.ImageGeneration]. *)
Definition ImageGeneration (b : Builder) : Builder :=
  appendBuiltinTool b
    {| bt_Type := "image_generation"; bt_UserLocation := None; bt_SearchFilter := None;
       bt_VectorStoreIDs := []; bt_MaxNumResults := 0; bt_FileFilter := None;
       bt_Container := None; bt_ServerLabel := ""; bt_ServerURL := "";
       bt_ServerDescription := ""; bt_ConnectorID := ""; bt_Authorization := "";
       bt_RequireApproval := None; bt_AllowedTools := []; bt_ImageSize := "";
       bt_ImageQuality := ""; bt_ImageFormat := ""; bt_ImageCompression := 0;
       bt_ImageBackground := ""; bt_PartialImages := 0; bt_DisplayWidth := 0;
       bt_DisplayHeight := 0; bt_Environment := "" |}.

(** [Builder.ImageGenerationWith]: each option is copied when it is set. *)
Definition ImageGenerationWith (b : Builder) (opts : ImageGenerationOptions) : Builder :=
  let tool :=
    {| bt_Type := "image_generation"; bt_UserLocation := None; bt_SearchFilter := None;
       bt_VectorStoreIDs := []; bt_MaxNumResults := 0; bt_FileFilter := None;
       bt_Container := None; bt_ServerLabel := ""; bt_ServerURL := "";
       bt_ServerDescription := ""; bt_ConnectorID := ""; bt_Authorization := "";
       bt_RequireApproval := None; bt_AllowedTools := [];
       bt_ImageSize := (if negb (String.eqb (igo_Size opts) "") then igo_Size opts else "");
       bt_ImageQuality :=
         (if negb (String.eqb (igo_Quality opts) "") then igo_Quality opts else "");
       bt_ImageFormat :=
         (if negb (String.eqb (igo_Format opts) "") then igo_Format opts else "");
       bt_ImageCompression := (if 0 <? igo_Compression opts then igo_Compression opts else 0);
       bt_ImageBackground :=
         (if negb (String.eqb (igo_Background opts) "") then igo_Background opts
          else "");
       bt_PartialImages := (if 0 <? igo_PartialImages opts then igo_PartialImages opts else 0);
       bt_DisplayWidth := 0; bt_DisplayHeight := 0; bt_Environment := "" |} in
  appendBuiltinTool b tool.

(** [Builder.ComputerUse]. *)
Definition ComputerUse (b : Builder) (displayWidth displayHeight : Z)
    (environment : string) : Builder :=
  appendBuiltinTool b
    {| bt_Type := "computer_use_preview"; bt_UserLocation := None;
       bt_SearchFilter := None; bt_VectorStoreIDs := []; bt_MaxNumResults := 0;
       bt_FileFilter := None; bt_Container := None; bt_ServerLabel := "";
       bt_ServerURL := ""; bt_ServerDescription := ""; bt_ConnectorID := "";
       bt_Authorization := ""; bt_RequireApproval := None; bt_AllowedTools := [];
       bt_ImageSize := ""; bt_ImageQuality := ""; bt_ImageFormat := "";
       bt_ImageCompression := 0; bt_ImageBackground := ""; bt_PartialImages := 0;
       bt_DisplayWidth := displayWidth; bt_DisplayHeight := displayHeight;
       bt_Environment := environment |}.

(** [Builder.ComputerUseWith]. *)
Definition ComputerUseWith (b : Builder) (opts : ComputerUseOptions) : Builder :=
  ComputerUse b (cuo_DisplayWidth opts) (cuo_DisplayHeight opts) (cuo_Environment opts).

(** [Builder.Shell]. *)
Definition Shell (b : Builder) : Builder :=
  appendBuiltinTool b
    {| bt_Type := "shell"; bt_UserLocation := None; bt_SearchFilter := None;
       bt_VectorStoreIDs := []; bt_MaxNumResults := 0; bt_FileFilter := None;
       bt_Container := None; bt_ServerLabel := ""; bt_ServerURL := "";
       bt_ServerDescription := ""; bt_ConnectorID := ""; bt_Authorization := "";
       bt_RequireApproval := None; bt_AllowedTools := []; bt_ImageSize := "";
       bt_ImageQuality := ""; bt_ImageFormat := ""; bt_ImageCompression := 0;
       bt_ImageBackground := ""; bt_PartialImages := 0; bt_DisplayWidth := 0;
       bt_DisplayHeight := 0; bt_Environment := "" |}.

(** [Builder.ApplyPatch]. *)
Definition ApplyPatch (b : Builder) : Builder :=
  appendBuiltinTool b
    {| bt_Type := "apply_patch"; bt_UserLocation := None; bt_SearchFilter := None;
       bt_VectorStoreIDs := []; bt_MaxNumResults := 0; bt_FileFilter := None;
       bt_Container := None; bt_ServerLabel := ""; bt_ServerURL := "";
       bt_ServerDescription := ""; bt_ConnectorID := ""; bt_Authorization := "";
       bt_RequireApproval := None; bt_AllowedTools := []; bt_ImageSize := "";
       bt_ImageQuality := ""; bt_ImageFormat := ""; bt_ImageCompression := 0;
       bt_ImageBackground := ""; bt_PartialImages := 0; bt_DisplayWidth := 0;
       bt_DisplayHeight := 0; bt_Environment := "" |}.

(** [Builder.HasBuiltinTools]. *)
Definition HasBuiltinTools (b : Builder) : bool := (0 <? length (b_builtinTools b))%nat.

(** A call of one of the methods that add a built-in tool, with its
    arguments. *)
Inductive toolMethod :=
  | CallWebSearch
  | CallWebSearchWith (opts : WebSearchOptions)
  | CallFileSearch (vectorStoreIDs : list string)
  | CallFileSearchWith (opts : FileSearchOptions)
  | CallCodeInterpreter
  | CallCodeInterpreterWith (opts : CodeInterpreterOptions)
  | CallMCP (label url : string)
  | CallMCPWith (opts : MCPOptions)
  | CallMCPConnector (label connectorID authToken : string)
  | CallImageGeneration
  | CallImageGenerationWith (opts : ImageGenerationOptions)
  | CallComputerUse (displayWidth displayHeight : Z) (environment : string)
  | CallComputerUseWith (opts : ComputerUseOptions)
  | CallShell
  | CallApplyPatch.

(** The builder after the call. *)
Definition call (m : toolMethod) (b : Builder) : Builder :=
  match m with
  | CallWebSearch => WebSearch b
  | CallWebSearchWith opts => WebSearchWith b opts
  | CallFileSearch vectorStoreIDs => FileSearch b vectorStoreIDs
  | CallFileSearchWith opts => FileSearchWith b opts
  | CallCodeInterpreter => CodeInterpreter b
  | CallCodeInterpreterWith opts => CodeInterpreterWith b opts
  | CallMCP label url => MCP b label url
  | CallMCPWith opts => MCPWith b opts
  | CallMCPConnector label connectorID authToken =>
      MCPConnector b label connectorID authToken
  | CallImageGeneration => ImageGeneration b
  | CallImageGenerationWith opts => ImageGenerationWith b opts
  | CallComputerUse displayWidth displayHeight environment =>
      ComputerUse b displayWidth displayHeight environment
  | CallComputerUseWith opts => ComputerUseWith b opts
  | CallShell => Shell b
  | CallApplyPatch => ApplyPatch b
  end.

(** The tool that a call has just added. *)
Definition added (b : Builder) : option BuiltinTool := last (b_builtinTools b).

End BuilderTools.

(** Is the content a negative number? *)
Definition negativeNumber (c : fieldContent) : bool :=
  match c with GoInt n => n <? 0 | _ => false end.

(** A file search tool as [Builder.FileSearchWith] makes it from a vector
    store and a negative result limit. *)
Definition sampleFileSearchTool : BuiltinTool :=
  {| bt_Type := "file_search"; bt_UserLocation := None; bt_SearchFilter := None;
     bt_VectorStoreIDs := ["vs_1"]; bt_MaxNumResults := -3; bt_FileFilter := None;
     bt_Container := None; bt_ServerLabel := ""; bt_ServerURL := "";
     bt_ServerDescription := ""; bt_ConnectorID := ""; bt_Authorization := "";
     bt_RequireApproval := None; bt_AllowedTools := []; bt_ImageSize := "";
     bt_ImageQuality := ""; bt_ImageFormat := ""; bt_ImageCompression := 0;
     bt_ImageBackground := ""; bt_PartialImages := 0; bt_DisplayWidth := 0;
     bt_DisplayHeight := 0; bt_Environment := "" |}.

(** ** The OpenAI provider: [Send], [SendStream] and [sendResponses] *)

(** [ProviderConfig]. [cfg_Headers] lists the entries of the [Headers] map
    in the order in which [range] visits them; [cfg_Timeout] is in
    nanoseconds. *)
Record ProviderConfig := {
  cfg_APIKey : string;
  cfg_BaseURL : string;
  cfg_Headers : list (string * string);
  cfg_Timeout : Z }.

(** [OpenAIProvider]. The HTTP client is [http.DefaultClient] ([None]) or a
    client with a timeout. *)
Record OpenAIProvider := {
  config : ProviderConfig;
  httpClient : option Z }.

Definition openAIBaseURL : string := "https://api.openai.com/v1".

(** The body of an HTTP response as a reader sees it: the bytes that
    arrive, and then the end of the stream ([None], [io.EOF]) or a read
    error. A body that never ends is not represented. *)
Record httpBody := {
  arriving : string;
  failure : option string }.

Record httpResponse := {
  StatusCode : Z;
  Body : httpBody }.

(** [io.ReadAll]: the data read and the error, if any. *)
Definition ReadAll (body : httpBody) : string * option string :=
  (arriving body, failure body).

(** The successive results of [reader.ReadBytes('\n')] that come without
    an error, each ending in the delimiter, and the data that the last call
    returns together with its error. *)
Fixpoint ReadBytes (s : string) : list string * string :=
  match s with
  | EmptyString => ([], EmptyString)
  | String c s' =>
      let '(lines, rest) := ReadBytes s' in
      if Ascii.eqb c (ascii_of_nat 10) then (String c EmptyString :: lines, rest)
      else match lines with
           | [] => ([], String c rest)
           | line :: lines' => (String c line :: lines', rest)
           end
  end.

Record ResponseFormat := { rf_Type : string }.

(** [reasoningCfg]. *)
Record reasoningCfg := { rc_Effort : string }.

(** [responsesInputItem]. *)
Record responsesInputItem := { rii_Role : string; rii_Content : string }.

(** The two dynamic types that [sendResponses] stores in [Input]. *)
Inductive responsesInput :=
  | InputString (content : string)
  | InputItems (items : list responsesInputItem).

Section Provider.
Context `{Opaque}.

Record openAIRequest := {
  oai_Model : string;
  oai_Messages : list Message;
  oai_Stream : bool;
  oai_Temperature : option float64;
  oai_Tools : list Tool;
  oai_ToolChoice : option string;
  oai_ResponseFormat : option ResponseFormat;
  oai_ReasoningEffort : string }.

(** An element of [Tools] of a [responsesRequest]: the wire object of a
    built-in tool, or a function tool as it is. *)
Inductive responsesTool :=
  | ToolObject (tool : gmap string wireValue)
  | ToolFunction (ft : Tool).

Record responsesRequest := {
  rreq_Model : string;
  rreq_Input : responsesInput;
  rreq_Instructions : string;
  rreq_Tools : list responsesTool;
  rreq_ToolChoice : string;
  rreq_Reasoning : option reasoningCfg }.

(** An [http.Request] as the provider makes it: [hr_Header] lists the
    calls of [Header.Set] in order. *)
Record httpRequest := {
  hr_ctx : GoContext;
  hr_Method : string;
  hr_URL : string;
  hr_Body : string;
  hr_Header : list (string * string) }.

(** What a call of the provider does to the outside, in order. *)
Inductive providerEvent :=
  | PEvPrint (path : string) (stream : bool)   (* the debug line *)
  | PEvDo (req : httpRequest)                  (* httpClient.Do *)
  | PEvCallback (content : string).            (* callback(content) *)

(** What the provider reads of a [Message], a type of another file of the
    package: [msg.Role], and [msg.Content.(string)] ([None] when the content
    is not a string). *)
Class MessageView := {
  messageRole : Message → string;
  messageText : Message → option string }.

(** The [ThinkingLevel] constants, declared in another file. *)
Class ThinkingLevels := {
  ThinkingLow : string;
  ThinkingMedium : string;
  ThinkingHigh : string }.

(** The standard library as the provider uses it: the network behind
    [httpClient.Do] with its state [Net], the error of
    [http.NewRequestWithContext] if any, [os.Getenv], [json.Marshal] of the
    two request types, [json.Unmarshal] of a stream chunk (the [delta]
    contents of its choices) and [bytes.TrimSpace]. *)
Class Libraries := {
  Net : Type;
  Do : option Z → httpRequest → Net → result httpResponse string * Net;
  requestError : GoContext → string → string → option string;
  Getenv : string → string;
  Marshal_openAIRequest : openAIRequest → result string string;
  Marshal_responsesRequest : responsesRequest → result string string;
  Unmarshal_chunk : string → result (list string) string;
  TrimSpace : string → string }.

Context `{ModelConstants} `{EncodingJSON} `{MessageView} `{ThinkingLevels} `{Libraries}.

(** [NewOpenAIProvider]. *)
Definition NewOpenAIProvider (config : ProviderConfig) : OpenAIProvider :=
  let BaseURL :=
    if String.eqb (cfg_BaseURL config) "" then openAIBaseURL else cfg_BaseURL config in
  let APIKey :=
    if String.eqb (cfg_APIKey config) "" then Getenv "OPENAI_API_KEY"
    else cfg_APIKey config in
  let client := if 0 <? cfg_Timeout config then Some (cfg_Timeout config) else None in
  {| config := {| cfg_APIKey := APIKey; cfg_BaseURL := BaseURL;
                  cfg_Headers := cfg_Headers config;
                  cfg_Timeout := cfg_Timeout config |};
     httpClient := client |}.

(** [buildRequest]. *)
Definition buildRequest (req : ProviderRequest) : openAIRequest :=
  let ReasoningEffort :=
    if negb (String.eqb (req_Thinking req) "") then
      if String.eqb (req_Thinking req) ThinkingLow then "low"
      else if String.eqb (req_Thinking req) ThinkingMedium then "medium"
      else if String.eqb (req_Thinking req) ThinkingHigh then "high"
      else ""
    else "" in
  let hasTools := (0 <? length (req_Tools req))%nat in
  {| oai_Model := resolveModel ProviderOpenAI (req_Model req);
     oai_Messages := req_Messages req;
     oai_Stream := false;
     oai_Temperature := req_Temperature req;
     oai_Tools := if hasTools then req_Tools req else [];
     oai_ToolChoice := if hasTools then Some "auto" else None;
     oai_ResponseFormat :=
       if req_JSONMode req then Some {| rf_Type := "json_object" |} else None;
     oai_ReasoningEffort := ReasoningEffort |}.

(** [oaiReq.Stream = true]. *)
Definition streaming (oaiReq : openAIRequest) : openAIRequest :=
  {| oai_Model := oai_Model oaiReq; oai_Messages := oai_Messages oaiReq;
     oai_Stream := true; oai_Temperature := oai_Temperature oaiReq;
     oai_Tools := oai_Tools oaiReq; oai_ToolChoice := oai_ToolChoice oaiReq;
     oai_ResponseFormat := oai_ResponseFormat oaiReq;
     oai_ReasoningEffort := oai_ReasoningEffort oaiReq |}.

(** [setHeaders]. *)
Definition setHeaders (p : OpenAIProvider) (req : httpRequest) : httpRequest :=
  {| hr_ctx := hr_ctx req; hr_Method := hr_Method req; hr_URL := hr_URL req;
     hr_Body := hr_Body req;
     hr_Header :=
       hr_Header req
       ++ [ ("Content-Type", "application/json");
            ("Authorization", "Bearer " +:+ cfg_APIKey (config p)) ]
       ++ cfg_Headers (config p) |}.

Definition providerError (message : string) (err : option string) : ProviderError :=
  {| pe_Provider := Name; pe_Code := ""; pe_Message := message; pe_Err := err |}.

(** The [input] of [sendResponses]: the content of a single user message
    that is a string, the list of all messages otherwise. *)
Definition responsesInputOf (messages : list Message) : responsesInput :=
  let input :=
    match messages with
    | [msg] =>
        if String.eqb (messageRole msg) "user" then messageText msg else None
    | _ => None
    end in
  match input with
  | Some content => InputString content
  | None =>
      InputItems
        ((λ msg, {| rii_Role := messageRole msg;
                    rii_Content := default "" (messageText msg) |}) <$> messages)
  end.

(** The loop that finds the [instructions]: it stops at the first system
    message. *)
Fixpoint instructionsOf (messages : list Message) : string :=
  match messages with
  | [] => ""
  | msg :: messages' =>
      if String.eqb (messageRole msg) "system"
      then default "" (messageText msg)
      else instructionsOf messages'
  end.

(** The [responsesRequest] that [sendResponses] marshals. *)
Definition responsesRequestOf (req : ProviderRequest) : responsesRequest :=
  {| rreq_Model := resolveModel ProviderOpenAI (req_Model req);
     rreq_Input := responsesInputOf (req_Messages req);
     rreq_Instructions := instructionsOf (req_Messages req);
     rreq_Tools := (ToolObject ∘ buildBuiltinTool <$> req_BuiltinTools req)
                   ++ (ToolFunction <$> req_Tools req);
     rreq_ToolChoice := "auto";
     rreq_Reasoning :=
       if negb (String.eqb (req_Thinking req) "")
       then Some {| rc_Effort := req_Thinking req |} else None |}.

(** The common end of [Send] and [sendResponses]: the request is made,
    sent, and the whole body is read and handed to [parse]. The HTTP status
    is not looked at. *)
Definition exchange (p : OpenAIProvider) (debug : bool) (ctx : GoContext)
    (path body : string)
    (parse : string → result ProviderResponse ProviderError) (n : Net)
  : result ProviderResponse ProviderError * Net * list providerEvent :=
  match requestError ctx "POST" (cfg_BaseURL (config p) +:+ path) with
  | Some err => (Err (providerError "failed to create request" (Some err)), n, [])
  | None =>
      let httpReq :=
        setHeaders p {| hr_ctx := ctx; hr_Method := "POST";
                        hr_URL := cfg_BaseURL (config p) +:+ path;
                        hr_Body := body; hr_Header := [] |} in
      let printed := if debug then [PEvPrint path false] else [] in
      match Do (httpClient p) httpReq n with
      | (Err err, n') =>
          (Err (providerError "request failed" (Some err)), n',
           printed ++ [PEvDo httpReq])
      | (Ok resp, n') =>
          match ReadAll (Body resp) with
          | (_, Some err) =>
              (Err (providerError "failed to read response" (Some err)), n',
               printed ++ [PEvDo httpReq])
          | (respBody, None) => (parse respBody, n', printed ++ [PEvDo httpReq])
          end
      end
  end.

(** [sendResponses]. *)
Definition sendResponses (p : OpenAIProvider) (debug : bool) (ctx : GoContext)
    (req : ProviderRequest) (n : Net)
  : result ProviderResponse ProviderError * Net * list providerEvent :=
  match Marshal_responsesRequest (responsesRequestOf req) with
  | Err err =>
      (Err (providerError "failed to marshal responses request" (Some err)), n, [])
  | Ok body => exchange p debug ctx "/responses" body parseResponsesResponse n
  end.

(** [OpenAIProvider.Send], named apart from the orchestrator's call of the
    [Provider] interface. *)
Definition providerSend (p : OpenAIProvider) (debug : bool) (ctx : GoContext)
    (req : ProviderRequest) (n : Net)
  : result ProviderResponse ProviderError * Net * list providerEvent :=
  if String.eqb (cfg_APIKey (config p)) "" then
    (Err (providerError "OPENAI_API_KEY not set" None), n, [])
  else if (0 <? length (req_BuiltinTools req))%nat then
    sendResponses p debug ctx req n
  else
    match Marshal_openAIRequest (buildRequest req) with
    | Err err => (Err (providerError "failed to marshal request" (Some err)), n, [])
    | Ok body => exchange p debug ctx "/chat/completions" body parseResponse n
    end.

(** How the read loop of [SendStream] ends. *)
Inductive streamEnd :=
  | StreamDone (fullContent : string)    (* [break]: end of stream or [DONE] *)
  | StreamFailed (err : string).         (* a read error *)

(** The read loop of [SendStream] over the lines still to come, with the
    content written so far; the second component lists the arguments of the
    calls of [callback], in order. *)
Fixpoint streamLoop (lines : list string) (ending : option string)
    (fullContent : string) : streamEnd * list string :=
  match lines with
  | [] =>
      match ending with
      | None => (StreamDone fullContent, [])
      | Some err => (StreamFailed err, [])
      end
  | line :: lines' =>
      let line := TrimSpace line in
      if negb (HasPrefix line "data: ") then streamLoop lines' ending fullContent
      else
        let data := TrimPrefix line "data: " in
        if String.eqb data "[DONE]" then (StreamDone fullContent, [])
        else
          match Unmarshal_chunk data with
          | Err _ => streamLoop lines' ending fullContent
          | Ok [] => streamLoop lines' ending fullContent
          | Ok (content :: _) =>
              let '(e, calls) := streamLoop lines' ending (fullContent +:+ content) in
              (e, content :: calls)
          end
  end.

(** The statements of [SendStream] that follow the status check: the read
    loop over the body and the response made of the content. *)
Definition streamResult (body : httpBody)
  : result ProviderResponse ProviderError * list string :=
  let '(lines, _) := ReadBytes (arriving body) in
  let '(e, calls) := streamLoop lines (failure body) "" in
  (match e with
   | StreamFailed err => Err (providerError "stream read error" (Some err))
   | StreamDone fullContent =>
       let completionTokens := Z.quot (Z.of_nat (String.length fullContent)) 4 in
       Ok {| pr_Content := fullContent; pr_ToolCalls := [];
             pr_PromptTokens := 0;
             pr_CompletionTokens := completionTokens;
             pr_TotalTokens := completionTokens;
             pr_FinishReason := ""; pr_ResponsesOutput := None |}
   end, calls).

(** [SendStream]. *)
Definition SendStream (p : OpenAIProvider) (debug : bool) (ctx : GoContext)
    (req : ProviderRequest) (n : Net)
  : result ProviderResponse ProviderError * Net * list providerEvent :=
  if String.eqb (cfg_APIKey (config p)) "" then
    (Err (providerError "OPENAI_API_KEY not set" None), n, [])
  else
    match Marshal_openAIRequest (streaming (buildRequest req)) with
    | Err err => (Err (providerError "failed to marshal request" (Some err)), n, [])
    | Ok body =>
        let url := cfg_BaseURL (config p) +:+ "/chat/completions" in
        match requestError ctx "POST" url with
        | Some err => (Err (providerError "failed to create request" (Some err)), n, [])
        | None =>
            let httpReq :=
              setHeaders p {| hr_ctx := ctx; hr_Method := "POST"; hr_URL := url;
                              hr_Body := body; hr_Header := [] |} in
            let printed := if debug then [PEvPrint "/chat/completions" true] else [] in
            match Do (httpClient p) httpReq n with
            | (Err err, n') =>
                (Err (providerError "request failed" (Some err)), n',
                 printed ++ [PEvDo httpReq])
            | (Ok resp, n') =>
                if negb (StatusCode resp =? 200) then
                  (Err {| pe_Provider := Name; pe_Code := pretty (StatusCode resp);
                          pe_Message := (ReadAll (Body resp)).1; pe_Err := None |},
                   n', printed ++ [PEvDo httpReq])
                else
                  let '(r, calls) := streamResult (Body resp) in
                  (r, n', printed ++ [PEvDo httpReq] ++ (PEvCallback <$> calls))
            end
        end
    end.

(** A line that the read loop passes over: it is not a [data: ] line, or
    its payload is not [DONE] and does not decode, or decodes to a chunk
    without choices. *)
Definition noise (line : string) : Prop :=
  let line := TrimSpace line in
  let data := TrimPrefix line "data: " in
  HasPrefix line "data: " = false
  ∨ (data ≠ "[DONE]"
     ∧ ((∃ err, Unmarshal_chunk data = Err err) ∨ Unmarshal_chunk data = Ok [])).

(** The contents handed to [callback], in order. *)
Definition callbacks (events : list providerEvent) : list string :=
  omap (λ e, match e with PEvCallback content => Some content | _ => None end)
       events.

(** The HTTP requests made, in order. *)
Definition exchanges (events : list providerEvent) : list httpRequest :=
  omap (λ e, match e with PEvDo req => Some req | _ => None end) events.

End Provider.

(** What successive [WriteString] calls leave in a [strings.Builder]. *)
Definition written (contents : list string) : string :=
  foldr String.append "" contents.

(** A line as [ReadBytes] returns it without error: it ends with the
    delimiter and has no other. *)
Definition noNewline (s : string) : Prop := IndexByte s (ascii_of_nat 10) = -1.

Definition isLine (line : string) : Prop :=
  ∃ text, line = text +:+ newline ∧ noNewline text.

(** ** An executable instance of the provider's libraries

    A network that answers every request through a fixed function and
    counts the exchanges, a decoder of stream chunks, [bytes.TrimSpace] on
    ASCII input, and messages written as [role:content]. It is used to run
    the provider on concrete inputs. *)
Module SampleNet.
Import SampleWorld.

Definition asciiSpace (c : ascii) : bool :=
  let n := nat_of_ascii c in
  (n =? 32)%nat || ((9 <=? n)%nat && (n <=? 13)%nat).

Fixpoint trimLeft (s : string) : string :=
  match s with
  | String c s' => if asciiSpace c then trimLeft s' else s
  | EmptyString => EmptyString
  end.

Fixpoint trimRight (s : string) : string :=
  match s with
  | String c s' =>
      let t := trimRight s' in
      if asciiSpace c && String.eqb t "" then EmptyString else String c t
  | EmptyString => EmptyString
  end.

(** The [delta] contents of the choices of a stream chunk. *)
Definition intoDelta : SampleJSON.decoder string :=
  SampleJSON.intoStruct (λ ms cur, SampleJSON.member "content" SampleJSON.intoString ms cur).

Definition intoChoice : SampleJSON.decoder string :=
  SampleJSON.intoStruct (λ ms cur, SampleJSON.member "delta" intoDelta ms cur).

Definition intoChunk : SampleJSON.decoder (list string) :=
  SampleJSON.intoStruct (λ ms cur,
    SampleJSON.member "choices" (SampleJSON.intoSlice intoChoice "") ms cur).

(** A message written as [role:content]; without a colon it is a user
    message. *)
Definition roleOf (msg : string) : string :=
  let i := IndexByte msg ":" in
  if 0 <=? i then sliceTo (Z.to_nat i) msg else "user".

Definition textOf (msg : string) : option string :=
  let i := IndexByte msg ":" in
  Some (if 0 <=? i then sliceFrom (Z.to_nat i + 1) msg else msg).

#[export] Instance messageView : @MessageView SampleWorld.opaque :=
  @Build_MessageView SampleWorld.opaque roleOf textOf.

#[export] Instance thinkingLevels : ThinkingLevels :=
  {| ThinkingLow := "low"; ThinkingMedium := "medium"; ThinkingHigh := "high" |}.

Definition libraries
    (server : @httpRequest SampleWorld.opaque → result httpResponse string)
  : @Libraries SampleWorld.opaque :=
  {| Net := nat;
     Do := λ _ req n, (server req, S n);
     requestError := λ _ _ url,
       if HasPrefix url "http" then None else Some "unsupported protocol scheme";
     Getenv := λ _, "";
     Marshal_openAIRequest := λ r, Ok ("chat " +:+ oai_Model r);
     Marshal_responsesRequest := λ r, Ok ("responses " +:+ rreq_Model r);
     Unmarshal_chunk := SampleJSON.Unmarshal intoChunk [];
     TrimSpace := λ s, trimRight (trimLeft s) |}.

(** A server that answers every request with the same status and body. *)
Definition serving (status : Z) (body : httpBody)
  : @httpRequest SampleWorld.opaque → result httpResponse string :=
  λ _, Ok {| StatusCode := status; Body := body |}.

Definition provider (key : string) : OpenAIProvider :=
  {| config := {| cfg_APIKey := key; cfg_BaseURL := openAIBaseURL;
                  cfg_Headers := []; cfg_Timeout := 0 |};
     httpClient := None |}.

Definition request (messages : list string) (builtinTools : list BuiltinTool)
  : @ProviderRequest SampleWorld.opaque :=
  {| req_Model := "gpt-4o"; req_Messages := messages; req_Temperature := None;
     req_Thinking := ""; req_Tools := []; req_BuiltinTools := builtinTools;
     req_JSONMode := false; req_Stream := false |}.

(** One line of an event stream with the given payload. *)
Definition dataLine (payload : string) : string :=
  "data: " +:+ jsonText payload +:+ newline.

Definition helLine : string := dataLine "{'choices':[{'delta':{'content':'Hel'}}]}".
Definition loLine : string := dataLine "{'choices':[{'delta':{'content':'lo'}}]}".
Definition doneLine : string := dataLine "[DONE]".
Definition pingLine : string := ": ping" +:+ newline.

(** A server of a chat completion, and the body of an event stream with a
    comment line, a [DONE] line and an event after it. *)
Definition chatServer : @httpRequest opaque → result httpResponse string :=
  serving 200 {| arriving := chatBodyWithTwoChoices; failure := None |}.

Definition streamBody : httpBody :=
  {| arriving := helLine +:+ pingLine +:+ loLine +:+ doneLine +:+ helLine;
     failure := None |}.

End SampleNet.

(** ** The OpenAI provider: the embeddings of [Embed] *)

(** How a stretch of code ends: it goes on with a value, or it panics
    (here: index out of range). *)
Inductive outcome (A : Type) :=
  | Returned (a : A)
  | Panicked.
Arguments Returned {A} a.
Arguments Panicked {A}.

Section Embeddings.
Context `{Opaque}.

(** An element of [result.Data]. *)
Record embeddingDatum := {
  ed_Embedding : list float64;
  ed_Index : Z }.

(** The loop [for _, d := range result.Data] of [Embed], from the given
    values of [embeddings] and [dims]: [embeddings[d.Index] = d.Embedding]
    panics when the index is not within the slice. *)
Fixpoint placeEmbeddings (data : list embeddingDatum)
    (embeddings : list (list float64)) (dims : Z)
  : outcome (list (list float64) * Z) :=
  match data with
  | [] => Returned (embeddings, dims)
  | d :: data' =>
      if (0 <=? ed_Index d) && (ed_Index d <? Z.of_nat (length embeddings)) then
        placeEmbeddings data'
          (<[Z.to_nat (ed_Index d) := ed_Embedding d]> embeddings)
          (if dims =? 0 then Z.of_nat (length (ed_Embedding d)) else dims)
      else Panicked
  end.

(** The values of [Embeddings] and [Dimensions] that [Embed] returns for a
    decoded [result.Data]: the loop, from [make([][]float64, len(data))] and
    [dims] zero. *)
Definition collectEmbeddings (data : list embeddingDatum)
  : outcome (list (list float64) * Z) :=
  placeEmbeddings data (replicate (length data) []) 0.

(** The length of the first embedding that is not empty, 0 when there is
    none. *)
Fixpoint firstDimension (data : list embeddingDatum) : Z :=
  match data with
  | [] => 0
  | d :: data' =>
      if Z.of_nat (length (ed_Embedding d)) =? 0 then firstDimension data'
      else Z.of_nat (length (ed_Embedding d))
  end.

End Embeddings.

(** ** Notions and samples for the resolver table, empty [any] fields and
    error objects in bodies that do not decode *)

Section TableNotions.
Context `{ModelConstants}.

(** The [Model] constants are declared in another file of the package. The
    Claude constants name their own models when the normalizer sends each
    constant of the Anthropic table to the snapshot that the table stores
    for it (so for the OpenRouter slug of the model, for its shorthand, and
    for the snapshot itself). *)
Definition anthropicTableAgrees : bool :=
  forallb (λ entry : ModelConst * string,
             String.eqb (normalizeAnthropicModelID (modelID entry.1)) entry.2)
          anthropicModels.

(** No rewriting rule of [resolveModel] applies to the model, for any
    provider type. *)
Definition unmatched (model : Model) : bool :=
  negb (HasPrefix model "openai/") && negb (HasPrefix model "google/")
  && negb (negb (Contains model "/") && looksLikeOpenAIModelID model)
  && String.eqb (normalizeAnthropicModelID model) model.

End TableNotions.





(** The error object of the three bodies below, as the backend wrote it. *)
Definition quotaError : SampleJSON.json :=
  SampleJSON.JObject
    [ ("message", SampleJSON.JString "quota exceeded");
      ("type", SampleJSON.JString "insufficient_quota");
      ("code", SampleJSON.JString "429") ].

(** A body with a top-level error object next to a web search call whose
    [id] is a number instead of a string. *)
Definition bodyWithErrorAndIllTypedCall : string :=
  jsonText "{'error':{'message':'quota exceeded','type':'insufficient_quota','code':'429'},'output':[{'type':'web_search_call','id':42}]}".

(** A body that is a top-level error object alone, with its code written as
    a number. *)
Definition bodyWithNumericErrorCode : string :=
  jsonText "{'error':{'message':'quota exceeded','type':'insufficient_quota','code':429}}".

(** A chat completion body with a top-level error object next to a usage
    count written as a string. *)
Definition chatBodyWithErrorAndIllTypedUsage : string :=
  jsonText "{'error':{'message':'quota exceeded','type':'insufficient_quota','code':'429'},'usage':{'total_tokens':'nine'}}".

(* ===================================================================== *)
(** * Part II: properties                                                  *)
(* ===================================================================== *)

(** ** Model resolver *)

Section ResolverFacts.
Context `{ModelConstants}.

(** The literal binds [ProviderOpenAI], so [init] always rebinds Azure. *)
Lemma modelMappings_unfold :
  modelMappings = <[ProviderAzure := modelTable openAIModels]> modelMappingsLiteral.
Proof.
  unfold modelMappings, init.
  assert (modelMappingsLiteral !! ProviderOpenAI = Some (modelTable openAIModels)) as ->;
    [| reflexivity].
  unfold modelMappingsLiteral.
  rewrite lookup_insert_ne by discriminate.
  apply lookup_insert_eq.
Qed.

Lemma modelMappings_OpenRouter :
  modelMappings !! ProviderOpenRouter = Some (modelTable openRouterModels).
Proof.
  rewrite modelMappings_unfold, lookup_insert_ne by discriminate.
  apply lookup_insert_eq.
Qed.

Lemma modelMappings_OpenAI :
  modelMappings !! ProviderOpenAI = Some (modelTable openAIModels).
Proof.
  rewrite modelMappings_unfold, lookup_insert_ne by discriminate.
  unfold modelMappingsLiteral.
  rewrite lookup_insert_ne by discriminate. apply lookup_insert_eq.
Qed.

Lemma modelMappings_Anthropic :
  modelMappings !! ProviderAnthropic = Some (modelTable anthropicModels).
Proof.
  rewrite modelMappings_unfold, lookup_insert_ne by discriminate.
  unfold modelMappingsLiteral.
  do 2 (rewrite lookup_insert_ne by discriminate). apply lookup_insert_eq.
Qed.

Lemma modelMappings_Google :
  modelMappings !! ProviderGoogle = Some (modelTable googleModels).
Proof.
  rewrite modelMappings_unfold, lookup_insert_ne by discriminate.
  unfold modelMappingsLiteral.
  do 3 (rewrite lookup_insert_ne by discriminate). apply lookup_insert_eq.
Qed.

(** Azure shares the OpenAI table. *)
Lemma modelMappings_Azure :
  modelMappings !! ProviderAzure = Some (modelTable openAIModels).
Proof. rewrite modelMappings_unfold. apply lookup_insert_eq. Qed.

(** No other provider type, Ollama in particular, has a table. *)
Lemma modelMappings_other (providerType : ProviderType) :
  providerType ∉ [ProviderOpenRouter; ProviderOpenAI; ProviderAnthropic;
                  ProviderGoogle; ProviderAzure] →
  modelMappings !! providerType = None.
Proof.
  intros Hnot. rewrite modelMappings_unfold. unfold modelMappingsLiteral.
  repeat (rewrite lookup_insert_ne by (intros <-; apply Hnot; set_solver)).
  apply lookup_singleton_ne. intros <-. apply Hnot. set_solver.
Qed.

(** C1. For every provider type with an entry in [modelMappings] and every
    model with a key in that provider's table, [resolveModel] returns exactly
    the string stored in the table; no prefix stripping, prefix inference or
    dotted-version normalization is applied to it. *)
Theorem resolveModel_table_wins (providerType : ProviderType) (model : Model)
    (mapping : gmap Model string) (resolved : string) :
  modelMappings !! providerType = Some mapping →
  mapping !! model = Some resolved →
  resolveModel providerType model = resolved.
Proof.
  intros Hprovider Hmodel. unfold resolveModel.
  rewrite Hprovider. simpl. rewrite Hmodel. reflexivity.
Qed.

(** The same in terms of the literals: when the constants of a literal stand
    for pairwise distinct models (Go rejects a map literal with a duplicate
    constant key), each constant resolves to the string written next to it. *)
Lemma resolveModel_constant (providerType : ProviderType)
    (entries : list (ModelConst * string)) (c : ModelConst) (resolved : string) :
  modelMappings !! providerType = Some (modelTable entries) →
  NoDup (modelID <$> entries.*1) →
  (c, resolved) ∈ entries →
  resolveModel providerType (modelID c) = resolved.
Proof.
  intros Hprovider Hnodup Hin.
  assert (modelTable entries !! modelID c = Some resolved) as Hmodel;
    [| unfold resolveModel; rewrite Hprovider; simpl; rewrite Hmodel; reflexivity].
  unfold modelTable. apply elem_of_list_to_map_1.
  - replace ((prod_map modelID id <$> entries).*1) with (modelID <$> entries.*1);
      [assumption |].
    clear. induction entries as [| [c' v] entries IH]; [reflexivity |].
    csimpl. f_equal. exact IH.
  - apply list_elem_of_fmap. exists (c, resolved). done.
Qed.

(** Without a table entry the Anthropic resolver is the normalizer. *)
Lemma resolveModel_miss_Anthropic (model : Model) :
  tableMiss ProviderAnthropic model →
  resolveModel ProviderAnthropic model = normalizeAnthropicModelID model.
Proof. unfold tableMiss, resolveModel. intros ->. reflexivity. Qed.

End ResolverFacts.

Lemma resolveModel_table_wins_witness :
  @resolveModel sampleModelID ProviderGoogle "google/gemini-2.0-flash-001"
  = "gemini-2.0-flash".
Proof.
  apply (@resolveModel_table_wins sampleModelID ProviderGoogle
           "google/gemini-2.0-flash-001" (@modelTable sampleModelID googleModels)).
  - apply modelMappings_Google.
  - vm_compute. reflexivity.
Defined.

(** *** The transliteration of dotted versions *)

Lemma HasPrefix_cons (a c : ascii) (p s : string) :
  HasPrefix (String c s) (String a p) = Ascii.eqb a c && HasPrefix s p.
Proof.
  unfold HasPrefix. simpl.
  destruct (ascii_dec a c) as [-> | Hne].
  - rewrite Ascii.eqb_refl. reflexivity.
  - apply Ascii.eqb_neq in Hne. rewrite Hne. reflexivity.
Qed.

Lemma HasPrefix_nil (s : string) : HasPrefix s "" = true.
Proof. destruct s; reflexivity. Qed.

Lemma HasPrefix_empty (a : ascii) (p : string) : HasPrefix "" (String a p) = false.
Proof. reflexivity. Qed.

Lemma replaceFrom_match (old new : string) (c : ascii) (s : string) :
  replaceFrom old new 0 (String c s)
  = if HasPrefix (String c s) old
    then new +:+ replaceFrom old new (String.length old - 1) s
    else String c (replaceFrom old new 0 s).
Proof. reflexivity. Qed.

Lemma replaceFrom_skip (old new : string) (k : nat) (c : ascii) (s : string) :
  replaceFrom old new (S k) (String c s) = replaceFrom old new k s.
Proof. reflexivity. Qed.

Lemma dashWhen_cons (P : ascii → bool) (c : ascii) (s : string) :
  dashWhen P (String c s)
  = String (if Ascii.eqb c "." && nextIs P s then "-"%char else c) (dashWhen P s).
Proof. reflexivity. Qed.

(** One [ReplaceAll] call of the normalizer, for the digit [d]. *)
Lemma ReplaceAll_dot (d : ascii) (s : string) :
  d ≠ "."%char →
  ReplaceAll s (String "." (String d "")) (String "-" (String d ""))
  = dashWhen (Ascii.eqb d) s.
Proof.
  intros Hd. unfold ReplaceAll.
  assert (Ascii.eqb d "." = false) as Hd' by (apply Ascii.eqb_neq; exact Hd).
  set (old := String "."%char (String d "")).
  set (new := String "-"%char (String d "")).
  enough (replaceFrom old new 0 s = dashWhen (Ascii.eqb d) s
          ∧ ∀ c, replaceFrom old new 0 (String c s)
                 = dashWhen (Ascii.eqb d) (String c s)) as [Hs _]; [exact Hs |].
  induction s as [| a s [IHs IHc]].
  - split; [reflexivity |].
    intros c. rewrite replaceFrom_match, dashWhen_cons. unfold old.
    rewrite HasPrefix_cons, HasPrefix_empty, !andb_false_r. reflexivity.
  - split; [apply IHc |].
    intros c. rewrite (replaceFrom_match _ _ c), (dashWhen_cons _ c).
    unfold old at 1. rewrite !HasPrefix_cons, HasPrefix_nil, andb_true_r.
    cbn [nextIs].
    destruct (Ascii.eqb "." c) eqn:Hc.
    + apply Ascii.eqb_eq in Hc. subst c. rewrite Ascii.eqb_refl.
      destruct (Ascii.eqb d a) eqn:Ha; cbn [andb].
      * apply Ascii.eqb_eq in Ha. subst a.
        unfold old at 2. cbn [String.length Nat.sub].
        rewrite replaceFrom_skip, IHs, dashWhen_cons, Hd'.
        reflexivity.
      * f_equal. apply IHc.
    + cbn [andb].
      replace (Ascii.eqb c ".") with false
        by (rewrite Ascii.eqb_sym; symmetry; exact Hc).
      cbn [andb]. f_equal. apply IHc.
Qed.

Lemma nextIs_dashWhen (P Q : ascii → bool) (s : string) :
  Q "."%char = false → Q "-"%char = false →
  nextIs Q (dashWhen P s) = nextIs Q s.
Proof.
  intros Hdot Hdash. destruct s as [| c s]; [reflexivity |].
  rewrite dashWhen_cons. cbn [nextIs].
  destruct (Ascii.eqb c "." && nextIs P s) eqn:Hc; [| reflexivity].
  apply andb_true_iff in Hc as [Hc _]. apply Ascii.eqb_eq in Hc. subst c.
  rewrite Hdot, Hdash. reflexivity.
Qed.

(** Two passes amount to one pass for the union of the two byte sets. *)
Lemma dashWhen_dashWhen (P Q : ascii → bool) (s : string) :
  Q "."%char = false → Q "-"%char = false →
  dashWhen Q (dashWhen P s) = dashWhen (λ c, P c || Q c) s.
Proof.
  intros Hdot Hdash. induction s as [| c s IH]; [reflexivity |].
  rewrite (dashWhen_cons P), (dashWhen_cons Q), (dashWhen_cons (λ c, P c || Q c)).
  rewrite IH, nextIs_dashWhen by assumption.
  f_equal.
  replace (nextIs (λ c0, P c0 || Q c0) s) with (nextIs P s || nextIs Q s)
    by (destruct s; reflexivity).
  destruct (Ascii.eqb c ".") eqn:Hc; cbn [andb].
  - destruct (nextIs P s); cbn [orb].
    + reflexivity.
    + rewrite Hc. reflexivity.
  - rewrite Hc. reflexivity.
Qed.

Lemma dashWhen_ext (P Q : ascii → bool) (s : string) :
  (∀ c, P c = Q c) → dashWhen P s = dashWhen Q s.
Proof.
  intros Hext. induction s as [| c s IH]; [reflexivity |].
  rewrite !dashWhen_cons, IH.
  replace (nextIs P s) with (nextIs Q s) by (destruct s; cbn; auto).
  reflexivity.
Qed.

(** The ten digits handled by the ten [ReplaceAll] calls are all of them. *)
Lemma replaced_digits (c : ascii) :
  Ascii.eqb "1" c || Ascii.eqb "5" c || Ascii.eqb "7" c || Ascii.eqb "0" c
  || Ascii.eqb "2" c || Ascii.eqb "3" c || Ascii.eqb "4" c || Ascii.eqb "6" c
  || Ascii.eqb "8" c || Ascii.eqb "9" c = isDigit c.
Proof.
  destruct c as [[] [] [] [] [] [] [] []]; reflexivity.
Qed.

(** The chain of [ReplaceAll] calls is the transliteration of version dots. *)
Lemma ReplaceAll_chain (raw : string) :
  ReplaceAll (ReplaceAll (ReplaceAll (ReplaceAll (ReplaceAll (ReplaceAll
    (ReplaceAll (ReplaceAll (ReplaceAll (ReplaceAll raw ".1" "-1") ".5" "-5")
      ".7" "-7") ".0" "-0") ".2" "-2") ".3" "-3") ".4" "-4") ".6" "-6")
        ".8" "-8") ".9" "-9"
  = dashVersionDots raw.
Proof.
  rewrite !ReplaceAll_dot by discriminate.
  rewrite !dashWhen_dashWhen by reflexivity.
  apply dashWhen_ext. intros c. rewrite <- replaced_digits.
  rewrite !orb_assoc. reflexivity.
Qed.

(** After the transliteration no dot is followed by a digit. *)
Lemma hasVersionDot_dashVersionDots (s : string) :
  hasVersionDot (dashVersionDots s) = false.
Proof.
  unfold dashVersionDots. induction s as [| c s IH]; [reflexivity |].
  rewrite dashWhen_cons. cbn [hasVersionDot].
  rewrite IH, orb_false_r, nextIs_dashWhen by reflexivity.
  destruct (Ascii.eqb c ".") eqn:Hc; cbn [andb]; [| rewrite Hc; reflexivity].
  destruct (nextIs isDigit s); [reflexivity |].
  rewrite Hc. reflexivity.
Qed.

(** Without a version dot the transliteration changes nothing. *)
Lemma dashVersionDots_id (s : string) :
  hasVersionDot s = false → dashVersionDots s = s.
Proof.
  unfold dashVersionDots. induction s as [| c s IH]; [reflexivity |].
  cbn [hasVersionDot]. intros Hs. apply orb_false_iff in Hs as [Hc Hs].
  rewrite dashWhen_cons, Hc, IH by exact Hs. reflexivity.
Qed.

(** The transliteration keeps the length: bytes are replaced one for one. *)
Lemma dashVersionDots_length (s : string) :
  String.length (dashVersionDots s) = String.length s.
Proof.
  unfold dashVersionDots. induction s as [| c s IH]; [reflexivity |].
  rewrite dashWhen_cons. cbn [String.length]. rewrite IH. reflexivity.
Qed.

(** *** [normalizeAnthropicModelID] *)

(** A shorthand listed in the [switch] resolves to its snapshot, whatever
    prefix or suffix was cut off before. *)
Lemma normalizeAnthropicModelID_case (raw shorthand snapshot : string) :
  (shorthand, snapshot) ∈ snapshotCases →
  routingCore raw = shorthand →
  normalizeAnthropicModelID raw = snapshot.
Proof.
  intros Hin Hcore. unfold normalizeAnthropicModelID. rewrite Hcore. clear Hcore.
  unfold snapshotCases in Hin.
  repeat (apply elem_of_cons in Hin as [[= -> ->] | Hin]; [reflexivity |]).
  apply elem_of_nil in Hin. contradiction.
Qed.

(** Any other identifier goes through the chain of replacements. *)
Lemma normalizeAnthropicModelID_other (raw : string) :
  routingCore raw ∉ snapshotCases.*1 →
  normalizeAnthropicModelID raw = dashVersionDots (routingCore raw).
Proof.
  intros Hnot. rewrite <- ReplaceAll_chain.
  unfold normalizeAnthropicModelID. set (core := routingCore raw) in *.
  cbn zeta. unfold snapshotCases in Hnot. cbn [fmap list_fmap fst] in Hnot.
  repeat (apply not_elem_of_cons in Hnot as [Hne Hnot];
          apply String.eqb_neq in Hne; rewrite Hne; clear Hne).
  reflexivity.
Qed.

Lemma routingCore_plain (raw : string) :
  HasPrefix raw "anthropic/" = false → IndexByte raw ":" = -1 →
  routingCore raw = raw.
Proof.
  intros Hprefix Hcolon. unfold routingCore, CutPrefix.
  rewrite Hprefix, Hcolon. reflexivity.
Qed.

(** Both spellings of a listed shorthand reach the [switch] as the
    shorthand. *)
Lemma routingCore_shorthand (shorthand snapshot : string) :
  (shorthand, snapshot) ∈ snapshotCases →
  routingCore shorthand = shorthand
  ∧ routingCore ("anthropic/" +:+ shorthand) = shorthand.
Proof.
  intros Hin. unfold snapshotCases in Hin.
  repeat (apply elem_of_cons in Hin as [[= -> ->] | Hin]; [split; reflexivity |]).
  apply elem_of_nil in Hin. contradiction.
Qed.

Section AnthropicResolution.
Context `{ModelConstants}.

(** An entry of a table comes from an entry of its literal. *)
Lemma modelTable_lookup (entries : list (ModelConst * string))
    (model : Model) (resolved : string) :
  modelTable entries !! model = Some resolved →
  ∃ c, (c, resolved) ∈ entries ∧ modelID c = model.
Proof.
  unfold modelTable. intros Hlookup.
  apply elem_of_list_to_map_2, list_elem_of_fmap in Hlookup.
  destruct Hlookup as ([c v] & Hpair & Hin).
  cbn in Hpair. injection Hpair as -> ->. exists c. split; [exact Hin | reflexivity].
Qed.

(** When the Claude constants name their own models, the table path and the
    normalizer give the same answer: for the Anthropic backend the resolver
    is the normalizer, for every identifier. *)
Lemma resolveModel_Anthropic_normalizes (raw : Model) :
  anthropicTableAgrees = true →
  resolveModel ProviderAnthropic raw = normalizeAnthropicModelID raw.
Proof.
  intros Hagree. unfold resolveModel.
  rewrite modelMappings_Anthropic. cbn [mbind option_bind].
  destruct (modelTable anthropicModels !! raw) as [resolved |] eqn:Hlookup;
    [| reflexivity].
  apply modelTable_lookup in Hlookup as (c & Hin & <-).
  unfold anthropicTableAgrees in Hagree.
  rewrite forallb_forall in Hagree.
  apply list_elem_of_In, Hagree, String.eqb_eq in Hin.
  cbn in Hin. congruence.
Qed.

(** C7. Resolving for the Anthropic backend, the Claude constants (declared
    outside this file) naming their own models: (1) a shorthand listed in
    the shorthand-to-snapshot mapping, written bare or with the [anthropic/]
    prefix, resolves to the mapped dated snapshot; (2) any identifier that
    is not listed resolves to its core with every dot that precedes a
    decimal digit turned into a dash, so that no such dot is left; (3) an
    identifier without prefix, suffix and version dot passes through
    unchanged; (4) the resolver returns a string for every provider type and
    model, and it is the model itself when neither a table entry nor a
    rewriting rule matches. *)
Theorem resolveModel_Anthropic_shorthand :
  anthropicTableAgrees = true →
  (∀ shorthand snapshot raw,
     (shorthand, snapshot) ∈ snapshotCases →
     raw = shorthand ∨ raw = "anthropic/" +:+ shorthand →
     resolveModel ProviderAnthropic raw = snapshot)
  ∧ (∀ raw,
       routingCore raw ∉ snapshotCases.*1 →
       resolveModel ProviderAnthropic raw = dashVersionDots (routingCore raw)
       ∧ hasVersionDot (resolveModel ProviderAnthropic raw) = false)
  ∧ (∀ raw,
       HasPrefix raw "anthropic/" = false → IndexByte raw ":" = -1 →
       raw ∉ snapshotCases.*1 → hasVersionDot raw = false →
       resolveModel ProviderAnthropic raw = raw)
  ∧ (∀ providerType model, ∃ resolved : string,
       resolveModel providerType model = resolved
       ∧ (tableMiss providerType model → unmatched model = true →
          resolved = model)).
Proof.
  intros Hagree.
  split; [| split; [| split]].
  - intros shorthand snapshot raw Hin Hraw.
    rewrite resolveModel_Anthropic_normalizes by exact Hagree.
    destruct (routingCore_shorthand _ _ Hin) as [Hbare Hprefixed].
    destruct Hraw as [-> | ->]; eapply normalizeAnthropicModelID_case; eauto.
  - intros raw Hnot.
    rewrite resolveModel_Anthropic_normalizes by exact Hagree.
    rewrite normalizeAnthropicModelID_other by exact Hnot.
    split; [reflexivity | apply hasVersionDot_dashVersionDots].
  - intros raw Hprefix Hcolon Hnot Hdot.
    rewrite resolveModel_Anthropic_normalizes by exact Hagree.
    rewrite normalizeAnthropicModelID_other
      by (rewrite routingCore_plain; assumption).
    rewrite routingCore_plain by assumption.
    apply dashVersionDots_id. exact Hdot.
  - intros providerType model. eexists. split; [reflexivity |].
    intros Hmiss Hunmatched. unfold tableMiss in Hmiss.
    unfold resolveModel. rewrite Hmiss.
    unfold unmatched in Hunmatched.
    apply andb_prop in Hunmatched as [Hunmatched Hnormal].
    apply andb_prop in Hunmatched as [Hunmatched Hinfer].
    apply andb_prop in Hunmatched as [Hopenai Hgoogle].
    apply negb_true_iff in Hopenai, Hgoogle, Hinfer.
    apply String.eqb_eq in Hnormal.
    cbn zeta. rewrite Hopenai, Hgoogle, Hinfer, Hnormal.
    repeat match goal with |- context [if ?c then _ else _] => destruct c end;
      reflexivity.
Qed.

End AnthropicResolution.

(** With the sample constants the table path and the normalizer agree on
    every listed shorthand, in both spellings. *)
Lemma sample_shorthands_resolve :
  Forall (λ kv, @resolveModel sampleModelID ProviderAnthropic kv.1 = kv.2
                ∧ @resolveModel sampleModelID ProviderAnthropic
                    ("anthropic/" +:+ kv.1) = kv.2)
         snapshotCases.
Proof. repeat constructor. Qed.

Lemma resolveModel_Anthropic_shorthand_witness :
  @resolveModel sampleModelID ProviderAnthropic "claude-sonnet-4.5"
    = "claude-sonnet-4-5-20250929"
  ∧ @resolveModel sampleModelID ProviderAnthropic "anthropic/claude-opus-4.1"
    = "claude-opus-4-1-20250805"
  ∧ @resolveModel sampleModelID ProviderAnthropic "claude-sonnet-4.6:thinking"
    = "claude-sonnet-4-6"
  ∧ @resolveModel sampleModelID ProviderAnthropic "claude-instant" = "claude-instant"
  ∧ @resolveModel sampleModelID "ollama" "mistral/large" = "mistral/large".
Proof.
  destruct (@resolveModel_Anthropic_shorthand sampleModelID)
    as (Hlisted & Hother & Hplain & Htotal).
  { vm_compute. reflexivity. }
  split; [| split; [| split; [| split]]].
  - apply (Hlisted "claude-sonnet-4.5" "claude-sonnet-4-5-20250929").
    + apply list_elem_of_here.
    + left. reflexivity.
  - apply (Hlisted "claude-opus-4.1" "claude-opus-4-1-20250805").
    + do 3 apply list_elem_of_further. apply list_elem_of_here.
    + right. reflexivity.
  - apply (Hother "claude-sonnet-4.6:thinking").
    vm_compute. intros Hin.
    repeat (apply elem_of_cons in Hin as [Hin | Hin]; [discriminate |]).
    apply elem_of_nil in Hin. contradiction.
  - apply (Hplain "claude-instant").
    + reflexivity.
    + reflexivity.
    + vm_compute. intros Hin.
      repeat (apply elem_of_cons in Hin as [Hin | Hin]; [discriminate |]).
      apply elem_of_nil in Hin. contradiction.
    + reflexivity.
  - destruct (Htotal "ollama" "mistral/large") as (resolved & <- & Hsame).
    apply Hsame; vm_compute; reflexivity.
Defined.

(** ** Wire translator, outbound *)

Section ToolEntries.
Implicit Types (tool : gmap string wireValue) (k : string) (v : wireValue).






(** The conditional assignments never touch another key. *)
Lemma setString_other k s tool k' : k ≠ k' → setString k s tool !! k' = tool !! k'.
Proof.
  intros Hne. unfold setString. destruct (negb _); [| reflexivity].
  apply lookup_insert_ne. exact Hne.
Qed.

Lemma setInt_other k n tool k' : k ≠ k' → setInt k n tool !! k' = tool !! k'.
Proof.
  intros Hne. unfold setInt. destruct (0 <? n); [| reflexivity].
  apply lookup_insert_ne. exact Hne.
Qed.

Lemma setStrings_other k l tool k' : k ≠ k' → setStrings k l tool !! k' = tool !! k'.
Proof.
  intros Hne. unfold setStrings. destruct (0 <? length l)%nat; [| reflexivity].
  apply lookup_insert_ne. exact Hne.
Qed.

Lemma setNonNil_other {A} k (inj : A → wireValue) (x : option A) tool k' :
  k ≠ k' → setNonNil k inj x tool !! k' = tool !! k'.
Proof.
  intros Hne. unfold setNonNil. destruct x; [| reflexivity].
  apply lookup_insert_ne. exact Hne.
Qed.

End ToolEntries.


(** The discriminator entry survives every conditional assignment. *)
Ltac skip_assignments :=
  repeat first
    [ rewrite setString_other by discriminate
    | rewrite setInt_other by discriminate
    | rewrite setStrings_other by discriminate
    | rewrite setNonNil_other by discriminate ].

Lemma recognizedTags_cases (t : string) :
  t ∈ recognizedTags →
  t = "web_search" ∨ t = "file_search" ∨ t = "code_interpreter" ∨ t = "mcp"
  ∨ t = "image_generation" ∨ t = "computer_use_preview" ∨ t = "shell"
  ∨ t = "apply_patch".
Proof.
  unfold recognizedTags. intros Hin.
  repeat (apply elem_of_cons in Hin as [-> | Hin]; [tauto |]).
  apply elem_of_nil in Hin. contradiction.
Qed.

(** The discriminator is always present and holds the tag. *)
Lemma buildBuiltinTool_discriminator (bt : BuiltinTool) :
  buildBuiltinTool bt !! "type" = Some (WString (bt_Type bt)).
Proof.
  unfold buildBuiltinTool.
  repeat match goal with |- context [if ?b then _ else _] => destruct b end;
    cbn zeta; skip_assignments; apply lookup_singleton_eq.
Qed.






(** An unrecognized tag reaches the end of the [switch] with the object
    untouched. *)
Lemma buildBuiltinTool_no_case (bt : BuiltinTool) :
  bt_Type bt ∉ recognizedTags →
  buildBuiltinTool bt = {[ "type" := WString (bt_Type bt) ]}.
Proof.
  intros Hnot. unfold recognizedTags in Hnot. unfold buildBuiltinTool.
  repeat (apply not_elem_of_cons in Hnot as [Hne Hnot];
          apply String.eqb_neq in Hne; rewrite Hne; clear Hne).
  reflexivity.
Qed.

(** C2 (as amended). For every tool whose tag is none of the eight
    recognized ones the translation does not fail: it returns the wire object
    made of the discriminator entry alone, holding the tag as given. *)
Theorem buildBuiltinTool_unknown_tag_passes (bt : BuiltinTool) :
  bt_Type bt ∉ recognizedTags →
  buildBuiltinTool bt = {[ "type" := WString (bt_Type bt) ]}
  ∧ ∀ k, k ≠ "type" → buildBuiltinTool bt !! k = None.
Proof.
  intros Hnot. rewrite (buildBuiltinTool_no_case bt Hnot).
  split; [reflexivity |].
  intros k Hk. apply lookup_singleton_ne. congruence.
Qed.

Lemma unrecognized_telepathy : "telepathy" ∉ recognizedTags.
Proof.
  unfold recognizedTags. intros Hin.
  repeat (apply elem_of_cons in Hin as [[= ] | Hin]).
  apply elem_of_nil in Hin. contradiction.
Qed.

Lemma buildBuiltinTool_unknown_tag_passes_witness :
  buildBuiltinTool (zeroBuiltinTool "telepathy") !! "server_url" = None.
Proof.
  apply (buildBuiltinTool_unknown_tag_passes (zeroBuiltinTool "telepathy")).
  - exact unrecognized_telepathy.
  - discriminate.
Defined.

(** C2 (as stated) fails: for the unrecognized tag [telepathy] the
    translation returns, and what it returns is the object with no entry
    beyond the discriminator. *)
Lemma buildBuiltinTool_unknown_tag_counterexample :
  ("telepathy" ∉ recognizedTags)
  ∧ (buildBuiltinTool (zeroBuiltinTool "telepathy")
     = {[ "type" := WString "telepathy" ]})
  ∧ (map_to_list (buildBuiltinTool (zeroBuiltinTool "telepathy"))
     = [("type", WString "telepathy")]).
Proof.
  split; [exact unrecognized_telepathy |].
  split; [reflexivity | vm_compute; reflexivity].
Qed.


(** ** Wire translator, inbound *)

Lemma append_cons (c : ascii) (s t : string) :
  String c s +:+ t = String c (s +:+ t).
Proof. reflexivity. Qed.

Lemma append_empty_r (s : string) : s +:+ "" = s.
Proof.
  induction s as [| c s IH]; [reflexivity |].
  rewrite append_cons, IH. reflexivity.
Qed.

Lemma append_assoc (s t u : string) : (s +:+ t) +:+ u = s +:+ (t +:+ u).
Proof.
  induction s as [| c s IH]; [reflexivity |].
  rewrite !append_cons, IH. reflexivity.
Qed.

(** The parts of a message item add their text to the text so far. *)
Lemma walkContent_text (parts : list contentPart) (w : walk) :
  textContent (fold_left walkContent parts w) = textContent w +:+ partsText parts.
Proof.
  revert w. induction parts as [| c parts IH]; intros w; cbn [fold_left partsText].
  - rewrite append_empty_r. reflexivity.
  - rewrite IH. unfold walkContent.
    destruct (String.eqb (cp_Type c) "output_text" || String.eqb (cp_Type c) "text");
      cbn [textContent].
    + apply append_assoc.
    + reflexivity.
Qed.

Lemma walkContent_toolCalls (parts : list contentPart) (w : walk) :
  toolCalls (fold_left walkContent parts w) = toolCalls w.
Proof.
  revert w. induction parts as [| c parts IH]; intros w; cbn [fold_left]; [reflexivity |].
  rewrite IH. unfold walkContent. destruct (_ || _); reflexivity.
Qed.

Section InboundFacts.
Context `{EncodingJSON}.

(** An item whose type has no [case] leaves the three locals as they are. *)
Lemma walkItem_unknown (w : walk) (item : outputItem) :
  it_Type item ∉ knownItemTypes → walkItem w item = w.
Proof.
  unfold knownItemTypes, walkItem. intros Hnot. cbn zeta.
  repeat (apply not_elem_of_cons in Hnot as [Hne Hnot];
          apply String.eqb_neq in Hne; rewrite Hne; clear Hne).
  reflexivity.
Qed.

(** Only message items add to the text. *)
Lemma walkItem_text (w : walk) (item : outputItem) :
  textContent (walkItem w item)
  = textContent w +:+ (if String.eqb (it_Type item) "message"
                       then partsText (it_Content item) else "").
Proof.
  unfold walkItem. cbn zeta.
  destruct (String.eqb (it_Type item) "message"); [apply walkContent_text |].
  rewrite append_empty_r.
  repeat match goal with
         | |- context [if ?b then _ else _] => destruct b
         end; reflexivity.
Qed.

Lemma walkItems_text (output : list outputItem) (w : walk) :
  textContent (fold_left walkItem output w) = textContent w +:+ messagesText output.
Proof.
  revert w. induction output as [| item output IH]; intros w;
    cbn [fold_left messagesText].
  - rewrite append_empty_r. reflexivity.
  - rewrite IH, walkItem_text. apply append_assoc.
Qed.

(** The text of the walk is the text of the message items, in order. *)
Lemma walkOutput_text (output : list outputItem) :
  textContent (walkOutput output) = messagesText output.
Proof. unfold walkOutput. rewrite walkItems_text. reflexivity. Qed.

(** Dropping an item of unknown type does not change the walk. *)
Lemma walkOutput_unknown (pre post : list outputItem) (item : outputItem) :
  it_Type item ∉ knownItemTypes →
  walkOutput (pre ++ item :: post) = walkOutput (pre ++ post).
Proof.
  intros Hnot. unfold walkOutput.
  rewrite !fold_left_app. cbn [fold_left].
  rewrite walkItem_unknown by exact Hnot. reflexivity.
Qed.

(** A computer call whose action does not decode is kept, without action. *)
Lemma walkItem_computer_call (w : walk) (item : outputItem) (err : string) :
  it_Type item = "computer_call" →
  Unmarshal_ComputerAction (it_Action item) = Err err →
  ∃ tc, walkItem w item = appendCall w tc
        ∧ rtc_ID tc = it_ID item
        ∧ rtc_Action tc = None ∧ rtc_ShellAction tc = None.
Proof.
  intros Htype Hdecode. unfold walkItem. rewrite Htype, Hdecode. cbn.
  eexists. split; [reflexivity |]. cbn.
  destruct (String.length (it_Action item)); auto.
Qed.

(** A shell call whose action does not decode is kept, without action. *)
Lemma walkItem_shell_call (w : walk) (item : outputItem) (err : string) :
  it_Type item = "shell_call" →
  Unmarshal_ShellAction (it_Action item) = Err err →
  ∃ tc, walkItem w item = appendCall w tc
        ∧ rtc_ID tc = it_ID item
        ∧ rtc_Action tc = None ∧ rtc_ShellAction tc = None.
Proof.
  intros Htype Hdecode. unfold walkItem. rewrite Htype, Hdecode. cbn.
  eexists. split; [reflexivity |]. cbn.
  destruct (String.length (it_Action item)); auto.
Qed.

(** Which bodies are accepted: those that decode without an error object. *)
Lemma parseResponsesResponse_accepts (body : string) (resp : ProviderResponse) :
  parseResponsesResponse body = Ok resp ↔
  ∃ result, Unmarshal_responsesResult body = Ok result
            ∧ rr_Error result = None
            ∧ resp = respond result (walkOutput (rr_Output result)).
Proof.
  unfold parseResponsesResponse. split.
  - destruct (Unmarshal_responsesResult body) as [result | err]; [| discriminate].
    destruct (rr_Error result) eqn:Herror; [discriminate |].
    intros [= <-]. eauto.
  - intros (result & -> & -> & ->). reflexivity.
Qed.

(** C10. Whenever [parseResponsesResponse] accepts a body, the response it
    returns has a [ResponsesOutput] and its [Content] is the [Text] of that
    [ResponsesOutput]. *)
Theorem parseResponsesResponse_content_is_text (body : string)
    (resp : ProviderResponse) :
  parseResponsesResponse body = Ok resp →
  ∃ output, pr_ResponsesOutput resp = Some output
            ∧ pr_Content resp = ro_Text output.
Proof.
  intros (result & _ & _ & ->)%parseResponsesResponse_accepts.
  eexists. split; reflexivity.
Qed.

(** C9. For a body that decodes without an error object, the text returned
    is the text collected from the message items whenever that text is not
    empty, and it is the [output_text] field only when the collected text is
    empty; the same holds for the [Text] of the [ResponsesOutput]. *)
Theorem output_text_is_only_a_fallback (body : string) (result : responsesResult) :
  Unmarshal_responsesResult body = Ok result →
  rr_Error result = None →
  ∃ resp output,
    parseResponsesResponse body = Ok resp
    ∧ pr_ResponsesOutput resp = Some output
    ∧ ro_Text output = pr_Content resp
    ∧ (textContent (walkOutput (rr_Output result)) ≠ "" →
       pr_Content resp = textContent (walkOutput (rr_Output result)))
    ∧ (textContent (walkOutput (rr_Output result)) = "" →
       pr_Content resp = rr_OutputText result)
    ∧ (pr_Content resp ≠ textContent (walkOutput (rr_Output result)) →
       textContent (walkOutput (rr_Output result)) = ""
       ∧ pr_Content resp = rr_OutputText result).
Proof.
  intros Hdecode Herror.
  exists (respond result (walkOutput (rr_Output result))). eexists.
  split; [apply parseResponsesResponse_accepts; eauto |].
  split; [reflexivity |]. split; [reflexivity |].
  cbn [respond pr_Content].
  set (collected := textContent (walkOutput (rr_Output result))).
  destruct (String.eqb collected "") eqn:Hcollected.
  - apply String.eqb_eq in Hcollected.
    destruct (String.eqb (rr_OutputText result) "") eqn:Hfield; cbn [negb andb].
    + apply String.eqb_eq in Hfield.
      repeat split; intros; first [congruence | contradiction].
    + repeat split; intros; first [congruence | contradiction].
  - apply String.eqb_neq in Hcollected. cbn [andb].
    repeat split; intros; first [congruence | contradiction].
Qed.

(** C8 (as amended). A body that [json.Unmarshal] accepts into the envelope
    and that holds a top-level error object yields the error and nothing
    else: a [ProviderError] with the provider identity and the code and
    message of the error object, whatever output items, text or usage the
    envelope holds besides; no response is returned. A body that
    [json.Unmarshal] rejects yields the parse error, whatever error object it
    holds: a [ProviderError] with the provider identity, no code, and a
    message made of the decoder's complaint and the body; no response is
    returned either. This holds for the Responses decoder and for the chat
    completions decoder. *)
Theorem error_object_short_circuits :
  (∀ body result e,
     Unmarshal_responsesResult body = Ok result →
     rr_Error result = Some e →
     parseResponsesResponse body
     = Err {| pe_Provider := Name; pe_Code := eo_Code e;
              pe_Message := eo_Message e; pe_Err := None |}
     ∧ ∀ resp, parseResponsesResponse body ≠ Ok resp)
  ∧ (∀ body result e,
       Unmarshal_chatResult body = Ok result →
       chat_Error result = Some e →
       parseResponse body
       = Err {| pe_Provider := Name; pe_Code := eo_Code e;
                pe_Message := eo_Message e; pe_Err := None |}
       ∧ ∀ resp, parseResponse body ≠ Ok resp)
  ∧ (∀ body err,
       Unmarshal_responsesResult body = Err err →
       parseResponsesResponse body
       = Err {| pe_Provider := Name; pe_Code := "";
                pe_Message :=
                  "parse error: " +:+ err +:+ newline +:+ "Body: " +:+ body;
                pe_Err := None |}
       ∧ ∀ resp, parseResponsesResponse body ≠ Ok resp)
  ∧ (∀ body err,
       Unmarshal_chatResult body = Err err →
       parseResponse body
       = Err {| pe_Provider := Name; pe_Code := "";
                pe_Message :=
                  "parse error: " +:+ err +:+ newline +:+ "Body: " +:+ body;
                pe_Err := None |}
       ∧ ∀ resp, parseResponse body ≠ Ok resp).
Proof.
  split; [| split; [| split]].
  - intros body result e Hdecode Herror. unfold parseResponsesResponse.
    rewrite Hdecode, Herror. split; [reflexivity | discriminate].
  - intros body result e Hdecode Herror. unfold parseResponse.
    rewrite Hdecode, Herror. split; [reflexivity | discriminate].
  - intros body err Hdecode. unfold parseResponsesResponse. rewrite Hdecode.
    split; [reflexivity | discriminate].
  - intros body err Hdecode. unfold parseResponse. rewrite Hdecode.
    split; [reflexivity | discriminate].
Qed.

(** C4 (as amended). Once a body has decoded without an error object, no
    output item aborts the decoding: a response is returned, and its text is
    the text of the message items (the [output_text] field if they have
    none). An item of an unknown type is dropped silently: the response is
    the one for the output without it. A computer call or a shell call whose
    action payload does not decode is kept without an action, and the items
    after it are still decoded. *)
Theorem odd_item_does_not_abort (body : string) (result : responsesResult) :
  Unmarshal_responsesResult body = Ok result →
  rr_Error result = None →
  ∃ resp,
    parseResponsesResponse body = Ok resp
    ∧ pr_Content resp
      = (if String.eqb (messagesText (rr_Output result)) ""
         then rr_OutputText result else messagesText (rr_Output result))
    ∧ (∀ pre item post,
         rr_Output result = pre ++ item :: post →
         it_Type item ∉ knownItemTypes →
         resp = respond result (walkOutput (pre ++ post)))
    ∧ (∀ pre item post err,
         rr_Output result = pre ++ item :: post →
         (it_Type item = "computer_call"
          ∧ Unmarshal_ComputerAction (it_Action item) = Err err)
         ∨ (it_Type item = "shell_call"
            ∧ Unmarshal_ShellAction (it_Action item) = Err err) →
         ∃ tc,
           walkOutput (rr_Output result)
           = fold_left walkItem post (appendCall (walkOutput pre) tc)
           ∧ rtc_ID tc = it_ID item
           ∧ rtc_Action tc = None ∧ rtc_ShellAction tc = None).
Proof.
  intros Hdecode Herror.
  exists (respond result (walkOutput (rr_Output result))).
  split; [apply parseResponsesResponse_accepts; eauto |].
  split; [| split].
  - cbn [respond pr_Content]. rewrite walkOutput_text.
    destruct (String.eqb (messagesText (rr_Output result)) "") eqn:Htext;
      cbn [andb]; [| reflexivity].
    destruct (String.eqb (rr_OutputText result) "") eqn:Hfield;
      cbn [negb]; [| reflexivity].
    apply String.eqb_eq in Htext, Hfield. congruence.
  - intros pre item post -> Hunknown.
    rewrite walkOutput_unknown by exact Hunknown. reflexivity.
  - intros pre item post err -> Hcall.
    unfold walkOutput at 1. rewrite fold_left_app. cbn [fold_left].
    fold (walkOutput pre).
    destruct Hcall as [[Htype Haction] | [Htype Haction]].
    + destruct (walkItem_computer_call (walkOutput pre) item err Htype Haction)
        as (tc & -> & Hid & Hnone & Hshell).
      exists tc. auto.
    + destruct (walkItem_shell_call (walkOutput pre) item err Htype Haction)
        as (tc & -> & Hid & Hnone & Hshell).
      exists tc. auto.
Qed.

End InboundFacts.

Lemma parseResponsesResponse_content_is_text_witness :
  ∃ resp output,
    @parseResponsesResponse SampleJSON.encodingJSON bodyWithOddItems = Ok resp
    ∧ pr_ResponsesOutput resp = Some output
    ∧ pr_Content resp = ro_Text output
    ∧ pr_Content resp = "hi".
Proof.
  destruct (@parseResponsesResponse SampleJSON.encodingJSON bodyWithOddItems)
    as [resp | e] eqn:Hparse; [| vm_compute in Hparse; discriminate Hparse].
  destruct (@parseResponsesResponse_content_is_text SampleJSON.encodingJSON
              bodyWithOddItems resp Hparse) as (output & Houtput & Htext).
  exists resp, output. repeat split; try assumption.
  vm_compute in Hparse. injection Hparse as <-. reflexivity.
Defined.

Lemma output_text_is_only_a_fallback_witness :
  (∃ resp, @parseResponsesResponse SampleJSON.encodingJSON bodyWithOddItems = Ok resp
           ∧ pr_Content resp = "hi")
  ∧ (∃ resp, @parseResponsesResponse SampleJSON.encodingJSON bodyWithOutputTextOnly
             = Ok resp
             ∧ pr_Content resp = "from the field").
Proof.
  split.
  - destruct (@Unmarshal_responsesResult SampleJSON.encodingJSON bodyWithOddItems)
      as [result | err] eqn:Hdecode; [| vm_compute in Hdecode; discriminate Hdecode].
    assert (rr_Error result = None) as Herror
      by (vm_compute in Hdecode; injection Hdecode as <-; reflexivity).
    destruct (@output_text_is_only_a_fallback SampleJSON.encodingJSON
                bodyWithOddItems result Hdecode Herror)
      as (resp & output & Hparse & _ & _ & Hcollected & _).
    exists resp. split; [exact Hparse |].
    vm_compute in Hdecode. injection Hdecode as <-.
    rewrite Hcollected; [reflexivity | discriminate].
  - destruct (@Unmarshal_responsesResult SampleJSON.encodingJSON bodyWithOutputTextOnly)
      as [result | err] eqn:Hdecode; [| vm_compute in Hdecode; discriminate Hdecode].
    assert (rr_Error result = None) as Herror
      by (vm_compute in Hdecode; injection Hdecode as <-; reflexivity).
    destruct (@output_text_is_only_a_fallback SampleJSON.encodingJSON
                bodyWithOutputTextOnly result Hdecode Herror)
      as (resp & output & Hparse & _ & _ & _ & Hfallback & _).
    exists resp. split; [exact Hparse |].
    vm_compute in Hdecode. injection Hdecode as <-.
    rewrite Hfallback; reflexivity.
Defined.

Lemma error_object_short_circuits_witness :
  @parseResponsesResponse SampleJSON.encodingJSON bodyWithError
  = Err {| pe_Provider := "openai"; pe_Code := "429";
           pe_Message := "quota exceeded"; pe_Err := None |}
  ∧ @parseResponse SampleJSON.encodingJSON chatBodyWithError
    = Err {| pe_Provider := "openai"; pe_Code := "invalid_api_key";
             pe_Message := "bad key"; pe_Err := None |}
  ∧ (∀ resp, @parseResponsesResponse SampleJSON.encodingJSON
               bodyWithNumericErrorCode ≠ Ok resp)
  ∧ (∀ resp, @parseResponse SampleJSON.encodingJSON
               chatBodyWithErrorAndIllTypedUsage ≠ Ok resp).
Proof.
  destruct (@error_object_short_circuits SampleJSON.encodingJSON)
    as (Hresponses & Hchat & Hrejected & Hchatrejected).
  split; [| split; [| split]].
  - refine (proj1 (Hresponses bodyWithError _
                     {| eo_Message := "quota exceeded";
                        eo_Type := "insufficient_quota"; eo_Code := "429" |} _ _)).
    + vm_compute. reflexivity.
    + reflexivity.
  - refine (proj1 (Hchat chatBodyWithError _
                     {| eo_Message := "bad key"; eo_Type := "";
                        eo_Code := "invalid_api_key" |} _ _)).
    + vm_compute. reflexivity.
    + reflexivity.
  - refine (proj2 (Hrejected bodyWithNumericErrorCode _ _)).
    vm_compute. reflexivity.
  - refine (proj2 (Hchatrejected chatBodyWithErrorAndIllTypedUsage _ _)).
    vm_compute. reflexivity.
Defined.

Lemma odd_item_does_not_abort_witness :
  ∃ resp output,
    @parseResponsesResponse SampleJSON.encodingJSON bodyWithOddItems = Ok resp
    ∧ pr_Content resp = "hi"
    ∧ pr_ResponsesOutput resp = Some output
    ∧ rtc_ID <$> ro_ToolCalls output = ["cu_1"]
    ∧ rtc_Action <$> ro_ToolCalls output = [None].
Proof.
  destruct (@Unmarshal_responsesResult SampleJSON.encodingJSON bodyWithOddItems)
    as [result | err] eqn:Hdecode; [| vm_compute in Hdecode; discriminate Hdecode].
  assert (rr_Error result = None) as Herror
    by (vm_compute in Hdecode; injection Hdecode as <-; reflexivity).
  destruct (@odd_item_does_not_abort SampleJSON.encodingJSON
              bodyWithOddItems result Hdecode Herror)
    as (resp & Hparse & Htext & Hdropped & _).
  vm_compute in Hdecode. injection Hdecode as <-.
  exists resp. eexists. split; [exact Hparse |].
  split; [rewrite Htext; reflexivity |].
  rewrite (Hdropped [] _ _ eq_refl).
  - split; [reflexivity |]. split; vm_compute; reflexivity.
  - cbn. unfold knownItemTypes. intros Hin.
    repeat (apply elem_of_cons in Hin as [[= ] | Hin]).
    apply elem_of_nil in Hin. contradiction.
Defined.

(** C4 (as stated) fails: [bodyWithIllTypedCall] is a JSON text with one
    well-formed message item and one malformed tool-call item, and it is
    rejected as a whole with a parse error instead of yielding the text of
    the message; without the malformed item the same body yields [hi]. *)
Lemma malformed_item_aborts_counterexample :
  SampleJSON.scan bodyWithIllTypedCall
  = Some (SampleJSON.JObject
            [("output",
              SampleJSON.JArray
                [SampleJSON.JObject
                   [("type", SampleJSON.JString "message");
                    ("content",
                     SampleJSON.JArray
                       [SampleJSON.JObject
                          [("type", SampleJSON.JString "output_text");
                           ("text", SampleJSON.JString "hi")]])];
                 SampleJSON.JObject
                   [("type", SampleJSON.JString "web_search_call");
                    ("id", SampleJSON.JInt 42)]])])
  ∧ (∃ e, @parseResponsesResponse SampleJSON.encodingJSON bodyWithIllTypedCall
          = Err e
          ∧ pe_Provider e = "openai" ∧ pe_Code e = ""
          ∧ HasPrefix (pe_Message e) "parse error: " = true)
  ∧ (∀ resp, @parseResponsesResponse SampleJSON.encodingJSON bodyWithIllTypedCall
             ≠ Ok resp)
  ∧ (∃ resp, @parseResponsesResponse SampleJSON.encodingJSON bodyWithMessageOnly
             = Ok resp
             ∧ pr_Content resp = "hi").
Proof.
  split; [vm_compute; reflexivity |].
  split; [| split].
  - eexists. split; [vm_compute; reflexivity |].
    repeat split; reflexivity.
  - intros resp Hparse. vm_compute in Hparse. discriminate Hparse.
  - eexists. split; [vm_compute; reflexivity | reflexivity].
Qed.

(** C8 (as stated) fails: each of the three bodies is a JSON text with a
    top-level error object that has the message [quota exceeded] and the code
    429, and each is answered with a parse error that has no code and not
    the backend's message. In the first a tool-call item beside the error
    object has a member of the wrong type, in the second the code of the
    error object is a number, the third is a chat completion body with an
    ill-typed usage count. *)
Lemma error_object_lost_counterexample :
  (∃ rest, SampleJSON.scan bodyWithErrorAndIllTypedCall
           = Some (SampleJSON.JObject (("error", quotaError) :: rest)))
  ∧ (∃ e, @parseResponsesResponse SampleJSON.encodingJSON
            bodyWithErrorAndIllTypedCall = Err e
          ∧ pe_Provider e = "openai" ∧ pe_Code e = "" ∧ pe_Code e ≠ "429"
          ∧ pe_Message e ≠ "quota exceeded"
          ∧ HasPrefix (pe_Message e) "parse error: " = true)
  ∧ SampleJSON.scan bodyWithNumericErrorCode
    = Some (SampleJSON.JObject
              [("error",
                SampleJSON.JObject
                  [ ("message", SampleJSON.JString "quota exceeded");
                    ("type", SampleJSON.JString "insufficient_quota");
                    ("code", SampleJSON.JInt 429) ])])
  ∧ (∃ e, @parseResponsesResponse SampleJSON.encodingJSON
            bodyWithNumericErrorCode = Err e
          ∧ pe_Provider e = "openai" ∧ pe_Code e = ""
          ∧ pe_Message e ≠ "quota exceeded"
          ∧ HasPrefix (pe_Message e) "parse error: " = true)
  ∧ (∃ rest, SampleJSON.scan chatBodyWithErrorAndIllTypedUsage
             = Some (SampleJSON.JObject (("error", quotaError) :: rest)))
  ∧ (∃ e, @parseResponse SampleJSON.encodingJSON
            chatBodyWithErrorAndIllTypedUsage = Err e
          ∧ pe_Provider e = "openai" ∧ pe_Code e = "" ∧ pe_Code e ≠ "429"
          ∧ pe_Message e ≠ "quota exceeded"
          ∧ HasPrefix (pe_Message e) "parse error: " = true).
Proof.
  split; [eexists; vm_compute; reflexivity |].
  split; [eexists; split; [vm_compute; reflexivity |];
          repeat split; first [reflexivity | discriminate] |].
  split; [vm_compute; reflexivity |].
  split; [eexists; split; [vm_compute; reflexivity |];
          repeat split; first [reflexivity | discriminate] |].
  split; [eexists; vm_compute; reflexivity |].
  eexists; split; [vm_compute; reflexivity |];
    repeat split; first [reflexivity | discriminate].
Qed.

(** ** Orchestrator *)

Section OrchestratorFacts.
Context `{Collaborators}.

Lemma bind_run {A B} (m : M A) (k : A → M B) (w : World) :
  (m ≫= k) w = k (m w).1 (m w).2.
Proof. unfold mbind, M_bind. destruct (m w). reflexivity. Qed.

Lemma ret_run {A} (a : A) (w : World) : (mret a : M A) w = (a, w).
Proof. reflexivity. Qed.

Lemma sentModels_app (l1 l2 : list event) :
  sentModels (l1 ++ l2) = sentModels l1 ++ sentModels l2.
Proof. apply omap_app. Qed.

Lemma quiet_ret {A} (a : A) : quiet (mret a : M A).
Proof. intros w. reflexivity. Qed.

Lemma quiet_bind {A B} (m : M A) (k : A → M B) :
  quiet m → (∀ a, quiet (k a)) → quiet (m ≫= k).
Proof. intros Hm Hk w. rewrite bind_run, Hk, Hm. reflexivity. Qed.

Lemma quiet_emit (e : event) : sentModels [e] = [] → quiet (emit e).
Proof.
  intros He w. unfold emit. cbn [snd trace].
  rewrite sentModels_app, He. apply app_nil_r.
Qed.

Lemma quiet_onEnv {A} (f : Env → A * Env) : quiet (onEnv f).
Proof. intros w. unfold onEnv. destruct (f (env w)). reflexivity. Qed.

Lemma quiet_getDebug : quiet getDebug.
Proof. intros w. reflexivity. Qed.

Lemma quiet_if {A} (c : bool) (m1 m2 : M A) :
  quiet m1 → quiet m2 → quiet (if c then m1 else m2).
Proof. destruct c; auto. Qed.

Lemma quiet_checkCapability (client : Client) (feature : string) (supported : bool) :
  quiet (checkCapability client feature supported).
Proof.
  unfold checkCapability. apply quiet_bind; [apply quiet_getDebug |].
  intros debug. apply quiet_if; [apply quiet_emit; reflexivity | apply quiet_ret].
Qed.

Lemma quiet_checkBuiltinTool (client : Client) (bt : BuiltinTool) :
  quiet (checkBuiltinTool client bt).
Proof.
  unfold checkBuiltinTool. cbn zeta.
  repeat (apply quiet_if; [apply quiet_checkCapability |]).
  apply quiet_ret.
Qed.

Lemma quiet_checkBuiltinTools (client : Client) (bts : list BuiltinTool) :
  quiet (checkBuiltinTools client bts).
Proof.
  induction bts as [| bt bts IH]; cbn [checkBuiltinTools]; [apply quiet_ret |].
  apply quiet_bind; [apply quiet_checkBuiltinTool | intros _; exact IH].
Qed.

Lemma quiet_announce (b : Builder) (client : Client) (model : Model) :
  quiet (announce b client model).
Proof.
  unfold announce.
  apply quiet_bind;
    [apply quiet_if; [apply quiet_checkCapability | apply quiet_ret] | intros _].
  apply quiet_bind;
    [apply quiet_if; [apply quiet_checkCapability | apply quiet_ret] | intros _].
  apply quiet_bind; [apply quiet_checkBuiltinTools | intros _].
  apply quiet_bind; [apply quiet_getDebug | intros debug].
  apply quiet_if; [apply quiet_emit; reflexivity | apply quiet_ret].
Qed.

Lemma quiet_waitForRateLimit : quiet waitForRateLimit.
Proof.
  unfold waitForRateLimit.
  apply quiet_bind; [apply quiet_emit; reflexivity | intros _; apply quiet_onEnv].
Qed.

Lemma quiet_timeSleep (d : Z) : quiet (timeSleep d).
Proof.
  unfold timeSleep.
  apply quiet_bind; [apply quiet_emit; reflexivity | intros _; apply quiet_onEnv].
Qed.

Lemma quiet_enter (b : Builder) : quiet (enter b).
Proof.
  unfold enter.
  apply quiet_bind; [intros w; reflexivity | intros start].
  apply quiet_bind; [apply quiet_getDebug | intros oldDebug].
  apply quiet_bind;
    [apply quiet_if; [intros w; reflexivity | apply quiet_ret] | intros _].
  apply quiet_bind; [intros w; reflexivity | intros client].
  apply quiet_ret.
Qed.

(** The statements before the loop save [Debug] and touch neither the
    trace nor the outside. *)
Lemma enter_run (b : Builder) (w : World) :
  (enter b w).1.1.2 = Debug w
  ∧ trace (enter b w).2 = trace w
  ∧ env (enter b w).2 = env w.
Proof.
  unfold enter, mbind, M_bind, now, getDebug, chooseClient, setDebug, mret, M_ret.
  destruct (b_debug b); cbn; auto.
Qed.

Lemma Send_fails (client : Client) (ctx : GoContext) (req : ProviderRequest)
    (w : World) :
  alwaysFails →
  ∃ err w', Send client ctx req w = (Err err, w')
            ∧ sentModels (trace w') = sentModels (trace w) ++ [req_Model req]
            ∧ failureOf (req_Model req) err.
Proof.
  intros Hfails. unfold Send, mbind, M_bind, emit, onEnv.
  cbn [env trace Debug Pretty].
  destruct (Hfails client ctx req (env w)) as (err & e' & Hsend). rewrite Hsend.
  eexists _, _. split; [reflexivity |]. cbn [trace].
  split; [rewrite sentModels_app; reflexivity |].
  unfold failureOf. eauto 10.
Qed.

(** One gated attempt against a provider that always fails. *)
Lemma gated_Send_fails (client : Client) (ctx : GoContext) (req : ProviderRequest)
    (w : World) :
  alwaysFails →
  ∃ err w', (waitForRateLimit ≫= λ _, Send client ctx req) w = (Err err, w')
            ∧ sentModels (trace w') = sentModels (trace w) ++ [req_Model req]
            ∧ failureOf (req_Model req) err.
Proof.
  intros Hfails. rewrite bind_run.
  destruct (Send_fails client ctx req (waitForRateLimit w).2 Hfails)
    as (err & w' & Hsend & Htrace & Hfailure).
  exists err, w'. rewrite quiet_waitForRateLimit in Htrace. auto.
Qed.

(** The back-off before iteration [attempt] of the legacy loop. *)
Lemma backoff_run (attempt totalRetries : Z) (w : World) :
  let pause : M Z :=
    if 0 <? attempt
    then _ ← timeSleep (backoff attempt); mret (totalRetries + 1)
    else mret totalRetries in
  (pause w).1 = totalRetries + (if 0 <? attempt then 1 else 0)
  ∧ sentModels (trace (pause w).2) = sentModels (trace w).
Proof.
  cbn zeta. destruct (0 <? attempt).
  - rewrite bind_run. cbn [fst snd]. split; [reflexivity |].
    apply quiet_timeSleep.
  - split; [cbn; lia | reflexivity].
Qed.

(** Against a provider that always fails the legacy loop makes every one of
    its attempts and ends with the error of the last one. *)
Lemma legacyRetry_fails (client : Client) (ctx : GoContext) (req : ProviderRequest) :
  alwaysFails →
  ∀ (more : nat) (attempt totalRetries : Z) (w : World),
    0 ≤ attempt →
    ∃ err w',
      legacyRetry client ctx req more attempt totalRetries w
      = ((Err err, totalRetries + Z.of_nat more + (if 0 <? attempt then 1 else 0)), w')
      ∧ sentModels (trace w')
        = sentModels (trace w) ++ replicate (S more) (req_Model req)
      ∧ failureOf (req_Model req) err.
Proof.
  intros Hfails more.
  induction more as [| more IH]; intros attempt totalRetries w Hattempt;
    cbn [legacyRetry]; rewrite bind_run;
    destruct (backoff_run attempt totalRetries w) as [Hretries Hquiet];
    cbn zeta in Hretries, Hquiet; rewrite Hretries; clear Hretries;
    match goal with
    | |- context [(?m w).2] => set (w1 := (m w).2) in *
    end;
    rewrite bind_run, bind_run;
    destruct (Send_fails client ctx req (waitForRateLimit w1).2 Hfails)
      as (err & w' & Hsend & Htrace & Hfailure);
    rewrite quiet_waitForRateLimit, Hquiet in Htrace;
    rewrite Hsend; cbn [fst snd].
  - exists err, w'. rewrite ret_run.
    replace (totalRetries + Z.of_nat 0 + (if 0 <? attempt then 1 else 0))
      with (totalRetries + (if 0 <? attempt then 1 else 0)) by lia.
    split; [reflexivity |].
    split; [exact Htrace | exact Hfailure].
  - destruct (IH (attempt + 1) (totalRetries + (if 0 <? attempt then 1 else 0)) w')
      as (err' & w'' & Hrest & Htrace' & Hfailure'); [lia |].
    exists err', w''. rewrite Hrest.
    replace (0 <? attempt + 1) with true by (symmetry; apply Z.ltb_lt; lia).
    replace (totalRetries + (if 0 <? attempt then 1 else 0) + Z.of_nat more + 1)
      with (totalRetries + Z.of_nat (S more) + (if 0 <? attempt then 1 else 0))
      by lia.
    split; [reflexivity |].
    split; [| exact Hfailure'].
    rewrite Htrace', Htrace, <- app_assoc. reflexivity.
Qed.

(** The legacy discipline gives every model [b.maxRetries + 1] attempts. *)
Lemma attempt_legacy_fails (b : Builder) (client : Client) (ctx : GoContext)
    (req : ProviderRequest) (totalRetries : Z) (w : World) :
  alwaysFails →
  b_retryConfig b = None → 0 < b_maxRetries b →
  ∃ err w',
    attempt b client ctx req totalRetries w
    = ((Err err, totalRetries + b_maxRetries b), w')
    ∧ sentModels (trace w')
      = sentModels (trace w)
        ++ replicate (Z.to_nat (b_maxRetries b + 1)) (req_Model req)
    ∧ failureOf (req_Model req) err.
Proof.
  intros Hfails Hconfig Hretries. unfold attempt. rewrite Hconfig.
  replace (0 <? b_maxRetries b) with true by (symmetry; apply Z.ltb_lt; lia).
  destruct (legacyRetry_fails client ctx req Hfails
              (Z.to_nat (b_maxRetries b)) 0 totalRetries w)
    as (err & w' & Hrun & Htrace & Hfailure); [lia |].
  exists err, w'. rewrite Hrun.
  replace (totalRetries + Z.of_nat (Z.to_nat (b_maxRetries b)) + (if 0 <? 0 then 1 else 0))
    with (totalRetries + b_maxRetries b) by (cbn; lia).
  split; [reflexivity |].
  split; [| exact Hfailure].
  rewrite Htrace. f_equal. f_equal. lia.
Qed.

Lemma tryModel_legacy_fails (b : Builder) (msgs : list Message) (start : Z)
    (client : Client) (ctx : GoContext) (model : Model) (totalRetries : Z)
    (w : World) :
  alwaysFails →
  b_retryConfig b = None → 0 < b_maxRetries b →
  ∃ err w',
    tryModel b msgs start client ctx model totalRetries w
    = (inr (err, totalRetries + b_maxRetries b), w')
    ∧ sentModels (trace w')
      = sentModels (trace w) ++ replicate (Z.to_nat (b_maxRetries b + 1)) model
    ∧ failureOf model err.
Proof.
  intros Hfails Hconfig Hretries. unfold tryModel. rewrite bind_run, bind_run.
  destruct (attempt_legacy_fails b client ctx (requestFor b msgs model)
              totalRetries (announce b client model w).2 Hfails Hconfig Hretries)
    as (err & w' & Hrun & Htrace & Hfailure).
  rewrite Hrun. cbn [fst snd conclude]. rewrite ret_run.
  rewrite quiet_announce in Htrace. eauto.
Qed.

(** Against a provider that always fails the loop goes through the whole
    chain, in order, and leaves the error of the last attempt in [lastErr]. *)
Lemma tryModels_legacy_fail (b : Builder) (msgs : list Message) (start : Z)
    (client : Client) (ctx : GoContext) :
  alwaysFails →
  b_retryConfig b = None → 0 < b_maxRetries b →
  ∀ (models : list Model) (lastErr : option error) (totalRetries : Z) (w : World),
  ∃ lastErr' w',
    tryModels b msgs start client ctx models lastErr totalRetries w
    = (inr (lastErr', totalRetries + Z.of_nat (length models) * b_maxRetries b), w')
    ∧ sentModels (trace w')
      = sentModels (trace w)
        ++ (models ≫= replicate (Z.to_nat (b_maxRetries b + 1)))
    ∧ match last models with
      | Some model => ∃ err, lastErr' = Some err ∧ failureOf model err
      | None => lastErr' = lastErr
      end.
Proof.
  intros Hfails Hconfig Hretries models.
  induction models as [| model models IH]; intros lastErr totalRetries w;
    cbn [tryModels].
  - exists lastErr, w. rewrite ret_run.
    replace (totalRetries + Z.of_nat (length []) * b_maxRetries b)
      with totalRetries by (cbn; lia).
    split; [reflexivity |].
    split; [cbn; rewrite app_nil_r; reflexivity | reflexivity].
  - rewrite bind_run.
    destruct (tryModel_legacy_fails b msgs start client ctx model totalRetries w
                Hfails Hconfig Hretries) as (err & w1 & Hrun & Htrace & Hfailure).
    rewrite Hrun. cbn [fst snd].
    destruct (IH (Some err) (totalRetries + b_maxRetries b) w1)
      as (lastErr' & w' & Hrest & Htrace' & Hlast).
    exists lastErr', w'. rewrite Hrest.
    replace (totalRetries + Z.of_nat (length (model :: models)) * b_maxRetries b)
      with (totalRetries + b_maxRetries b
            + Z.of_nat (length models) * b_maxRetries b)
      by (cbn [length]; lia).
    split; [reflexivity |].
    split.
    + rewrite Htrace', Htrace, <- app_assoc. reflexivity.
    + rewrite last_cons. destruct (last models) as [model' |].
      * exact Hlast.
      * subst lastErr'. eauto.
Qed.

(** The general form of C3: with the legacy policy and a provider that fails
    every request, [SendWithMeta] makes [maxRetries + 1] attempts for each
    model of the chain, in chain order, and returns the error of the last
    attempt under the primary model. *)
Lemma SendWithMeta_legacy_exhausted (b : Builder) (w : World) :
  alwaysFails →
  b_retryConfig b = None → 0 < b_maxRetries b →
  ∃ meta w' err,
    SendWithMeta b w = (meta, w')
    ∧ sentModels (trace w')
      = sentModels (trace w)
        ++ ((b_model b :: b_fallbacks b)
              ≫= replicate (Z.to_nat (b_maxRetries b + 1)))
    ∧ rm_Error meta = Some err
    ∧ failureOf (default (b_model b) (last (b_fallbacks b))) err
    ∧ rm_Model meta = b_model b
    ∧ rm_Retries meta = Z.of_nat (S (length (b_fallbacks b))) * b_maxRetries b
    ∧ Debug w' = Debug w.
Proof.
  intros Hfails Hconfig Hretries. unfold SendWithMeta. cbn zeta.
  rewrite bind_run.
  pose proof (quiet_enter b w) as Henter.
  assert ((enter b w).1.1.2 = Debug w) as Hold by apply enter_run.
  destruct (enter b w) as [[[start oldDebug] client] w0].
  cbn [fst snd] in *. subst oldDebug.
  rewrite bind_run.
  destruct (tryModels_legacy_fail b (buildMessages b) start client (getContext b)
              Hfails Hconfig Hretries (b_model b :: b_fallbacks b) None 0 w0)
    as (lastErr & w1 & Hrun & Htrace & Hlast).
  rewrite Hrun. cbn [fst snd]. rewrite Henter in Htrace.
  assert (∃ err, lastErr = Some err
                 ∧ failureOf (default (b_model b) (last (b_fallbacks b))) err)
    as (err & -> & Hfailure).
  { rewrite last_cons in Hlast. destruct (last (b_fallbacks b)); exact Hlast. }
  eexists _, _, err. split; [reflexivity |].
  cbn. repeat split; first [assumption | reflexivity | lia].
Qed.

(** C3. With a chain of three models, the legacy policy with two attempts
    per model ([maxRetries = 1]) and a provider that fails every request,
    [SendWithMeta] makes exactly six provider attempts, two per model in
    chain order, and then returns; the error it returns is the one of the
    last attempt (made for the last model), and the metadata names the
    primary model. *)
Theorem SendWithMeta_three_models_two_attempts (b : Builder) (m1 m2 : Model)
    (w : World) :
  alwaysFails →
  b_retryConfig b = None → b_maxRetries b = 1 → b_fallbacks b = [m1; m2] →
  ∃ meta w' err,
    SendWithMeta b w = (meta, w')
    ∧ sentModels (trace w')
      = sentModels (trace w) ++ [b_model b; b_model b; m1; m1; m2; m2]
    ∧ rm_Error meta = Some err
    ∧ failureOf m2 err
    ∧ rm_Model meta = b_model b.
Proof.
  intros Hfails Hconfig Hretries Hchain.
  destruct (SendWithMeta_legacy_exhausted b w Hfails Hconfig)
    as (meta & w' & err & Hrun & Htrace & Herror & Hfailure & Hmodel & _);
    [lia |].
  rewrite Hchain, Hretries in Htrace. rewrite Hchain in Hfailure.
  exists meta, w', err. auto.
Qed.

(** The loop over a chain [pre ++ rest] is the loop over [pre] followed,
    unless it returned, by the loop over [rest]. *)
Lemma tryModels_app (b : Builder) (msgs : list Message) (start : Z)
    (client : Client) (ctx : GoContext) (pre rest : list Model) :
  ∀ (lastErr : option error) (totalRetries : Z) (w : World),
    tryModels b msgs start client ctx (pre ++ rest) lastErr totalRetries w
    = match tryModels b msgs start client ctx pre lastErr totalRetries w with
      | (inl meta, w1) => (inl meta, w1)
      | (inr (lastErr', totalRetries'), w1) =>
          tryModels b msgs start client ctx rest lastErr' totalRetries' w1
      end.
Proof.
  induction pre as [| model pre IH]; intros lastErr totalRetries w;
    cbn [app tryModels]; [reflexivity |].
  rewrite !bind_run.
  destruct (tryModel b msgs start client ctx model totalRetries w)
    as [[meta | [err totalRetries']] w1]; cbn [fst snd]; [reflexivity |].
  apply IH.
Qed.

(** C6. When the attempts for a model of the chain end with a response and
    a configured validator rejects its content, [SendWithMeta] returns that
    validation error under that model, and nothing happens after the
    successful attempt: the trace and the outside are left as that attempt
    left them, so no provider attempt is made for a later model. *)
Theorem validation_rejection_is_terminal (b : Builder) (w : World)
    (pre : list Model) (model : Model) (post : list Model)
    (totalRetries : Z) (w1 : World)
    (resp : ProviderResponse) (totalRetries' : Z) (w2 : World)
    (validationErr : error) :
  b_model b :: b_fallbacks b = pre ++ model :: post →
  exhausted b w pre totalRetries w1 →
  answered b w model totalRetries w1 resp totalRetries' w2 →
  (0 < length (b_validators b))%nat →
  runValidators b (pr_Content resp) = Err validationErr →
  ∃ meta w',
    SendWithMeta b w = (meta, w')
    ∧ rm_Error meta = Some validationErr
    ∧ rm_Model meta = model
    ∧ rm_Retries meta = totalRetries'
    ∧ trace w' = trace w2
    ∧ env w' = env w2.
Proof.
  intros Hchain [lastErr Hpre] Hanswer Hvalidators Hreject.
  unfold answered in Hanswer.
  unfold SendWithMeta. cbn zeta. rewrite bind_run.
  destruct (enter b w) as [[[start oldDebug] client] w0]. cbn [fst snd] in *.
  set (meta :=
         {| rm_Content := ""; rm_Error := Some validationErr; rm_Model := model;
            rm_Tokens := 0; rm_PromptTokens := 0; rm_CompletionTokens := 0;
            rm_Latency := timeNow (env w2) - start; rm_Retries := totalRetries';
            rm_ResponsesOutput := None |}).
  assert (tryModel b (buildMessages b) start client (getContext b) model
            totalRetries w1 = (inl meta, w2)) as Hmodel.
  { unfold tryModel. rewrite bind_run, bind_run, Hanswer. cbn [fst snd].
    unfold conclude. apply Nat.ltb_lt in Hvalidators.
    rewrite Hvalidators, Hreject. reflexivity. }
  assert (tryModels b (buildMessages b) start client (getContext b)
            (b_model b :: b_fallbacks b) None 0 w0 = (inl meta, w2)) as Hloop.
  { rewrite Hchain, tryModels_app, Hpre. cbn [tryModels].
    rewrite bind_run, Hmodel. reflexivity. }
  rewrite bind_run, Hloop. cbn [fst snd].
  eexists _, _. split; [reflexivity |].
  cbn. auto.
Qed.

End OrchestratorFacts.

Lemma SendWithMeta_three_models_two_attempts_witness :
  ∃ meta w',
    @SendWithMeta SampleWorld.opaque
      (SampleWorld.collaborators SampleWorld.unreachable)
      (SampleWorld.builder "gpt" ["claude"; "gemini"] 1 []) SampleWorld.world0
    = (meta, w')
    ∧ sentModels (trace w') = ["gpt"; "gpt"; "claude"; "claude"; "gemini"; "gemini"]
    ∧ rm_Model meta = "gpt".
Proof.
  destruct (@SendWithMeta_three_models_two_attempts SampleWorld.opaque
              (SampleWorld.collaborators SampleWorld.unreachable)
              (SampleWorld.builder "gpt" ["claude"; "gemini"] 1 [])
              "claude" "gemini" SampleWorld.world0)
    as (meta & w' & err & Hrun & Htrace & _ & _ & Hmodel).
  - intros client ctx req e. eexists _, _. reflexivity.
  - reflexivity.
  - reflexivity.
  - reflexivity.
  - exists meta, w'. auto.
Defined.

Lemma validation_rejection_is_terminal_witness :
  ∃ meta w',
    @SendWithMeta SampleWorld.opaque
      (SampleWorld.collaborators (SampleWorld.downFor "gpt" "draft"))
      (SampleWorld.builder "gpt" ["claude"; "gemini"] 1 [SampleWorld.rejectAll])
      SampleWorld.world0
    = (meta, w')
    ∧ rm_Error meta = Some (ErrOther "validation failed")
    ∧ rm_Model meta = "claude"
    ∧ sentModels (trace w') = ["gpt"; "gpt"; "claude"].
Proof.
  edestruct (@validation_rejection_is_terminal SampleWorld.opaque
               (SampleWorld.collaborators (SampleWorld.downFor "gpt" "draft"))
               (SampleWorld.builder "gpt" ["claude"; "gemini"] 1
                  [SampleWorld.rejectAll])
               SampleWorld.world0 ["gpt"] "claude" ["gemini"])
    as (meta & w' & Hrun & Herror & Hmodel & _ & Htrace & _).
  - reflexivity.
  - eexists. vm_compute. reflexivity.
  - vm_compute. reflexivity.
  - cbn. lia.
  - reflexivity.
  - exists meta, w'. rewrite Htrace. auto.
Defined.

(* ===================================================================== *)
(** * Part III: further properties of the code                            *)
(* ===================================================================== *)

(** ** Model resolver: the branches after a table miss *)

Lemma IndexByte_lower (s : string) (c : ascii) : -1 ≤ IndexByte s c.
Proof.
  induction s as [| a s IH]; cbn [IndexByte]; [lia |].
  destruct (Ascii.eqb a c); [lia |].
  destruct (Z.ltb_spec (IndexByte s c) 0); lia.
Qed.

Lemma IndexByte_absent_cons (a c : ascii) (s : string) :
  IndexByte (String a s) c = -1 ↔ Ascii.eqb a c = false ∧ IndexByte s c = -1.
Proof.
  cbn [IndexByte]. pose proof (IndexByte_lower s c).
  destruct (Ascii.eqb a c).
  - split; [lia | intros [? _]; discriminate].
  - destruct (Z.ltb_spec (IndexByte s c) 0); split.
    + intros _. split; [reflexivity | lia].
    + reflexivity.
    + lia.
    + intros [_ ?]. lia.
Qed.

(** In a string without [c], the first [c] of [s ++ c :: rest] is at
    [len(s)]. *)
Lemma IndexByte_app (s rest : string) (c : ascii) :
  IndexByte s c = -1 →
  IndexByte (s +:+ String c rest) c = Z.of_nat (String.length s).
Proof.
  induction s as [| a s IH]; intros Habsent.
  - change ("" +:+ String c rest) with (String c rest).
    cbn [IndexByte]. rewrite Ascii.eqb_refl. reflexivity.
  - apply IndexByte_absent_cons in Habsent as [Hne Habsent].
    rewrite append_cons. cbn [IndexByte String.length]. rewrite Hne, IH by exact Habsent.
    destruct (Z.ltb_spec (Z.of_nat (String.length s)) 0); lia.
Qed.

Lemma IndexByte_sliceFrom (n : nat) (s : string) (c : ascii) :
  IndexByte s c = -1 → IndexByte (sliceFrom n s) c = -1.
Proof.
  revert s. induction n as [| n IH]; intros s Habsent; [exact Habsent |].
  destruct s as [| a s]; [reflexivity |].
  apply IndexByte_absent_cons in Habsent as [_ Habsent]. cbn [sliceFrom]. auto.
Qed.

Lemma sliceTo_app (s rest : string) : sliceTo (String.length s) (s +:+ rest) = s.
Proof.
  induction s as [| a s IH]; [destruct rest; reflexivity |].
  rewrite append_cons. cbn [String.length sliceTo]. rewrite IH. reflexivity.
Qed.

Lemma sliceFrom_app (p s : string) : sliceFrom (String.length p) (p +:+ s) = s.
Proof.
  induction p as [| a p IH]; [reflexivity |].
  rewrite append_cons. cbn [String.length sliceFrom]. exact IH.
Qed.

Lemma HasPrefix_app (p s : string) : HasPrefix (p +:+ s) p = true.
Proof.
  induction p as [| a p IH]; [apply HasPrefix_nil |].
  rewrite append_cons, HasPrefix_cons, Ascii.eqb_refl, IH. reflexivity.
Qed.

(** What follows the first [c] of a string cannot change whether the string
    starts with a prefix that has no [c]. *)
Lemma HasPrefix_before (s rest p : string) (c : ascii) :
  IndexByte p c = -1 →
  HasPrefix (s +:+ String c rest) p = HasPrefix s p.
Proof.
  revert s. induction p as [| a p IH]; intros s Habsent.
  - rewrite !HasPrefix_nil. reflexivity.
  - apply IndexByte_absent_cons in Habsent as [Hne Habsent].
    destruct s as [| b s].
    + change ("" +:+ String c rest) with (String c rest).
      rewrite HasPrefix_cons, Hne. reflexivity.
    + rewrite append_cons, !HasPrefix_cons, IH by exact Habsent. reflexivity.
Qed.

Lemma sliceFrom_prefixed (s rest p : string) :
  HasPrefix s p = true →
  sliceFrom (String.length p) (s +:+ rest) = sliceFrom (String.length p) s +:+ rest.
Proof.
  revert s. induction p as [| a p IH]; intros s Hprefix; [reflexivity |].
  destruct s as [| b s]; [discriminate |].
  rewrite HasPrefix_cons in Hprefix. apply andb_true_iff in Hprefix as [_ Hprefix].
  rewrite append_cons. cbn [String.length sliceFrom]. auto.
Qed.

(** The cut at the first colon, on a string whose first colon is known. *)
Lemma colon_cut (core rest : string) :
  IndexByte core ":" = -1 →
  (if 0 <=? IndexByte (core +:+ String ":" rest) ":"
   then sliceTo (Z.to_nat (IndexByte (core +:+ String ":" rest) ":"))
          (core +:+ String ":" rest)
   else core +:+ String ":" rest) = core.
Proof.
  intros Habsent. rewrite IndexByte_app by exact Habsent.
  destruct (Z.leb_spec 0 (Z.of_nat (String.length core))); [| lia].
  rewrite Nat2Z.id. apply sliceTo_app.
Qed.

Lemma routingCore_suffix (raw rest : string) :
  IndexByte raw ":" = -1 →
  routingCore (raw +:+ String ":" rest) = routingCore raw.
Proof.
  intros Habsent. unfold routingCore, CutPrefix.
  rewrite (HasPrefix_before raw rest "anthropic/" ":") by reflexivity.
  destruct (HasPrefix raw "anthropic/") eqn:Hprefix.
  - cbn zeta. rewrite (sliceFrom_prefixed raw _ "anthropic/") by exact Hprefix.
    set (core := sliceFrom (String.length "anthropic/") raw).
    assert (IndexByte core ":" = -1) as Hcore by (apply IndexByte_sliceFrom, Habsent).
    rewrite (colon_cut core rest Hcore). rewrite Hcore. reflexivity.
  - cbn zeta. rewrite (colon_cut raw rest Habsent). rewrite Habsent. reflexivity.
Qed.

Lemma routingCore_prefix (raw : string) :
  HasPrefix raw "anthropic/" = false →
  routingCore ("anthropic/" +:+ raw) = routingCore raw.
Proof.
  intros Hprefix. unfold routingCore, CutPrefix.
  rewrite HasPrefix_app, Hprefix, (sliceFrom_app "anthropic/" raw). reflexivity.
Qed.

Lemma normalizeAnthropicModelID_core (raw raw' : string) :
  routingCore raw = routingCore raw' →
  normalizeAnthropicModelID raw = normalizeAnthropicModelID raw'.
Proof. intros Hcore. unfold normalizeAnthropicModelID. rewrite Hcore. reflexivity. Qed.

(** X4. [normalizeAnthropicModelID] ignores the routing decorations of an
    identifier: for a bare identifier (no [anthropic/] prefix, no colon) the
    result is the same with the [anthropic/] prefix in front, with any
    [:suffix] behind (whatever the suffix contains, further colons
    included), and with both. *)
Theorem normalizeAnthropicModelID_ignores_decorations (raw suffix : string) :
  HasPrefix raw "anthropic/" = false →
  IndexByte raw ":" = -1 →
  normalizeAnthropicModelID ("anthropic/" +:+ raw) = normalizeAnthropicModelID raw
  ∧ normalizeAnthropicModelID (raw +:+ ":" +:+ suffix) = normalizeAnthropicModelID raw
  ∧ normalizeAnthropicModelID ("anthropic/" +:+ raw +:+ ":" +:+ suffix)
    = normalizeAnthropicModelID raw.
Proof.
  intros Hprefix Habsent. change (":" +:+ suffix) with (String ":" suffix).
  assert (routingCore (raw +:+ String ":" suffix) = routingCore raw) as Hsuffix
    by (apply (routingCore_suffix raw suffix), Habsent).
  split; [| split]; apply normalizeAnthropicModelID_core.
  - apply routingCore_prefix, Hprefix.
  - exact Hsuffix.
  - rewrite routingCore_prefix; [exact Hsuffix |].
    rewrite (HasPrefix_before raw suffix "anthropic/" ":") by reflexivity.
    exact Hprefix.
Qed.

Lemma normalizeAnthropicModelID_ignores_decorations_witness :
  normalizeAnthropicModelID "anthropic/claude-opus-4.1"
    = normalizeAnthropicModelID "claude-opus-4.1"
  ∧ normalizeAnthropicModelID "claude-opus-4.1:thinking:beta"
    = normalizeAnthropicModelID "claude-opus-4.1"
  ∧ normalizeAnthropicModelID "anthropic/claude-opus-4.1:thinking:beta"
    = normalizeAnthropicModelID "claude-opus-4.1".
Proof.
  apply (normalizeAnthropicModelID_ignores_decorations
           "claude-opus-4.1" "thinking:beta"); reflexivity.
Defined.

Section ResolverBranches.
Context `{ModelConstants}.

(** X1. Azure resolves every model exactly as OpenAI does: [init] gives it
    the OpenAI table, and after a miss both take the same [case]. *)
Theorem resolveModel_Azure_as_OpenAI (model : Model) :
  resolveModel ProviderAzure model = resolveModel ProviderOpenAI model.
Proof.
  unfold resolveModel. rewrite modelMappings_Azure, modelMappings_OpenAI.
  reflexivity.
Qed.

(** X2. A provider type other than the five that [modelMappings] and the
    [switch] know (Ollama, or any custom string) gets the model identifier
    back unchanged, whatever it is. *)
Theorem resolveModel_unknown_provider (providerType : ProviderType) (model : Model) :
  providerType ∉ [ProviderOpenRouter; ProviderOpenAI; ProviderAnthropic;
                  ProviderGoogle; ProviderAzure] →
  resolveModel providerType model = model.
Proof.
  intros Hnot. unfold resolveModel.
  rewrite (modelMappings_other providerType Hnot). cbn [mbind option_bind].
  repeat (apply not_elem_of_cons in Hnot as [Hne Hnot];
          apply String.eqb_neq in Hne; rewrite Hne; clear Hne).
  reflexivity.
Qed.

(** X3. The OpenRouter and OpenAI branches undo each other on a bare
    OpenAI-looking identifier that neither table knows: OpenRouter puts
    [openai/] in front, OpenAI takes it off again, and the other way
    round. *)
Theorem resolveModel_openai_prefix_round_trip (raw : Model) :
  Contains raw "/" = false →
  looksLikeOpenAIModelID raw = true →
  tableMiss ProviderOpenRouter raw →
  tableMiss ProviderOpenAI ("openai/" +:+ raw) →
  resolveModel ProviderOpenRouter raw = "openai/" +:+ raw
  ∧ resolveModel ProviderOpenAI (resolveModel ProviderOpenRouter raw) = raw
  ∧ resolveModel ProviderOpenRouter (resolveModel ProviderOpenAI ("openai/" +:+ raw))
    = "openai/" +:+ raw.
Proof.
  intros Hbare Hlooks HmissRouter HmissOpenAI.
  assert (resolveModel ProviderOpenRouter raw = "openai/" +:+ raw) as Hto.
  { unfold resolveModel. rewrite HmissRouter. cbn zeta.
    rewrite Hbare, Hlooks. reflexivity. }
  assert (resolveModel ProviderOpenAI ("openai/" +:+ raw) = raw) as Hfrom.
  { unfold resolveModel. rewrite HmissOpenAI. cbn zeta.
    unfold TrimPrefix. rewrite (HasPrefix_app "openai/" raw).
    apply (sliceFrom_app "openai/" raw). }
  rewrite Hto, Hfrom. auto.
Qed.

End ResolverBranches.

Lemma resolveModel_unknown_provider_witness :
  @resolveModel sampleModelID ProviderOllama "openai/gpt-5.2" = "openai/gpt-5.2".
Proof.
  apply (@resolveModel_unknown_provider sampleModelID ProviderOllama).
  intros Hin.
  repeat (apply elem_of_cons in Hin as [Hin | Hin]; [discriminate |]).
  apply elem_of_nil in Hin. contradiction.
Defined.

Lemma resolveModel_openai_prefix_round_trip_witness :
  @resolveModel sampleModelID ProviderOpenRouter "gpt-9-preview" = "openai/gpt-9-preview"
  ∧ @resolveModel sampleModelID ProviderOpenAI
      (@resolveModel sampleModelID ProviderOpenRouter "gpt-9-preview") = "gpt-9-preview"
  ∧ @resolveModel sampleModelID ProviderOpenRouter
      (@resolveModel sampleModelID ProviderOpenAI "openai/gpt-9-preview")
    = "openai/gpt-9-preview".
Proof.
  apply (@resolveModel_openai_prefix_round_trip sampleModelID "gpt-9-preview");
    vm_compute; reflexivity.
Defined.

(** ** Wire translator, inbound: what the walk collects *)

Lemma walkContent_citations (parts : list contentPart) (w : walk) :
  citations (fold_left walkContent parts w) = citations w ++ partsCitations parts.
Proof.
  revert w. induction parts as [| c parts IH]; intros w;
    cbn [fold_left partsCitations].
  - rewrite app_nil_r. reflexivity.
  - rewrite IH. unfold walkContent, isTextPart.
    destruct (String.eqb (cp_Type c) "output_text" || String.eqb (cp_Type c) "text");
      cbn [citations].
    + rewrite app_assoc. reflexivity.
    + reflexivity.
Qed.

Section InboundWalk.
Context `{EncodingJSON}.

(** Only message items add citations. *)
Lemma walkItem_citations (w : walk) (item : outputItem) :
  citations (walkItem w item)
  = citations w ++ (if String.eqb (it_Type item) "message"
                    then partsCitations (it_Content item) else []).
Proof.
  unfold walkItem. cbn zeta.
  destruct (String.eqb (it_Type item) "message"); [apply walkContent_citations |].
  rewrite app_nil_r.
  repeat match goal with
         | |- context [if ?b then _ else _] => destruct b
         end; reflexivity.
Qed.

Lemma walkItems_citations (output : list outputItem) (w : walk) :
  citations (fold_left walkItem output w) = citations w ++ messagesCitations output.
Proof.
  revert w. induction output as [| item output IH]; intros w;
    cbn [fold_left messagesCitations].
  - rewrite app_nil_r. reflexivity.
  - rewrite IH, walkItem_citations, app_assoc. reflexivity.
Qed.

(** Every call item adds one tool call, which has the item's identity; no
    other item adds any. *)
Lemma walkItem_calls (w : walk) (item : outputItem) :
  callIdentity <$> toolCalls (walkItem w item)
  = (callIdentity <$> toolCalls w)
    ++ (if isCallItem item then [itemIdentity item] else []).
Proof.
  unfold walkItem, isCallItem. cbn zeta.
  destruct (String.eqb (it_Type item) "message") eqn:Hmessage.
  - apply String.eqb_eq in Hmessage. rewrite Hmessage. cbn [String.eqb orb].
    rewrite walkContent_toolCalls, app_nil_r. reflexivity.
  - clear Hmessage.
    destruct (String.eqb (it_Type item) "web_search_call"
              || String.eqb (it_Type item) "file_search_call"
              || String.eqb (it_Type item) "mcp_call"
              || String.eqb (it_Type item) "code_interpreter_call");
      cbn [orb]; [unfold appendCall; cbn [toolCalls]; rewrite fmap_app; reflexivity |].
    repeat match goal with
           | |- context [if String.eqb ?a ?b then _ else _] =>
               destruct (String.eqb a b); cbn [orb];
               [unfold appendCall; cbn [toolCalls]; rewrite fmap_app; reflexivity |]
           end.
    rewrite app_nil_r. reflexivity.
Qed.

Lemma walkItems_calls (output : list outputItem) (w : walk) :
  callIdentity <$> toolCalls (fold_left walkItem output w)
  = (callIdentity <$> toolCalls w)
    ++ (itemIdentity <$> List.filter isCallItem output).
Proof.
  revert w. induction output as [| item output IH]; intros w;
    cbn [fold_left List.filter].
  - rewrite app_nil_r. reflexivity.
  - rewrite IH, walkItem_calls, <- app_assoc.
    destruct (isCallItem item); reflexivity.
Qed.

(** X5. The citations of an accepted Responses body are the annotations of
    the text parts ([output_text] or [text]) of its message items, each
    turned into a [Citation], in the order of the body; parts of another
    type (a refusal, say) and items of another type add none. *)
Theorem parseResponsesResponse_citations_in_order (body : string)
    (resp : ProviderResponse) :
  parseResponsesResponse body = Ok resp →
  ∃ result out,
    Unmarshal_responsesResult body = Ok result
    ∧ pr_ResponsesOutput resp = Some out
    ∧ ro_Citations out = messagesCitations (rr_Output result).
Proof.
  intros (result & Hdecode & _ & ->)%parseResponsesResponse_accepts.
  eexists result, _. split; [exact Hdecode |]. split; [reflexivity |].
  cbn [ro_Citations]. unfold walkOutput. rewrite walkItems_citations. reflexivity.
Qed.

(** X6. The tool calls of an accepted Responses body are in one-to-one
    correspondence with its call items (the eight [..._call] types), in the
    order of the body, and each has the [id], [type], [status] and
    [call_id] of its item; message items and items of an unknown type add
    no tool call. *)
Theorem parseResponsesResponse_tool_calls_in_order (body : string)
    (resp : ProviderResponse) :
  parseResponsesResponse body = Ok resp →
  ∃ result out,
    Unmarshal_responsesResult body = Ok result
    ∧ pr_ResponsesOutput resp = Some out
    ∧ callIdentity <$> ro_ToolCalls out
      = itemIdentity <$> List.filter isCallItem (rr_Output result).
Proof.
  intros (result & Hdecode & _ & ->)%parseResponsesResponse_accepts.
  eexists result, _. split; [exact Hdecode |]. split; [reflexivity |].
  cbn [ro_ToolCalls]. unfold walkOutput. rewrite walkItems_calls. reflexivity.
Qed.

(** What the chat completions decoder accepts has no [ResponsesOutput]. *)
Lemma parseResponse_without_output (body : string) (resp : ProviderResponse) :
  parseResponse body = Ok resp → pr_ResponsesOutput resp = None.
Proof.
  unfold parseResponse.
  destruct (Unmarshal_chatResult body) as [result | err]; [| discriminate].
  destruct (chat_Error result); [discriminate |].
  destruct (chat_Choices result); [discriminate |].
  intros [= <-]. reflexivity.
Qed.

(** What the Responses decoder accepts has one, without sources and raw
    items. *)
Lemma parseResponsesResponse_with_output (body : string) (resp : ProviderResponse) :
  parseResponsesResponse body = Ok resp →
  ∃ out, pr_ResponsesOutput resp = Some out
         ∧ ro_Sources out = [] ∧ ro_OutputItems out = []
         ∧ pr_ToolCalls resp = [] ∧ pr_FinishReason resp = "".
Proof.
  intros (result & _ & _ & ->)%parseResponsesResponse_accepts.
  cbn. eauto 6.
Qed.

(** X7. The two decoders fill disjoint parts of a [ProviderResponse]. What
    the Responses decoder accepts always has a [ResponsesOutput], and never
    function tool calls, a finish reason, sources or raw output items; what
    the chat completions decoder accepts never has a [ResponsesOutput]. *)
Theorem decoders_fill_disjoint_parts (body : string) (resp : ProviderResponse) :
  (parseResponsesResponse body = Ok resp →
   pr_ToolCalls resp = [] ∧ pr_FinishReason resp = ""
   ∧ ∃ out, pr_ResponsesOutput resp = Some out
            ∧ ro_Sources out = [] ∧ ro_OutputItems out = [])
  ∧ (parseResponse body = Ok resp → pr_ResponsesOutput resp = None).
Proof.
  split.
  - intros (out & Hout & Hsources & Hitems & Hcalls & Hfinish)
             %parseResponsesResponse_with_output.
    split; [exact Hcalls |]. split; [exact Hfinish |]. exists out. auto.
  - apply parseResponse_without_output.
Qed.

(** X8. The chat completions decoder accepts a body exactly when it decodes
    without an error object and with at least one choice; the response is
    then read off the first choice alone, whatever choices follow. An
    envelope without choices is an error, even though it decoded. *)
Theorem parseResponse_reads_first_choice (body : string) :
  (∀ resp,
     parseResponse body = Ok resp ↔
     ∃ result choice rest,
       Unmarshal_chatResult body = Ok result
       ∧ chat_Error result = None
       ∧ chat_Choices result = choice :: rest
       ∧ pr_Content resp = cm_Content (cc_Message choice)
       ∧ pr_ToolCalls resp = cm_ToolCalls (cc_Message choice)
       ∧ pr_FinishReason resp = cc_FinishReason choice
       ∧ pr_PromptTokens resp = cu_PromptTokens (chat_Usage result)
       ∧ pr_CompletionTokens resp = cu_CompletionTokens (chat_Usage result)
       ∧ pr_TotalTokens resp = cu_TotalTokens (chat_Usage result)
       ∧ pr_ResponsesOutput resp = None)
  ∧ (∀ result,
       Unmarshal_chatResult body = Ok result →
       chat_Error result = None → chat_Choices result = [] →
       parseResponse body
       = Err {| pe_Provider := Name; pe_Code := "";
                pe_Message := "no response choices"; pe_Err := None |}).
Proof.
  split.
  - intros resp. unfold parseResponse. split.
    + destruct (Unmarshal_chatResult body) as [result | err]; [| discriminate].
      destruct (chat_Error result) eqn:Herror; [discriminate |].
      destruct (chat_Choices result) as [| choice rest] eqn:Hchoices;
        [discriminate |].
      intros [= <-]. exists result, choice, rest. cbn. auto 12.
    + intros (result & choice & rest & -> & -> & -> & Hresp).
      destruct resp. cbn in Hresp.
      destruct Hresp as (-> & -> & -> & -> & -> & -> & ->). reflexivity.
  - intros result Hdecode Herror Hchoices. unfold parseResponse.
    rewrite Hdecode, Herror, Hchoices. reflexivity.
Qed.

End InboundWalk.

Lemma parseResponsesResponse_citations_in_order_witness :
  ∃ resp out,
    @parseResponsesResponse SampleJSON.encodingJSON bodyWithCitations = Ok resp
    ∧ pr_ResponsesOutput resp = Some out
    ∧ cit_URL <$> ro_Citations out = ["https://a.example"; "https://b.example"].
Proof.
  destruct (@parseResponsesResponse SampleJSON.encodingJSON bodyWithCitations)
    as [resp | e] eqn:Hparse; [| vm_compute in Hparse; discriminate Hparse].
  destruct (@parseResponsesResponse_citations_in_order SampleJSON.encodingJSON
              bodyWithCitations resp Hparse) as (result & out & Hdecode & Hout & Hcit).
  exists resp, out. split; [reflexivity |]. split; [exact Hout |].
  rewrite Hcit. vm_compute in Hdecode. injection Hdecode as <-.
  vm_compute. reflexivity.
Defined.

Lemma parseResponsesResponse_tool_calls_in_order_witness :
  ∃ resp out,
    @parseResponsesResponse SampleJSON.encodingJSON bodyWithCitations = Ok resp
    ∧ pr_ResponsesOutput resp = Some out
    ∧ callIdentity <$> ro_ToolCalls out
      = [("ws_1", "web_search_call", "completed", "");
         ("sh_1", "shell_call", "", "call_7")].
Proof.
  destruct (@parseResponsesResponse SampleJSON.encodingJSON bodyWithCitations)
    as [resp | e] eqn:Hparse; [| vm_compute in Hparse; discriminate Hparse].
  destruct (@parseResponsesResponse_tool_calls_in_order SampleJSON.encodingJSON
              bodyWithCitations resp Hparse) as (result & out & Hdecode & Hout & Hcalls).
  exists resp, out. split; [reflexivity |]. split; [exact Hout |].
  rewrite Hcalls. vm_compute in Hdecode. injection Hdecode as <-.
  vm_compute. reflexivity.
Defined.

Lemma decoders_fill_disjoint_parts_witness :
  (∃ resp, @parseResponsesResponse SampleJSON.encodingJSON bodyWithCitations = Ok resp
           ∧ pr_ToolCalls resp = [] ∧ pr_FinishReason resp = "")
  ∧ (∃ resp, @parseResponse SampleJSON.encodingJSON chatBodyWithTwoChoices = Ok resp
             ∧ pr_ResponsesOutput resp = None).
Proof.
  split.
  - destruct (@parseResponsesResponse SampleJSON.encodingJSON bodyWithCitations)
      as [resp | e] eqn:Hparse; [| vm_compute in Hparse; discriminate Hparse].
    destruct (proj1 (@decoders_fill_disjoint_parts SampleJSON.encodingJSON
                       bodyWithCitations resp) Hparse) as (Hcalls & Hfinish & _).
    exists resp. auto.
  - destruct (@parseResponse SampleJSON.encodingJSON chatBodyWithTwoChoices)
      as [resp | e] eqn:Hparse; [| vm_compute in Hparse; discriminate Hparse].
    exists resp. split; [reflexivity |].
    exact (proj2 (@decoders_fill_disjoint_parts SampleJSON.encodingJSON
                    chatBodyWithTwoChoices resp) Hparse).
Defined.

Lemma parseResponse_reads_first_choice_witness :
  (∃ resp, @parseResponse SampleJSON.encodingJSON chatBodyWithTwoChoices = Ok resp
           ∧ pr_Content resp = "first" ∧ pr_FinishReason resp = "stop")
  ∧ @parseResponse SampleJSON.encodingJSON chatBodyWithoutChoices
    = Err {| pe_Provider := "openai"; pe_Code := "";
             pe_Message := "no response choices"; pe_Err := None |}.
Proof.
  split.
  - destruct (@parseResponse SampleJSON.encodingJSON chatBodyWithTwoChoices)
      as [resp | e] eqn:Hparse; [| vm_compute in Hparse; discriminate Hparse].
    destruct (proj1 (proj1 (@parseResponse_reads_first_choice SampleJSON.encodingJSON
                              chatBodyWithTwoChoices) resp) Hparse)
      as (result & choice & rest & Hdecode & _ & Hchoices & Hcontent & _ & Hfinish & _).
    exists resp. split; [reflexivity |].
    vm_compute in Hdecode. injection Hdecode as <-.
    cbn in Hchoices. injection Hchoices as <- <-.
    rewrite Hcontent, Hfinish. split; reflexivity.
  - destruct (@Unmarshal_chatResult SampleJSON.encodingJSON chatBodyWithoutChoices)
      as [result | err] eqn:Hdecode; [| vm_compute in Hdecode; discriminate Hdecode].
    apply (proj2 (@parseResponse_reads_first_choice SampleJSON.encodingJSON
                    chatBodyWithoutChoices) result Hdecode);
      vm_compute in Hdecode; injection Hdecode as <-; reflexivity.
Defined.

(** ** Orchestrator: what a call does, whatever the provider answers *)

Section OrchestratorLog.
Context `{Collaborators}.

Lemma footprint_ret {A} (a : A) (P : bool → A → list event → Prop) :
  (∀ d, P d a []) → footprint (mret a : M A) P.
Proof.
  intros HP w. split; [reflexivity |].
  exists []. split; [symmetry; apply app_nil_r | apply HP].
Qed.

Lemma footprint_bind {A B} (m : M A) (k : A → M B)
    (P : bool → A → list event → Prop) (Q : A → bool → B → list event → Prop)
    (R : bool → B → list event → Prop) :
  footprint m P → (∀ a, footprint (k a) (Q a)) →
  (∀ d a e1 b e2, P d a e1 → Q a d b e2 → R d b (e1 ++ e2)) →
  footprint (m ≫= k) R.
Proof.
  intros Hm Hk HR w. rewrite bind_run.
  destruct (Hm w) as (Hd1 & e1 & Ht1 & HP).
  destruct (Hk (m w).1 (m w).2) as (Hd2 & e2 & Ht2 & HQ).
  split; [congruence |].
  exists (e1 ++ e2). split; [rewrite Ht2, Ht1, app_assoc; reflexivity |].
  rewrite Hd1 in HQ. eapply HR; eauto.
Qed.

Lemma footprint_weaken {A} (m : M A) (P Q : bool → A → list event → Prop) :
  footprint m P → (∀ d a events, P d a events → Q d a events) → footprint m Q.
Proof.
  intros Hm HPQ w. destruct (Hm w) as (Hd & events & Ht & HP).
  split; [exact Hd |]. exists events. auto.
Qed.

Lemma footprint_if {A} (c : bool) (m1 m2 : M A) (P : bool → A → list event → Prop) :
  footprint m1 P → footprint m2 P → footprint (if c then m1 else m2) P.
Proof. destruct c; auto. Qed.

Lemma footprint_waitForRateLimit :
  footprint waitForRateLimit (λ _ _ events, events = [EvRateLimit]).
Proof. intros w. split; [reflexivity |]. eexists. split; reflexivity. Qed.

Lemma footprint_timeSleep (d : Z) :
  footprint (timeSleep d) (λ _ _ events, events = [EvSleep d]).
Proof. intros w. split; [reflexivity |]. eexists. split; reflexivity. Qed.

Lemma footprint_Send (client : Client) (ctx : GoContext) (req : ProviderRequest) :
  footprint (Send client ctx req) (λ _ _ events, events = [EvSend client req]).
Proof.
  intros w. unfold Send, mbind, M_bind, emit, onEnv. cbn [env].
  destruct (provider_Send client ctx req (env w)) as [r e'].
  split; [reflexivity |]. eexists. split; reflexivity.
Qed.

(** *** Diagnostics *)

Lemma diagnostics_nil (d : bool) : diagnostics d [].
Proof. split; [constructor | reflexivity]. Qed.

Lemma diagnostics_app (d : bool) (e1 e2 : list event) :
  diagnostics d e1 → diagnostics d e2 → diagnostics d (e1 ++ e2).
Proof.
  intros [Hall1 Hoff1] [Hall2 Hoff2]. split; [apply Forall_app; auto |].
  intros Hd. rewrite Hoff1, Hoff2 by exact Hd. reflexivity.
Qed.

Lemma footprint_checkCapability (client : Client) (feature : string)
    (supported : bool) :
  footprint (checkCapability client feature supported)
            (λ d _ events, diagnostics d events).
Proof.
  intros w. unfold checkCapability. rewrite bind_run. cbn [getDebug fst snd].
  destruct (negb supported && Debug w) eqn:Hwarn.
  - split; [reflexivity |]. eexists. split; [reflexivity |].
    split; [repeat constructor |].
    intros Hd. rewrite Hd, andb_false_r in Hwarn. discriminate.
  - split; [reflexivity |]. exists []. split; [symmetry; apply app_nil_r |].
    apply diagnostics_nil.
Qed.

Lemma footprint_checkBuiltinTool (client : Client) (bt : BuiltinTool) :
  footprint (checkBuiltinTool client bt) (λ d _ events, diagnostics d events).
Proof.
  unfold checkBuiltinTool. cbn zeta.
  repeat (apply footprint_if; [apply footprint_checkCapability |]).
  apply footprint_ret. apply diagnostics_nil.
Qed.

Lemma footprint_checkBuiltinTools (client : Client) (bts : list BuiltinTool) :
  footprint (checkBuiltinTools client bts) (λ d _ events, diagnostics d events).
Proof.
  induction bts as [| bt bts IH]; cbn [checkBuiltinTools].
  - apply footprint_ret. apply diagnostics_nil.
  - apply (footprint_bind _ _ (λ d _ events, diagnostics d events)
             (λ _ d _ events, diagnostics d events)).
    + apply footprint_checkBuiltinTool.
    + intros _. exact IH.
    + intros d a e1 b e2. apply diagnostics_app.
Qed.

(** What precedes the attempts for a model only prints, and prints nothing
    unless [Debug] is set. *)
Lemma footprint_announce (b : Builder) (client : Client) (model : Model) :
  footprint (announce b client model) (λ d _ events, diagnostics d events).
Proof.
  unfold announce.
  apply (footprint_bind _ _ (λ d _ events, diagnostics d events)
           (λ _ d _ events, diagnostics d events));
    [apply footprint_if;
       [apply footprint_checkCapability
       | apply footprint_ret; apply diagnostics_nil]
    | intros _ | intros d a e1 b0 e2; apply diagnostics_app].
  apply (footprint_bind _ _ (λ d _ events, diagnostics d events)
           (λ _ d _ events, diagnostics d events));
    [apply footprint_if;
       [apply footprint_checkCapability
       | apply footprint_ret; apply diagnostics_nil]
    | intros _ | intros d a e1 b0 e2; apply diagnostics_app].
  apply (footprint_bind _ _ (λ d _ events, diagnostics d events)
           (λ _ d _ events, diagnostics d events));
    [apply footprint_checkBuiltinTools
    | intros _ | intros d a e1 b0 e2; apply diagnostics_app].
  intros w. rewrite bind_run. cbn [getDebug fst snd].
  destruct (Debug w) eqn:Hd.
  - split; [exact Hd |]. eexists. split; [reflexivity |].
    split; [repeat constructor | discriminate].
  - split; [exact Hd |]. exists []. split; [symmetry; apply app_nil_r |].
    apply diagnostics_nil.
Qed.

(** *** Attempts *)

Lemma Gated_app (e1 e2 : list event) : Gated e1 → Gated e2 → Gated (e1 ++ e2).
Proof.
  intros H1 H2. induction H1 as [| e events Hother _ IH | client req events _ IH].
  - exact H2.
  - apply Gated_other; assumption.
  - apply Gated_send. exact IH.
Qed.

(** A list without provider calls is gated. *)
Lemma Gated_without_sends (events : list event) :
  Forall (λ e, isSend e = false) events → Gated events.
Proof.
  induction 1 as [| e events He _ IH]; [apply Gated_nil | apply Gated_other; auto].
Qed.

Lemma Gated_lookup (events : list event) :
  Gated events → gateBeforeEverySend events.
Proof.
  intros Hgated.
  induction Hgated as [| e events Hother _ IH | client req events _ IH];
    intros i client' req' Hi.
  - rewrite lookup_nil in Hi. discriminate.
  - destruct i as [| i]; cbn in Hi.
    + injection Hi as ->. discriminate.
    + destruct (IH i client' req' Hi) as (j & -> & Hj). exists (S j). auto.
  - destruct i as [| [| i]]; cbn in Hi.
    + discriminate.
    + exists O. auto.
    + destruct (IH i client' req' Hi) as (j & -> & Hj). exists (S (S j)). auto.
Qed.

Lemma attempts_nil : attempts [].
Proof. split; constructor. Qed.

Lemma attempts_app (e1 e2 : list event) :
  attempts e1 → attempts e2 → attempts (e1 ++ e2).
Proof.
  intros [Hg1 Hall1] [Hg2 Hall2]. split; [apply Gated_app | apply Forall_app]; auto.
Qed.

(** One attempt: the gate, then the provider. *)
Lemma footprint_gated_Send {A} (client : Client) (ctx : GoContext)
    (req : ProviderRequest) (k : result ProviderResponse error → M A) :
  (∀ r, footprint (k r) (λ _ _ events, attempts events)) →
  footprint (waitForRateLimit ≫= λ _, Send client ctx req ≫= k)
            (λ _ _ events, attempts events).
Proof.
  intros Hk.
  apply (footprint_bind _ _ (λ _ _ events, events = [EvRateLimit])
           (λ _ _ _ events, ∃ rest, events = EvSend client req :: rest
                                     ∧ attempts rest)).
  - apply footprint_waitForRateLimit.
  - intros _.
    apply (footprint_bind _ _ (λ _ _ events, events = [EvSend client req])
             (λ _ _ _ events, attempts events)).
    + apply footprint_Send.
    + exact Hk.
    + intros d r e1 a e2 -> Hrest. exists e2. auto.
  - intros d a e1 r e2 -> (rest & -> & [Hgated Hall]). split.
    + apply Gated_send. exact Hgated.
    + repeat constructor. exact Hall.
Qed.

Lemma footprint_legacyRetry (client : Client) (ctx : GoContext)
    (req : ProviderRequest) (more : nat) :
  ∀ attempt totalRetries,
    footprint (legacyRetry client ctx req more attempt totalRetries)
              (λ _ _ events, attempts events).
Proof.
  induction more as [| more IH]; intros attempt totalRetries; cbn [legacyRetry];
    (apply (footprint_bind _ _ (λ _ _ events, attempts events)
              (λ _ _ _ events, attempts events));
     [destruct (0 <? attempt);
        [apply (footprint_bind _ _ (λ _ _ events, events = [EvSleep (backoff attempt)])
                  (λ _ _ _ events, events = []));
           [apply footprint_timeSleep
           | intros _; apply footprint_ret; reflexivity
           | intros d a e1 b e2 -> ->; split;
               [apply Gated_other; [reflexivity | apply Gated_nil]
               | repeat constructor]]
        | apply footprint_ret; intros _; apply attempts_nil]
     | intros totalRetries'; apply footprint_gated_Send; intros r
     | intros d a e1 b e2; apply attempts_app]).
  - destruct r; apply footprint_ret; intros _; apply attempts_nil.
  - destruct r; [apply footprint_ret; intros _; apply attempts_nil | apply IH].
Qed.

(** Without a smart policy the attempts for a model consist of sleeps and
    gated provider calls, and of nothing else. *)
Lemma footprint_attempt (b : Builder) (client : Client) (ctx : GoContext)
    (req : ProviderRequest) (totalRetries : Z) :
  b_retryConfig b = None →
  footprint (attempt b client ctx req totalRetries) (λ _ _ events, attempts events).
Proof.
  intros Hconfig. unfold attempt. rewrite Hconfig.
  destruct (0 <? b_maxRetries b); [apply footprint_legacyRetry |].
  apply footprint_gated_Send. intros r. apply footprint_ret. intros _.
  apply attempts_nil.
Qed.

(** *** The loop over the models *)

Lemma trackedMetas_app (e1 e2 : list event) :
  trackedMetas (e1 ++ e2) = trackedMetas e1 ++ trackedMetas e2.
Proof. apply omap_app. Qed.

Lemma calm_nil (d : bool) : calm d [].
Proof. split; [apply Gated_nil |]. split; [reflexivity | constructor]. Qed.

Lemma calm_app (d : bool) (e1 e2 : list event) :
  calm d e1 → calm d e2 → calm d (e1 ++ e2).
Proof.
  intros (Hg1 & Ht1 & Hd1) (Hg2 & Ht2 & Hd2). split; [apply Gated_app; auto |].
  split; [rewrite trackedMetas_app, Ht1, Ht2; reflexivity |].
  intros Hd. apply Forall_app; auto.
Qed.

Lemma calm_landed_app (d : bool) (meta : ResponseMeta) (e1 e2 : list event) :
  calm d e1 → landed d meta e2 → landed d meta (e1 ++ e2).
Proof.
  intros (Hg1 & Ht1 & Hd1) (Hg2 & Ht2 & Hd2). split; [apply Gated_app; auto |].
  split; [rewrite trackedMetas_app, Ht1, Ht2; reflexivity |].
  intros Hd. apply Forall_app; auto.
Qed.

Lemma diagnostics_calm (d : bool) (events : list event) :
  diagnostics d events → calm d events.
Proof.
  intros [Hall Hoff]. split; [| split].
  - apply Gated_without_sends. eapply Forall_impl; [exact Hall |].
    intros [] He; first [reflexivity | discriminate He].
  - clear Hoff. induction Hall as [| e events He _ IH]; [reflexivity |].
    destruct e; cbn in He; first [discriminate He | exact IH].
  - intros Hd. rewrite (Hoff Hd). constructor.
Qed.

Lemma attempts_calm (d : bool) (events : list event) :
  attempts events → calm d events.
Proof.
  intros [Hgated Hall]. split; [exact Hgated |]. split.
  - clear Hgated. induction Hall as [| e events He _ IH]; [reflexivity |].
    destruct e; cbn in He; first [discriminate He | exact IH].
  - intros _. eapply Forall_impl; [exact Hall |].
    intros [] He; first [reflexivity | discriminate He].
Qed.

(** What follows the attempts: a success is tracked, once; a rejected
    response and a failure leave no event. *)
Lemma footprint_conclude (b : Builder) (start : Z) (model : Model)
    (r : result ProviderResponse error) (totalRetries : Z) :
  footprint (conclude b start model r totalRetries)
            (λ d out events,
               match out with
               | inl meta => landed d meta events
               | inr _ => events = []
               end).
Proof.
  intros w. unfold conclude. destruct r as [resp | err].
  - destruct (if (0 <? length (b_validators b))%nat
              then runValidators b (pr_Content resp) else Ok (pr_Content resp))
      as [content | validationErr].
    + unfold since, getPretty, trackRequest, emit, onEnv, mbind, M_bind, mret, M_ret.
      destruct (Pretty w); cbn [fst snd Debug trace env Pretty].
      * split; [reflexivity |]. eexists.
        split; [rewrite <- app_assoc; reflexivity |].
        split; [repeat (apply Gated_other; [reflexivity |]); apply Gated_nil |].
        split; [reflexivity | intros _; repeat constructor].
      * split; [reflexivity |]. eexists. split; [reflexivity |].
        split; [repeat (apply Gated_other; [reflexivity |]); apply Gated_nil |].
        split; [reflexivity | intros _; repeat constructor].
    + split; [reflexivity |]. exists []. split; [symmetry; apply app_nil_r |].
      cbn [fst]. split; [apply Gated_nil |]. split; [reflexivity | constructor].
  - split; [reflexivity |]. exists []. split; [symmetry; apply app_nil_r |].
    reflexivity.
Qed.

Lemma footprint_tryModel (b : Builder) (msgs : list Message) (start : Z)
    (client : Client) (ctx : GoContext) (model : Model) (totalRetries : Z) :
  b_retryConfig b = None →
  footprint (tryModel b msgs start client ctx model totalRetries)
            (λ d out events,
               match out with
               | inl meta => landed d meta events
               | inr _ => calm d events
               end).
Proof.
  intros Hconfig. unfold tryModel.
  apply (footprint_bind _ _ (λ d _ events, diagnostics d events)
           (λ _ d out events,
              match out with
              | inl meta => landed d meta events
              | inr _ => calm d events
              end)).
  - apply footprint_announce.
  - intros _.
    apply (footprint_bind _ _ (λ _ _ events, attempts events)
             (λ _ d out events,
                match out with
                | inl meta => landed d meta events
                | inr _ => events = []
                end)).
    + apply footprint_attempt. exact Hconfig.
    + intros [r totalRetries']. apply footprint_conclude.
    + intros d a e1 [meta | failure] e2 Hattempts Hout.
      * apply calm_landed_app; [apply attempts_calm |]; assumption.
      * subst e2. rewrite app_nil_r. apply attempts_calm. exact Hattempts.
  - intros d a e1 [meta | failure] e2 Hdiag Hout.
    + apply calm_landed_app; [apply diagnostics_calm |]; assumption.
    + apply calm_app; [apply diagnostics_calm |]; assumption.
Qed.

Lemma footprint_tryModels (b : Builder) (msgs : list Message) (start : Z)
    (client : Client) (ctx : GoContext) (models : list Model) :
  b_retryConfig b = None →
  ∀ lastErr totalRetries,
    footprint (tryModels b msgs start client ctx models lastErr totalRetries)
              (λ d out events,
                 match out with
                 | inl meta => landed d meta events
                 | inr (lastErr', _) =>
                     calm d events ∧ (lastErr' = None → lastErr = None ∧ models = [])
                 end).
Proof.
  intros Hconfig.
  induction models as [| model models IH]; intros lastErr totalRetries;
    cbn [tryModels].
  - apply footprint_ret. intros d. split; [apply calm_nil | auto].
  - apply (footprint_bind _ _
             (λ d out events,
                match out with
                | inl meta => landed d meta events
                | inr _ => calm d events
                end)
             (λ r d out events,
                match r with
                | inl meta => out = inl meta ∧ events = []
                | inr _ =>
                    match out with
                    | inl meta => landed d meta events
                    | inr (lastErr', _) => calm d events ∧ lastErr' ≠ None
                    end
                end)).
    + apply footprint_tryModel. exact Hconfig.
    + intros [meta | [err totalRetries']].
      * apply footprint_ret. auto.
      * eapply footprint_weaken; [apply (IH (Some err) totalRetries') |].
        intros d [meta | [lastErr' totalRetries'']] events; [auto |].
        intros [Hcalm Hlast]. split; [exact Hcalm |].
        intros ->. destruct (Hlast eq_refl) as [[=] _].
    + intros d [meta | failure] e1 out e2 Hfirst Hrest.
      * destruct Hrest as [-> ->]. rewrite app_nil_r. exact Hfirst.
      * destruct out as [meta | [lastErr' totalRetries'']].
        -- apply calm_landed_app; assumption.
        -- destruct Hrest as [Hcalm Hlast]. split; [apply calm_app; assumption |].
           intros ->. contradiction.
Qed.

(** The statements before the loop switch [Debug] on when the builder asks
    for it, and do nothing else to it. *)
Lemma enter_Debug (b : Builder) (w : World) :
  Debug (enter b w).2 = Debug w || b_debug b.
Proof.
  unfold enter, mbind, M_bind, now, getDebug, chooseClient, setDebug, mret, M_ret.
  destruct (b_debug b); cbn; [rewrite orb_true_r | rewrite orb_false_r]; reflexivity.
Qed.

(** Without a smart policy, whatever the provider answers: the events of a
    call, and how they relate to what the call returns. *)
Lemma SendWithMeta_footprint (b : Builder) (w : World) :
  b_retryConfig b = None →
  ∃ events,
    trace (SendWithMeta b w).2 = trace w ++ events
    ∧ landed (Debug w || b_debug b) (SendWithMeta b w).1 events.
Proof.
  intros Hconfig. unfold SendWithMeta. cbn zeta. rewrite bind_run.
  pose proof (enter_Debug b w) as Hdebug.
  destruct (enter_run b w) as (_ & Htrace & _).
  destruct (enter b w) as [[[start oldDebug] client] w0]. cbn [fst snd] in *.
  rewrite bind_run.
  destruct (footprint_tryModels b (buildMessages b) start client (getContext b)
              (b_model b :: b_fallbacks b) Hconfig None 0 w0)
    as (_ & events & Hevents & Hout).
  rewrite Hdebug, Htrace in *. clear Hdebug Htrace.
  destruct (tryModels b (buildMessages b) start client (getContext b)
              (b_model b :: b_fallbacks b) None 0 w0)
    as [[meta | [lastErr totalRetries]] w1]; cbn [fst snd] in *.
  - exists events. split; [exact Hevents | exact Hout].
  - exists events. split; [exact Hevents |].
    destruct Hout as [(Hgated & Htracked & Hquiet) Hlast].
    split; [exact Hgated |]. split; [| exact Hquiet].
    cbn [rm_Error]. rewrite Htracked.
    destruct lastErr; [reflexivity |].
    destruct (Hlast eq_refl) as [_ [=]].
Qed.

(** X9. Every provider attempt directly follows a pass of the shared
    rate-limit gate, the first attempt included. Without a smart policy
    this holds for the whole run of [SendWithMeta], whatever the provider
    answers; with a smart policy it holds for each call of the closure that
    [WithRetry] is handed, which passes the gate and then calls the
    provider. *)
Theorem SendWithMeta_gate_before_every_attempt (b : Builder) (w : World) :
  (b_retryConfig b = None →
   ∃ events,
     trace (SendWithMeta b w).2 = trace w ++ events
     ∧ gateBeforeEverySend events)
  ∧ (∀ client ctx req c w1,
       trace (retryClosure client ctx req c w1).2
       = trace w1 ++ [EvRateLimit; EvSend client req]).
Proof.
  split.
  - intros Hconfig.
    destruct (SendWithMeta_footprint b w Hconfig) as (events & Hevents & Hgated & _).
    exists events. split; [exact Hevents |]. apply Gated_lookup. exact Hgated.
  - intros client ctx req [retries totalRetries] w1.
    unfold retryClosure, waitForRateLimit, Send, mbind, M_bind, emit, onEnv.
    cbn [env trace]. destruct (provider_Send client ctx req _) as [r e'].
    cbn [snd trace]. rewrite <- app_assoc. reflexivity.
Qed.

(** X10. Without a smart policy, [trackRequest] is called exactly for a
    success: once, with the metadata that [SendWithMeta] returns, when the
    returned metadata has no error; not at all when it has one (a provider
    failure on every model, or a validation error). *)
Theorem SendWithMeta_tracks_exactly_successes (b : Builder) (w : World) :
  b_retryConfig b = None →
  trackedMetas (trace (SendWithMeta b w).2)
  = trackedMetas (trace w)
    ++ match rm_Error (SendWithMeta b w).1 with
       | None => [(SendWithMeta b w).1]
       | Some _ => []
       end.
Proof.
  intros Hconfig.
  destruct (SendWithMeta_footprint b w Hconfig) as (events & Hevents & _ & Htracked & _).
  rewrite Hevents, trackedMetas_app, Htracked. reflexivity.
Qed.

(** X11. With [Debug] off and a builder that does not switch it on, a call
    without a smart policy prints no capability warning and no debug
    request, whatever the capabilities of the provider are: an unsupported
    feature neither stops the call nor leaves any event. *)
Theorem SendWithMeta_silent_without_Debug (b : Builder) (w : World) :
  b_retryConfig b = None →
  Debug w = false → b_debug b = false →
  ∃ events,
    trace (SendWithMeta b w).2 = trace w ++ events
    ∧ Forall (λ e, isDiagnostic e = false) events.
Proof.
  intros Hconfig Hdebug Hbuilder.
  destruct (SendWithMeta_footprint b w Hconfig) as (events & Hevents & _ & _ & Hquiet).
  exists events. split; [exact Hevents |].
  apply Hquiet. rewrite Hdebug, Hbuilder. reflexivity.
Qed.

(** X12. [SendWithMeta] leaves the package-level [Debug] as it found it, on
    every return and under every retry policy, whether or not the builder
    switched it on for the call. *)
Theorem SendWithMeta_restores_Debug (b : Builder) (w : World) :
  Debug (SendWithMeta b w).2 = Debug w.
Proof.
  unfold SendWithMeta. cbn zeta. rewrite bind_run.
  destruct (enter_run b w) as (Hold & _).
  destruct (enter b w) as [[[start oldDebug] client] w0]. cbn [fst snd] in *.
  subst oldDebug. rewrite bind_run.
  destruct (tryModels b (buildMessages b) start client (getContext b)
              (b_model b :: b_fallbacks b) None 0 w0)
    as [[meta | [lastErr totalRetries]] w1]; reflexivity.
Qed.

End OrchestratorLog.

(** ** Orchestrator: exhausted and answered models *)

Section OrchestratorRuns.
Context `{Collaborators}.

Lemma sleeps_app (e1 e2 : list event) : sleeps (e1 ++ e2) = sleeps e1 ++ sleeps e2.
Proof. apply omap_app. Qed.

Lemma sentModels_legacyEvents (client : Client) (req : ProviderRequest)
    (more : nat) (attempt : Z) :
  sentModels (legacyEvents client req more attempt)
  = replicate (S more) (req_Model req).
Proof.
  revert attempt. induction more as [| more IH]; intros attempt;
    cbn [legacyEvents]; rewrite !sentModels_app.
  - destruct (0 <? attempt); reflexivity.
  - rewrite IH. destruct (0 <? attempt); reflexivity.
Qed.

Lemma sleeps_legacyEvents (client : Client) (req : ProviderRequest)
    (more : nat) (attempt : Z) :
  0 ≤ attempt →
  sleeps (legacyEvents client req more attempt)
  = (if 0 <? attempt then [backoff attempt] else [])
    ++ (backoff <$> seqZ (attempt + 1) (Z.of_nat more)).
Proof.
  revert attempt. induction more as [| more IH]; intros attempt Hattempt;
    cbn [legacyEvents]; rewrite sleeps_app.
  - destruct (0 <? attempt); reflexivity.
  - assert (sleeps ([EvRateLimit; EvSend client req]
                    ++ legacyEvents client req more (attempt + 1))
            = sleeps (legacyEvents client req more (attempt + 1))) as ->
      by reflexivity.
    rewrite IH by lia.
    replace (0 <? attempt + 1) with true by (symmetry; apply Z.ltb_lt; lia).
    rewrite (seqZ_cons (attempt + 1) (Z.of_nat (S more))) by lia.
    replace (Z.succ (attempt + 1)) with (attempt + 1 + 1) by lia.
    replace (Z.pred (Z.of_nat (S more))) with (Z.of_nat more) by lia.
    destruct (0 <? attempt); reflexivity.
Qed.

(** The projections of a list of diagnostic prints are empty. *)
Lemma diagnostics_projections (d : bool) (events : list event) :
  diagnostics d events → sentModels events = [] ∧ sleeps events = [].
Proof.
  intros [Hall _].
  induction Hall as [| e events He _ IH]; [split; reflexivity |].
  destruct e; cbn in He; first [discriminate He | exact IH].
Qed.

Lemma backoff_trace (attempt totalRetries : Z) (w : World) :
  let pause : M Z :=
    if 0 <? attempt
    then _ ← timeSleep (backoff attempt); mret (totalRetries + 1)
    else mret totalRetries in
  (pause w).1 = totalRetries + (if 0 <? attempt then 1 else 0)
  ∧ trace (pause w).2
    = trace w ++ (if 0 <? attempt then [EvSleep (backoff attempt)] else []).
Proof.
  cbn zeta. destruct (0 <? attempt).
  - split; reflexivity.
  - split; [cbn; lia | cbn; rewrite app_nil_r; reflexivity].
Qed.

(** One gated attempt for a request that the provider fails. *)
Lemma gate_then_failure (client : Client) (ctx : GoContext) (req : ProviderRequest)
    (w : World) :
  failsFor (req_Model req) →
  ∃ err w', Send client ctx req (waitForRateLimit w).2 = (Err err, w')
            ∧ trace w' = trace w ++ [EvRateLimit; EvSend client req]
            ∧ failureOf (req_Model req) err.
Proof.
  intros Hfails. unfold Send, waitForRateLimit, mbind, M_bind, emit, onEnv.
  cbn [env trace snd].
  destruct (Hfails client ctx req (rateLimiter (env w)) eq_refl)
    as (err & e' & Hsend).
  rewrite Hsend. eexists _, _. split; [reflexivity |]. cbn [trace].
  split; [rewrite <- app_assoc; reflexivity |].
  unfold failureOf. eauto 10.
Qed.

(** One gated attempt for a request that the provider answers. *)
Lemma gate_then_answer (client : Client) (ctx : GoContext) (req : ProviderRequest)
    (w : World) :
  answersFor (req_Model req) →
  ∃ resp w', Send client ctx req (waitForRateLimit w).2 = (Ok resp, w')
             ∧ trace w' = trace w ++ [EvRateLimit; EvSend client req]
             ∧ Pretty w' = Pretty w
             ∧ answerOf (req_Model req) resp.
Proof.
  intros Hanswers. unfold Send, waitForRateLimit, mbind, M_bind, emit, onEnv.
  cbn [env trace snd].
  destruct (Hanswers client ctx req (rateLimiter (env w)) eq_refl)
    as (resp & e' & Hsend).
  rewrite Hsend. eexists _, _. split; [reflexivity |]. cbn [trace Pretty].
  split; [rewrite <- app_assoc; reflexivity |].
  split; [reflexivity |].
  unfold answerOf. eauto 10.
Qed.

(** The legacy loop on a request that the provider fails: all its attempts
    are made, with the back-off before each but the first. *)
Lemma legacyRetry_exhausts (client : Client) (ctx : GoContext) (req : ProviderRequest) :
  failsFor (req_Model req) →
  ∀ (more : nat) (attempt totalRetries : Z) (w : World),
    0 ≤ attempt →
    ∃ err w',
      legacyRetry client ctx req more attempt totalRetries w
      = ((Err err, totalRetries + Z.of_nat more + (if 0 <? attempt then 1 else 0)), w')
      ∧ trace w' = trace w ++ legacyEvents client req more attempt
      ∧ failureOf (req_Model req) err.
Proof.
  intros Hfails more.
  induction more as [| more IH]; intros attempt totalRetries w Hattempt;
    cbn [legacyRetry legacyEvents]; rewrite bind_run;
    destruct (backoff_trace attempt totalRetries w) as [Hretries Hslept];
    cbn zeta in Hretries, Hslept; rewrite Hretries; clear Hretries;
    match goal with
    | |- context [(?m w).2] => set (w1 := (m w).2) in *
    end;
    rewrite bind_run, bind_run;
    destruct (gate_then_failure client ctx req w1 Hfails)
      as (err & w' & Hsend & Htrace & Hfailure);
    rewrite Hslept in Htrace; rewrite Hsend; cbn [fst snd].
  - exists err, w'. rewrite ret_run.
    replace (totalRetries + Z.of_nat 0 + (if 0 <? attempt then 1 else 0))
      with (totalRetries + (if 0 <? attempt then 1 else 0)) by lia.
    split; [reflexivity |].
    split; [rewrite Htrace, app_nil_r, <- app_assoc; reflexivity | exact Hfailure].
  - destruct (IH (attempt + 1) (totalRetries + (if 0 <? attempt then 1 else 0)) w')
      as (err' & w'' & Hrest & Htrace' & Hfailure'); [lia |].
    exists err', w''. rewrite Hrest.
    replace (0 <? attempt + 1) with true by (symmetry; apply Z.ltb_lt; lia).
    replace (totalRetries + (if 0 <? attempt then 1 else 0) + Z.of_nat more + 1)
      with (totalRetries + Z.of_nat (S more) + (if 0 <? attempt then 1 else 0))
      by lia.
    split; [reflexivity |].
    split; [| exact Hfailure'].
    rewrite Htrace', Htrace, <- !app_assoc. reflexivity.
Qed.

(** The attempts for a model that the provider fails, under either
    discipline without a smart policy. *)
Lemma attempt_exhausts (b : Builder) (client : Client) (ctx : GoContext)
    (req : ProviderRequest) (totalRetries : Z) (w : World) :
  b_retryConfig b = None →
  failsFor (req_Model req) →
  ∃ err w',
    attempt b client ctx req totalRetries w
    = ((Err err, totalRetries + Z.max 0 (b_maxRetries b)), w')
    ∧ sentModels (trace w')
      = sentModels (trace w) ++ replicate (S (Z.to_nat (b_maxRetries b))) (req_Model req)
    ∧ sleeps (trace w') = sleeps (trace w) ++ backoffSchedule (b_maxRetries b)
    ∧ failureOf (req_Model req) err.
Proof.
  intros Hconfig Hfails. unfold attempt. rewrite Hconfig.
  destruct (Z.ltb_spec 0 (b_maxRetries b)) as [Hretries | Hretries].
  - destruct (legacyRetry_exhausts client ctx req Hfails
                (Z.to_nat (b_maxRetries b)) 0 totalRetries w)
      as (err & w' & Hrun & Htrace & Hfailure); [lia |].
    exists err, w'. rewrite Hrun.
    replace (totalRetries + Z.of_nat (Z.to_nat (b_maxRetries b))
             + (if 0 <? 0 then 1 else 0))
      with (totalRetries + Z.max 0 (b_maxRetries b)) by (cbn; lia).
    split; [reflexivity |]. rewrite Htrace, sentModels_app, sleeps_app.
    rewrite sentModels_legacyEvents, sleeps_legacyEvents by lia.
    split; [reflexivity |]. split; [| exact Hfailure].
    unfold backoffSchedule. rewrite Z2Nat.id by lia. reflexivity.
  - rewrite bind_run, bind_run.
    destruct (gate_then_failure client ctx req w Hfails)
      as (err & w' & Hsend & Htrace & Hfailure).
    rewrite Hsend. cbn [fst snd]. rewrite ret_run. exists err, w'.
    replace (totalRetries + Z.max 0 (b_maxRetries b)) with totalRetries by lia.
    split; [reflexivity |]. rewrite Htrace, sentModels_app, sleeps_app.
    replace (Z.to_nat (b_maxRetries b)) with O by lia.
    unfold backoffSchedule. rewrite seqZ_nil by lia.
    split; [reflexivity |]. split; [cbn; rewrite app_nil_r; reflexivity | exact Hfailure].
Qed.

(** The attempts for a model that the provider answers: one attempt, under
    either discipline without a smart policy. *)
Lemma attempt_answers (b : Builder) (client : Client) (ctx : GoContext)
    (req : ProviderRequest) (totalRetries : Z) (w : World) :
  b_retryConfig b = None →
  answersFor (req_Model req) →
  ∃ resp w',
    attempt b client ctx req totalRetries w = ((Ok resp, totalRetries), w')
    ∧ trace w' = trace w ++ [EvRateLimit; EvSend client req]
    ∧ answerOf (req_Model req) resp.
Proof.
  intros Hconfig Hanswers. unfold attempt. rewrite Hconfig.
  destruct (gate_then_answer client ctx req w Hanswers)
    as (resp & w' & Hsend & Htrace & _ & Hanswer).
  exists resp, w'.
  destruct (0 <? b_maxRetries b).
  - destruct (Z.to_nat (b_maxRetries b)); cbn [legacyRetry];
      change (0 <? 0) with false; cbn iota;
      rewrite bind_run, ret_run; cbn [fst snd];
      rewrite bind_run, bind_run, Hsend; cbn [fst snd]; rewrite ret_run; auto.
  - rewrite bind_run, bind_run, Hsend. cbn [fst snd]. rewrite ret_run. auto.
Qed.

(** What follows the attempts makes no attempt, sleeps not, and hands the
    retry counter on. *)
Lemma conclude_run (b : Builder) (start : Z) (model : Model)
    (r : result ProviderResponse error) (totalRetries : Z) (w : World) :
  sentModels (trace (conclude b start model r totalRetries w).2) = sentModels (trace w)
  ∧ sleeps (trace (conclude b start model r totalRetries w).2) = sleeps (trace w)
  ∧ match (conclude b start model r totalRetries w).1 with
    | inl meta => rm_Retries meta = totalRetries ∧ rm_Model meta = model
    | inr (_, totalRetries') => totalRetries' = totalRetries
    end.
Proof.
  unfold conclude. destruct r as [resp | err]; [| cbn; auto].
  destruct (if (0 <? length (b_validators b))%nat
            then runValidators b (pr_Content resp) else Ok (pr_Content resp))
    as [content | validationErr]; [| rewrite bind_run; cbn; auto].
  unfold since, getPretty, trackRequest, emit, onEnv, mbind, M_bind, mret, M_ret.
  destruct (Pretty w); cbn [fst snd trace]; rewrite ?sentModels_app, ?sleeps_app;
    cbn; rewrite ?app_nil_r; auto.
Qed.

(** An accepted response without validators becomes the metadata. *)
Lemma conclude_accepts (b : Builder) (start : Z) (model : Model)
    (resp : ProviderResponse) (totalRetries : Z) (w : World) :
  b_validators b = [] →
  ∃ meta,
    (conclude b start model (Ok resp) totalRetries w).1 = inl meta
    ∧ rm_Error meta = None ∧ rm_Model meta = model
    ∧ rm_Content meta = pr_Content resp
    ∧ rm_Tokens meta = pr_TotalTokens resp
    ∧ rm_ResponsesOutput meta = pr_ResponsesOutput resp
    ∧ rm_Retries meta = totalRetries.
Proof.
  intros Hvalidators. unfold conclude. rewrite Hvalidators. cbn [length Nat.ltb Nat.leb].
  unfold since, getPretty, trackRequest, emit, onEnv, mbind, M_bind, mret, M_ret.
  destruct (Pretty w); cbn [fst snd];
    (eexists; split; [reflexivity | cbn; auto 10]).
Qed.

Lemma tryModel_exhausts (b : Builder) (msgs : list Message) (start : Z)
    (client : Client) (ctx : GoContext) (model : Model) (totalRetries : Z)
    (w : World) :
  b_retryConfig b = None →
  failsFor model →
  ∃ err w',
    tryModel b msgs start client ctx model totalRetries w
    = (inr (err, totalRetries + Z.max 0 (b_maxRetries b)), w')
    ∧ sentModels (trace w')
      = sentModels (trace w) ++ replicate (S (Z.to_nat (b_maxRetries b))) model
    ∧ sleeps (trace w') = sleeps (trace w) ++ backoffSchedule (b_maxRetries b)
    ∧ failureOf model err.
Proof.
  intros Hconfig Hfails. unfold tryModel. rewrite bind_run, bind_run.
  destruct (footprint_announce b client model w) as (_ & events & Hevents & Hdiag).
  apply diagnostics_projections in Hdiag as [Hsent Hslept].
  destruct (attempt_exhausts b client ctx (requestFor b msgs model) totalRetries
              (announce b client model w).2 Hconfig Hfails)
    as (err & w' & Hrun & Htrace & Hsleeps & Hfailure).
  rewrite Hrun. cbn [fst snd conclude]. rewrite ret_run.
  rewrite Hevents, sentModels_app, Hsent, app_nil_r in Htrace.
  rewrite Hevents, sleeps_app, Hslept, app_nil_r in Hsleeps.
  exists err, w'. auto.
Qed.

Lemma tryModel_answers (b : Builder) (msgs : list Message) (start : Z)
    (client : Client) (ctx : GoContext) (model : Model) (totalRetries : Z)
    (w : World) :
  b_retryConfig b = None → b_validators b = [] →
  answersFor model →
  ∃ meta resp w',
    tryModel b msgs start client ctx model totalRetries w = (inl meta, w')
    ∧ sentModels (trace w') = sentModels (trace w) ++ [model]
    ∧ sleeps (trace w') = sleeps (trace w)
    ∧ answerOf model resp
    ∧ rm_Error meta = None ∧ rm_Model meta = model
    ∧ rm_Content meta = pr_Content resp
    ∧ rm_Tokens meta = pr_TotalTokens resp
    ∧ rm_ResponsesOutput meta = pr_ResponsesOutput resp
    ∧ rm_Retries meta = totalRetries.
Proof.
  intros Hconfig Hvalidators Hanswers. unfold tryModel. rewrite bind_run, bind_run.
  destruct (footprint_announce b client model w) as (_ & events & Hevents & Hdiag).
  apply diagnostics_projections in Hdiag as [Hsent Hslept].
  destruct (attempt_answers b client ctx (requestFor b msgs model) totalRetries
              (announce b client model w).2 Hconfig Hanswers)
    as (resp & w1 & Hrun & Htrace & Hanswer).
  rewrite Hrun. cbn [fst snd].
  destruct (conclude_accepts b start model resp totalRetries w1 Hvalidators)
    as (meta & Hmeta & Hfields).
  destruct (conclude_run b start model (Ok resp) totalRetries w1)
    as (Hsent' & Hslept' & _).
  destruct (conclude b start model (Ok resp) totalRetries w1) as [out w'].
  cbn [fst snd] in *. subst out.
  exists meta, resp, w'. split; [reflexivity |].
  rewrite Hsent', Hslept', Htrace, Hevents, !sentModels_app, !sleeps_app, Hsent, Hslept.
  cbn. rewrite !app_nil_r. auto 10.
Qed.

(** The loop over models that the provider fails goes through all of them,
    in order, and sleeps the schedule anew for each. *)
Lemma tryModels_exhausts (b : Builder) (msgs : list Message) (start : Z)
    (client : Client) (ctx : GoContext) :
  b_retryConfig b = None →
  ∀ (models : list Model) (lastErr : option error) (totalRetries : Z) (w : World),
    (∀ model, model ∈ models → failsFor model) →
    ∃ lastErr' w',
      tryModels b msgs start client ctx models lastErr totalRetries w
      = (inr (lastErr',
              totalRetries + Z.of_nat (length models) * Z.max 0 (b_maxRetries b)), w')
      ∧ sentModels (trace w')
        = sentModels (trace w)
          ++ (models ≫= replicate (S (Z.to_nat (b_maxRetries b))))
      ∧ sleeps (trace w')
        = sleeps (trace w) ++ (models ≫= λ _, backoffSchedule (b_maxRetries b))
      ∧ (models ≠ [] → lastErr' ≠ None).
Proof.
  intros Hconfig models.
  induction models as [| model models IH]; intros lastErr totalRetries w Hfail;
    cbn [tryModels].
  - exists lastErr, w. rewrite ret_run.
    replace (totalRetries + Z.of_nat (length []) * Z.max 0 (b_maxRetries b))
      with totalRetries by (cbn; lia).
    split; [reflexivity |]. csimpl. rewrite !app_nil_r.
    split; [reflexivity |]. split; [reflexivity |].
    intros Hne. contradiction.
  - rewrite bind_run.
    destruct (tryModel_exhausts b msgs start client ctx model totalRetries w Hconfig)
      as (err & w1 & Hrun & Htrace & Hsleeps & _);
      [apply Hfail; apply list_elem_of_here |].
    rewrite Hrun. cbn [fst snd].
    destruct (IH (Some err) (totalRetries + Z.max 0 (b_maxRetries b)) w1)
      as (lastErr' & w' & Hrest & Htrace' & Hsleeps' & Hlast);
      [intros model' Hin; apply Hfail; apply list_elem_of_further, Hin |].
    exists lastErr', w'. rewrite Hrest.
    replace (totalRetries + Z.of_nat (length (model :: models))
                            * Z.max 0 (b_maxRetries b))
      with (totalRetries + Z.max 0 (b_maxRetries b)
            + Z.of_nat (length models) * Z.max 0 (b_maxRetries b))
      by (cbn [length]; lia).
    split; [reflexivity |].
    split; [rewrite Htrace', Htrace, <- app_assoc; reflexivity |].
    split; [rewrite Hsleeps', Hsleeps, <- app_assoc; reflexivity |].
    intros _. destruct models as [| model' models].
    + cbn [tryModels] in Hrest. rewrite ret_run in Hrest.
      injection Hrest as <- _ _. discriminate.
    + apply Hlast. discriminate.
Qed.

(** What [SendWithMeta] makes of the outcome of the loop. *)
Lemma SendWithMeta_of_loop (b : Builder) (w : World) :
  let '(start, _, client) := (enter b w).1 in
  let loop := tryModels b (buildMessages b) start client (getContext b)
                (b_model b :: b_fallbacks b) None 0 (enter b w).2 in
  trace (enter b w).2 = trace w
  ∧ trace (SendWithMeta b w).2 = trace loop.2
  ∧ match loop.1 with
    | inl meta => (SendWithMeta b w).1 = meta
    | inr (lastErr, totalRetries) =>
        rm_Error (SendWithMeta b w).1 = lastErr
        ∧ rm_Retries (SendWithMeta b w).1 = totalRetries
        ∧ rm_Model (SendWithMeta b w).1 = b_model b
        ∧ rm_Content (SendWithMeta b w).1 = ""
    end.
Proof.
  unfold SendWithMeta. cbn zeta. rewrite bind_run.
  destruct (enter_run b w) as (_ & Htrace & _).
  destruct (enter b w) as [[[start oldDebug] client] w0]. cbn [fst snd] in *.
  rewrite bind_run.
  destruct (tryModels b (buildMessages b) start client (getContext b)
              (b_model b :: b_fallbacks b) None 0 w0)
    as [[meta | [lastErr totalRetries]] w1]; cbn [fst snd];
    repeat rewrite bind_run; cbn; auto 10.
Qed.

End OrchestratorRuns.

Section OrchestratorOutcomes.
Context `{Collaborators}.

(** One gated attempt, whatever the provider answers. *)
Lemma gate_then_Send (client : Client) (ctx : GoContext) (req : ProviderRequest)
    (w : World) :
  trace (Send client ctx req (waitForRateLimit w).2).2
  = trace w ++ [EvRateLimit; EvSend client req].
Proof.
  unfold Send, waitForRateLimit, mbind, M_bind, emit, onEnv. cbn [env trace snd].
  destruct (provider_Send client ctx req (rateLimiter (env w))) as [r e'].
  cbn [snd trace]. rewrite <- app_assoc. reflexivity.
Qed.

(** Without any retry policy a model gets one attempt, whatever the
    provider answers. *)
Lemma tryModel_once (b : Builder) (msgs : list Message) (start : Z)
    (client : Client) (ctx : GoContext) (model : Model) (totalRetries : Z)
    (w : World) :
  b_retryConfig b = None → b_maxRetries b ≤ 0 →
  sentModels (trace (tryModel b msgs start client ctx model totalRetries w).2)
  = sentModels (trace w) ++ [model]
  ∧ sleeps (trace (tryModel b msgs start client ctx model totalRetries w).2)
    = sleeps (trace w)
  ∧ match (tryModel b msgs start client ctx model totalRetries w).1 with
    | inl meta => rm_Retries meta = totalRetries
    | inr (_, totalRetries') => totalRetries' = totalRetries
    end.
Proof.
  intros Hconfig Hretries. unfold tryModel. rewrite bind_run, bind_run.
  destruct (footprint_announce b client model w) as (_ & events & Hevents & Hdiag).
  apply diagnostics_projections in Hdiag as [Hsent Hslept].
  unfold attempt. rewrite Hconfig.
  replace (0 <? b_maxRetries b) with false by (symmetry; apply Z.ltb_ge; lia).
  rewrite bind_run, bind_run, ret_run. cbn [fst snd].
  pose proof (gate_then_Send client ctx (requestFor b msgs model)
                (announce b client model w).2) as Htrace.
  destruct (Send client ctx (requestFor b msgs model)
              (waitForRateLimit (announce b client model w).2).2) as [r w1].
  cbn [fst snd] in *.
  destruct (conclude_run b start model r totalRetries w1) as (Hsent' & Hslept' & Hout).
  rewrite Hsent', Hslept', Htrace, Hevents, !sentModels_app, !sleeps_app, Hsent, Hslept.
  cbn. rewrite !app_nil_r.
  split; [reflexivity |]. split; [reflexivity |].
  destruct (conclude b start model r totalRetries w1).1 as [meta | [err totalRetries']];
    tauto.
Qed.

Lemma tryModels_once (b : Builder) (msgs : list Message) (start : Z)
    (client : Client) (ctx : GoContext) :
  b_retryConfig b = None → b_maxRetries b ≤ 0 →
  ∀ (models : list Model) (lastErr : option error) (totalRetries : Z) (w : World),
  ∃ k : nat,
    (k ≤ length models)%nat
    ∧ sentModels (trace (tryModels b msgs start client ctx models lastErr
                           totalRetries w).2)
      = sentModels (trace w) ++ take k models
    ∧ sleeps (trace (tryModels b msgs start client ctx models lastErr
                       totalRetries w).2)
      = sleeps (trace w)
    ∧ match (tryModels b msgs start client ctx models lastErr totalRetries w).1 with
      | inl meta => rm_Retries meta = totalRetries ∧ (0 < k)%nat
      | inr (_, totalRetries') => totalRetries' = totalRetries ∧ k = length models
      end.
Proof.
  intros Hconfig Hretries models.
  induction models as [| model models IH]; intros lastErr totalRetries w;
    cbn [tryModels].
  - exists O. cbn. rewrite app_nil_r. auto.
  - rewrite bind_run.
    destruct (tryModel_once b msgs start client ctx model totalRetries w
                Hconfig Hretries) as (Hsent & Hslept & Hout).
    destruct (tryModel b msgs start client ctx model totalRetries w)
      as [[meta | [err totalRetries']] w1]; cbn [fst snd] in *.
    + exists 1%nat. cbn [length take]. rewrite ret_run. cbn [fst snd].
      repeat split; first [assumption | lia].
    + subst totalRetries'.
      destruct (IH (Some err) totalRetries w1) as (k & Hk & Hsent' & Hslept' & Hout').
      exists (S k). cbn [length take].
      rewrite Hsent', Hslept', Hsent, Hslept, <- app_assoc.
      split; [lia |]. split; [reflexivity |]. split; [reflexivity |].
      destruct (tryModels b msgs start client ctx models (Some err) totalRetries w1).1
        as [meta | [lastErr' totalRetries']]; [split; [tauto | lia] |].
      destruct Hout' as [-> ->]. auto.
Qed.

(** X13. When the provider fails every request for the primary model and
    answers the requests for the first fallback, a call without smart
    policy and without validators returns the fallback's answer: the primary
    model gets its whole budget of [maxRetries + 1] attempts (one attempt
    when [maxRetries] is not positive), the fallback gets one, later
    fallbacks get none; the metadata names the fallback, carries the content
    and the [ResponsesOutput] of the answer, has no error, and counts the
    retries spent on the primary model. *)
Theorem SendWithMeta_fallback_answers (b : Builder) (w : World)
    (fallback : Model) (rest : list Model) :
  b_retryConfig b = None → b_validators b = [] →
  b_fallbacks b = fallback :: rest →
  failsFor (b_model b) → answersFor fallback →
  ∃ resp,
    answerOf fallback resp
    ∧ rm_Error (SendWithMeta b w).1 = None
    ∧ rm_Model (SendWithMeta b w).1 = fallback
    ∧ rm_Content (SendWithMeta b w).1 = pr_Content resp
    ∧ rm_ResponsesOutput (SendWithMeta b w).1 = pr_ResponsesOutput resp
    ∧ rm_Retries (SendWithMeta b w).1 = Z.max 0 (b_maxRetries b)
    ∧ sentModels (trace (SendWithMeta b w).2)
      = sentModels (trace w)
        ++ replicate (S (Z.to_nat (b_maxRetries b))) (b_model b) ++ [fallback].
Proof.
  intros Hconfig Hvalidators Hchain Hfails Hanswers.
  pose proof (SendWithMeta_of_loop b w) as Hcall.
  destruct (enter b w) as [[[start oldDebug] client] w0]. cbn [fst snd] in Hcall.
  cbn zeta in Hcall. destruct Hcall as (Henter & Htrace & Hout).
  destruct (tryModel_exhausts b (buildMessages b) start client (getContext b)
              (b_model b) 0 w0 Hconfig Hfails)
    as (err & w1 & Hprimary & Hsent1 & _ & _).
  destruct (tryModel_answers b (buildMessages b) start client (getContext b)
              fallback (0 + Z.max 0 (b_maxRetries b)) w1
              Hconfig Hvalidators Hanswers)
    as (meta & resp & w2 & Hfallback & Hsent2 & _ & Hanswer & Herror & Hmodel
        & Hcontent & _ & Houtput & Hcount).
  assert (tryModels b (buildMessages b) start client (getContext b)
            (b_model b :: b_fallbacks b) None 0 w0 = (inl meta, w2)) as Hloop.
  { rewrite Hchain. cbn [tryModels]. rewrite bind_run, Hprimary. cbn [fst snd].
    rewrite bind_run, Hfallback. reflexivity. }
  rewrite Hloop in Htrace, Hout. cbn [fst snd] in Htrace, Hout.
  rewrite Hout, Htrace, Hsent2, Hsent1, Henter, <- app_assoc.
  exists resp. repeat split; first [assumption | reflexivity | lia].
Qed.

(** While the nanosecond count fits [int64], that is up to retry 303700,
    the back-off is [100 * k * k] milliseconds. *)
Lemma backoff_fits (k : Z) :
  0 ≤ k ≤ 303700 → backoff k = k * k * 100 * Millisecond.
Proof.
  intros Hk. unfold backoff, wrap64, Millisecond.
  assert (0 ≤ k * k ≤ 303700 * 303700) as Hsquare by nia.
  rewrite (Z.mod_small (k * k + 2 ^ 63)) by lia.
  replace (k * k + 2 ^ 63 - 2 ^ 63) with (k * k) by lia.
  rewrite (Z.mod_small (k * k * 100 + 2 ^ 63)) by lia.
  replace (k * k * 100 + 2 ^ 63 - 2 ^ 63) with (k * k * 100) by lia.
  rewrite Z.mod_small by lia. lia.
Qed.

Lemma backoffSchedule_fits (maxRetries : Z) :
  maxRetries ≤ 303700 →
  backoffSchedule maxRetries
  = (λ k, k * k * 100 * Millisecond) <$> seqZ 1 maxRetries.
Proof.
  intros Hbound. unfold backoffSchedule.
  apply list_fmap_ext. intros i k Hk.
  apply lookup_seqZ in Hk. apply backoff_fits. lia.
Qed.

(** X14. With a provider that fails every request and no smart policy, the
    call sleeps the quadratic back-off schedule once for every model of the
    chain, in order: before retry [k] of a model ([k] from 1 to
    [maxRetries]) it sleeps
    [time.Duration(k*k) * 100 * time.Millisecond], it does not sleep before
    the first attempt of a model, and the schedule starts again from retry 1
    for each fallback. With [maxRetries] up to 303700 these durations are
    [100 * k * k] milliseconds; the duration is a count of nanoseconds on
    [int64], which has wrapped around to a negative count at retry 303701.
    Every model gets [maxRetries + 1] attempts (one when [maxRetries] is not
    positive) and the retries add up over the chain. *)
Theorem SendWithMeta_backoff_schedule (b : Builder) (w : World) :
  alwaysFails → b_retryConfig b = None →
  sleeps (trace (SendWithMeta b w).2)
  = sleeps (trace w)
    ++ ((b_model b :: b_fallbacks b) ≫= λ _, backoffSchedule (b_maxRetries b))
  ∧ (b_maxRetries b ≤ 303700 →
     backoffSchedule (b_maxRetries b)
     = (λ k, k * k * 100 * Millisecond) <$> seqZ 1 (b_maxRetries b))
  ∧ backoff 303701 = 303701 * 303701 * 100 * Millisecond - 2 ^ 64
  ∧ sentModels (trace (SendWithMeta b w).2)
    = sentModels (trace w)
      ++ ((b_model b :: b_fallbacks b) ≫= replicate (S (Z.to_nat (b_maxRetries b))))
  ∧ rm_Retries (SendWithMeta b w).1
    = Z.of_nat (S (length (b_fallbacks b))) * Z.max 0 (b_maxRetries b)
  ∧ rm_Error (SendWithMeta b w).1 ≠ None
  ∧ rm_Model (SendWithMeta b w).1 = b_model b.
Proof.
  intros Hfails Hconfig.
  pose proof (SendWithMeta_of_loop b w) as Hcall.
  destruct (enter b w) as [[[start oldDebug] client] w0]. cbn [fst snd] in Hcall.
  cbn zeta in Hcall. destruct Hcall as (Henter & Htrace & Hout).
  destruct (tryModels_exhausts b (buildMessages b) start client (getContext b)
              Hconfig (b_model b :: b_fallbacks b) None 0 w0)
    as (lastErr & w1 & Hloop & Hsent & Hslept & Hlast).
  { intros model _ client' ctx' req e _. apply Hfails. }
  rewrite Hloop in Htrace, Hout. cbn [fst snd] in Htrace, Hout.
  destruct Hout as (Herror & Hretries & Hmodel & _).
  rewrite Htrace, Hslept, Hsent, Henter, Herror, Hretries, Hmodel.
  split; [reflexivity |].
  split; [apply backoffSchedule_fits |].
  split; [vm_compute; reflexivity |].
  repeat split; first [reflexivity | cbn [length]; lia | apply Hlast; discriminate].
Qed.

(** X15. Without any retry policy (no smart policy, [maxRetries] zero or
    negative) and whatever the provider answers, every model of the chain is
    tried at most once and in chain order: the attempts are made for a
    non-empty initial stretch of the chain, nothing sleeps, and the retry
    count that is returned is zero. *)
Theorem SendWithMeta_single_attempt_without_policy (b : Builder) (w : World) :
  b_retryConfig b = None → b_maxRetries b ≤ 0 →
  ∃ k : nat,
    (0 < k ≤ S (length (b_fallbacks b)))%nat
    ∧ sentModels (trace (SendWithMeta b w).2)
      = sentModels (trace w) ++ take k (b_model b :: b_fallbacks b)
    ∧ sleeps (trace (SendWithMeta b w).2) = sleeps (trace w)
    ∧ rm_Retries (SendWithMeta b w).1 = 0.
Proof.
  intros Hconfig Hretries.
  pose proof (SendWithMeta_of_loop b w) as Hcall.
  destruct (enter b w) as [[[start oldDebug] client] w0]. cbn [fst snd] in Hcall.
  cbn zeta in Hcall. destruct Hcall as (Henter & Htrace & Hout).
  destruct (tryModels_once b (buildMessages b) start client (getContext b)
              Hconfig Hretries (b_model b :: b_fallbacks b) None 0 w0)
    as (k & Hk & Hsent & Hslept & Hloop).
  exists k. rewrite Htrace, Hsent, Hslept, Henter. cbn [length] in Hk.
  destruct (tryModels b (buildMessages b) start client (getContext b)
              (b_model b :: b_fallbacks b) None 0 w0).1
    as [meta | [lastErr totalRetries]].
  - subst meta. destruct Hloop as [Hcount Hpos].
    repeat split; first [assumption | reflexivity | lia].
  - destruct Hloop as [-> ->]. destruct Hout as (_ & Hcount & _).
    repeat split; first [assumption | reflexivity | cbn [length]; lia].
Qed.

End OrchestratorOutcomes.

Lemma SendWithMeta_gate_before_every_attempt_witness :
  ∃ events,
    trace (@SendWithMeta SampleWorld.opaque
             (SampleWorld.collaborators (SampleWorld.downFor "gpt" "hello"))
             (SampleWorld.builder "gpt" ["claude"] 2 []) SampleWorld.world0).2
    = events
    ∧ gateBeforeEverySend events
    ∧ sentModels events = ["gpt"; "gpt"; "gpt"; "claude"].
Proof.
  destruct (proj1 (@SendWithMeta_gate_before_every_attempt SampleWorld.opaque
                     (SampleWorld.collaborators (SampleWorld.downFor "gpt" "hello"))
                     (SampleWorld.builder "gpt" ["claude"] 2 [])
                     SampleWorld.world0) eq_refl)
    as (events & Hevents & Hgated).
  exists events. split; [exact Hevents |]. split; [exact Hgated |].
  vm_compute in Hevents. subst events. reflexivity.
Defined.

Lemma SendWithMeta_tracks_exactly_successes_witness :
  rm_Model <$> trackedMetas
    (trace (@SendWithMeta SampleWorld.opaque
              (SampleWorld.collaborators (SampleWorld.downFor "gpt" "hello"))
              (SampleWorld.builder "gpt" ["claude"] 2 []) SampleWorld.world0).2)
  = ["claude"]
  ∧ trackedMetas
      (trace (@SendWithMeta SampleWorld.opaque
                (SampleWorld.collaborators SampleWorld.unreachable)
                (SampleWorld.builder "gpt" ["claude"] 2 []) SampleWorld.world0).2)
    = [].
Proof.
  split.
  - rewrite (@SendWithMeta_tracks_exactly_successes SampleWorld.opaque
               (SampleWorld.collaborators (SampleWorld.downFor "gpt" "hello"))
               (SampleWorld.builder "gpt" ["claude"] 2 []) SampleWorld.world0 eq_refl).
    vm_compute. reflexivity.
  - rewrite (@SendWithMeta_tracks_exactly_successes SampleWorld.opaque
               (SampleWorld.collaborators SampleWorld.unreachable)
               (SampleWorld.builder "gpt" ["claude"] 2 []) SampleWorld.world0 eq_refl).
    vm_compute. reflexivity.
Defined.

Lemma SendWithMeta_silent_without_Debug_witness :
  ∃ events,
    trace (@SendWithMeta SampleWorld.opaque
             (SampleWorld.collaborators (SampleWorld.downFor "gpt" "hello"))
             (SampleWorld.builder "gpt" ["claude"] 1 []) SampleWorld.world0).2
    = events
    ∧ Forall (λ e, isDiagnostic e = false) events.
Proof.
  apply (@SendWithMeta_silent_without_Debug SampleWorld.opaque
           (SampleWorld.collaborators (SampleWorld.downFor "gpt" "hello"))
           (SampleWorld.builder "gpt" ["claude"] 1 []) SampleWorld.world0);
    reflexivity.
Defined.

Lemma SendWithMeta_fallback_answers_witness :
  rm_Model (@SendWithMeta SampleWorld.opaque
              (SampleWorld.collaborators (SampleWorld.downFor "gpt" "hello"))
              (SampleWorld.builder "gpt" ["claude"; "gemini"] 2 [])
              SampleWorld.world0).1 = "claude"
  ∧ rm_Retries (@SendWithMeta SampleWorld.opaque
                  (SampleWorld.collaborators (SampleWorld.downFor "gpt" "hello"))
                  (SampleWorld.builder "gpt" ["claude"; "gemini"] 2 [])
                  SampleWorld.world0).1 = 2
  ∧ sentModels
      (trace (@SendWithMeta SampleWorld.opaque
                (SampleWorld.collaborators (SampleWorld.downFor "gpt" "hello"))
                (SampleWorld.builder "gpt" ["claude"; "gemini"] 2 [])
                SampleWorld.world0).2)
    = ["gpt"; "gpt"; "gpt"; "claude"].
Proof.
  destruct (@SendWithMeta_fallback_answers SampleWorld.opaque
              (SampleWorld.collaborators (SampleWorld.downFor "gpt" "hello"))
              (SampleWorld.builder "gpt" ["claude"; "gemini"] 2 [])
              SampleWorld.world0 "claude" ["gemini"])
    as (resp & _ & _ & Hmodel & _ & _ & Hretries & Hsent).
  - reflexivity.
  - reflexivity.
  - reflexivity.
  - intros client ctx req e Hreq. eexists _, _. cbn.
    unfold SampleWorld.downFor. cbn in Hreq. rewrite Hreq. reflexivity.
  - intros client ctx req e Hreq. eexists _, _. cbn.
    unfold SampleWorld.downFor. rewrite Hreq. reflexivity.
  - rewrite Hmodel, Hretries, Hsent. repeat split; reflexivity.
Defined.

Lemma SendWithMeta_backoff_schedule_witness :
  sleeps (trace (@SendWithMeta SampleWorld.opaque
                   (SampleWorld.collaborators SampleWorld.unreachable)
                   (SampleWorld.builder "gpt" ["claude"] 3 [])
                   SampleWorld.world0).2)
  = (λ ms, ms * Millisecond) <$> [100; 400; 900; 100; 400; 900].
Proof.
  destruct (@SendWithMeta_backoff_schedule SampleWorld.opaque
              (SampleWorld.collaborators SampleWorld.unreachable)
              (SampleWorld.builder "gpt" ["claude"] 3 []) SampleWorld.world0)
    as (Hslept & Hfits & _).
  - intros client ctx req e. eexists _, _. reflexivity.
  - reflexivity.
  - rewrite Hslept, Hfits by (cbn; lia). reflexivity.
Defined.

Lemma SendWithMeta_single_attempt_without_policy_witness :
  ∃ k : nat,
    (0 < k ≤ 3)%nat
    ∧ sentModels
        (trace (@SendWithMeta SampleWorld.opaque
                  (SampleWorld.collaborators (SampleWorld.downFor "gpt" "hello"))
                  (SampleWorld.builder "gpt" ["claude"; "gemini"] 0 [])
                  SampleWorld.world0).2)
      = take k ["gpt"; "claude"; "gemini"]
    ∧ rm_Retries (@SendWithMeta SampleWorld.opaque
                    (SampleWorld.collaborators (SampleWorld.downFor "gpt" "hello"))
                    (SampleWorld.builder "gpt" ["claude"; "gemini"] 0 [])
                    SampleWorld.world0).1 = 0.
Proof.
  destruct (@SendWithMeta_single_attempt_without_policy SampleWorld.opaque
              (SampleWorld.collaborators (SampleWorld.downFor "gpt" "hello"))
              (SampleWorld.builder "gpt" ["claude"; "gemini"] 0 [])
              SampleWorld.world0)
    as (k & Hk & Hsent & _ & Hretries).
  - reflexivity.
  - cbn. lia.
  - exists k. auto.
Defined.

(** ** Built-in tools: from the builder methods to the wire *)

Section ToolEntriesStored.
Implicit Types (tool : gmap string wireValue) (k : string).

Lemma setString_self k s tool :
  setString k s tool !! k = if String.eqb s "" then tool !! k else Some (WString s).
Proof.
  unfold setString. destruct (String.eqb s ""); cbn [negb]; [reflexivity |].
  apply lookup_insert_eq.
Qed.

Lemma setInt_self k n tool :
  setInt k n tool !! k = if 0 <? n then Some (WInt n) else tool !! k.
Proof.
  unfold setInt. destruct (0 <? n); [apply lookup_insert_eq | reflexivity].
Qed.

Lemma setStrings_self k l tool :
  setStrings k l tool !! k
  = if (0 <? length l)%nat then Some (WStrings l) else tool !! k.
Proof.
  unfold setStrings. destruct (0 <? length l)%nat;
    [apply lookup_insert_eq | reflexivity].
Qed.

Lemma setNonNil_self {A} k (inj : A → wireValue) (x : option A) tool :
  setNonNil k inj x tool !! k = match x with Some a => Some (inj a) | None => tool !! k end.
Proof.
  unfold setNonNil. destruct x; [apply lookup_insert_eq | reflexivity].
Qed.

End ToolEntriesStored.

(** The entry under the key of a conditional assignment, read through the
    assignments to other keys that follow it. *)
Ltac own_assignment :=
  skip_assignments;
  first [rewrite setString_self | rewrite setInt_self
        | rewrite setStrings_self | rewrite setNonNil_self].

(** X16. What [buildBuiltinTool] keeps and what it drops of the fields of
    a tool's own tag. A field whose content is not empty reaches the wire
    object under its key, with its content, unless it is a negative number;
    a negative number is dropped exactly as zero is, so a number is on the
    wire only when it is positive. *)
Theorem buildBuiltinTool_keeps_own_fields (bt : BuiltinTool) (k : string)
    (f : BuiltinTool → fieldContent) :
  bt_Type bt ∈ recognizedTags →
  (k, f) ∈ tagFields (bt_Type bt) →
  (isZero (f bt) = false → negativeNumber (f bt) = false →
   buildBuiltinTool bt !! k = onWire (f bt))
  ∧ (negativeNumber (f bt) = true → buildBuiltinTool bt !! k = None).
Proof.
  intros Htag Hin. apply recognizedTags_cases in Htag.
  unfold buildBuiltinTool.
  destruct Htag as [Ht | [Ht | [Ht | [Ht | [Ht | [Ht | [Ht | Ht]]]]]]];
    rewrite !Ht in *; cbn [String.eqb Ascii.eqb Bool.eqb tagFields] in *; cbn zeta.
  all: repeat (apply elem_of_cons in Hin as [[= -> ->] | Hin];
               [ cbn [isZero negativeNumber onWire]; own_assignment;
                 split;
                 [ intros Hzero Hneg | intros Hneg ]
               |]).
  all: try (apply elem_of_nil in Hin; contradiction).
  all: try discriminate Hneg.
  all: try (match goal with
            | |- context [String.eqb ?s ""] => rewrite Hzero; reflexivity
            end).
  all: try (match goal with
            | Hz : (?n =? 0) = false, Hn : (?n <? 0) = false |- _ =>
                apply Z.eqb_neq in Hz; apply Z.ltb_ge in Hn;
                replace (0 <? n) with true by (symmetry; apply Z.ltb_lt; lia);
                reflexivity
            | Hn : (?n <? 0) = true |- _ =>
                apply Z.ltb_lt in Hn;
                replace (0 <? n) with false by (symmetry; apply Z.ltb_ge; lia);
                skip_assignments; apply lookup_singleton_ne; discriminate
            end).
  all: try (match goal with
            | Hz : (length ?l =? 0)%nat = false |- _ =>
                destruct l; [discriminate Hz | reflexivity]
            end).
  all: try (match goal with
            | Hz : bool_decide (?x = None) = false |- _ =>
                destruct x; [reflexivity | discriminate Hz]
            end).
Qed.

Section BuilderToolFacts.
Context `{Opaque}.

Lemma added_appendBuiltinTool (b : Builder) (tool : BuiltinTool) :
  added (appendBuiltinTool b tool) = Some tool.
Proof. unfold added, appendBuiltinTool. cbn [b_builtinTools]. apply last_snoc. Qed.

(** A field listed for a tag other than the tool's own. *)
Ltac foreign_field Hin Hne :=
  unfold tagFields in Hin;
  repeat match type of Hin with
         | context [String.eqb ?tag ?s] =>
             destruct (String.eqb_spec tag s) as [-> | ?]
         end;
  try (exfalso; apply Hne; reflexivity);
  repeat (apply elem_of_cons in Hin as [[= -> ->] | Hin]; [reflexivity |]);
  apply elem_of_nil in Hin; contradiction.

(** X17. Each of the fifteen builder methods for built-in tools appends
    exactly one tool to the tools already configured and changes nothing
    else that a request is built from; the tool has one of the eight tags
    that [buildBuiltinTool] knows, and every field that belongs to another
    tag is left empty, so the translation to the wire never meets a
    builder-made tool with an unknown tag or with a field of a foreign
    tag. *)
Theorem tool_methods_add_one_recognized_tool (m : toolMethod) (b : Builder) :
  ∃ tool,
    b_builtinTools (call m b) = b_builtinTools b ++ [tool]
    ∧ added (call m b) = Some tool
    ∧ HasBuiltinTools (call m b) = true
    ∧ bt_Type tool ∈ recognizedTags
    ∧ (∀ tag k f, (k, f) ∈ tagFields tag → tag ≠ bt_Type tool →
                  isZero (f tool) = true)
    ∧ (∀ msgs model,
         requestFor (call m b) msgs model
         = let req := requestFor b msgs model in
           {| req_Model := req_Model req; req_Messages := req_Messages req;
              req_Temperature := req_Temperature req;
              req_Thinking := req_Thinking req; req_Tools := req_Tools req;
              req_BuiltinTools := req_BuiltinTools req ++ [tool];
              req_JSONMode := req_JSONMode req; req_Stream := req_Stream req |})
    ∧ b_model (call m b) = b_model b
    ∧ b_fallbacks (call m b) = b_fallbacks b
    ∧ b_maxRetries (call m b) = b_maxRetries b
    ∧ b_retryConfig (call m b) = b_retryConfig b
    ∧ b_validators (call m b) = b_validators b.
Proof.
  destruct m; cbn [call];
    unfold WebSearch, WebSearchWith, FileSearch, FileSearchWith, CodeInterpreter,
      CodeInterpreterWith, MCP, MCPWith, MCPConnector, ImageGeneration,
      ImageGenerationWith, ComputerUseWith, ComputerUse, Shell, ApplyPatch;
    cbn zeta;
    (eexists; split; [reflexivity |]);
    (split; [apply added_appendBuiltinTool |]);
    (split; [unfold HasBuiltinTools; cbn [appendBuiltinTool b_builtinTools];
             rewrite length_app; cbn [length]; apply Nat.ltb_lt; lia |]);
    (split; [cbn [bt_Type]; unfold recognizedTags;
             repeat first [apply list_elem_of_here | apply list_elem_of_further] |]);
    (split; [intros tag k f Hin Hne; cbn [bt_Type] in Hne; foreign_field Hin Hne |]);
    (split; [intros msgs model; reflexivity |]);
    repeat split.
Qed.

(** X18. An MCP tool made by the builder always carries [require_approval]
    on the wire: [never] from [MCP] and [MCPConnector], and from [MCPWith]
    the option when it is set and [never] when it is empty. [MCP] is
    [MCPWith] with a label and a URL, and [MCPConnector] is [MCPWith] with a
    label, a connector and an authorization; a connector tool has no
    [server_url] on the wire. *)
Theorem MCP_tools_carry_require_approval (b : Builder) (opts : MCPOptions) :
  (∃ tool,
     added (MCPWith b opts) = Some tool
     ∧ buildBuiltinTool tool !! "type" = Some (WString "mcp")
     ∧ buildBuiltinTool tool !! "require_approval"
       = Some (WAny (AnyString (if String.eqb (mcp_RequireApproval opts) ""
                                then "never" else mcp_RequireApproval opts))))
  ∧ (∀ label url,
       MCP b label url
       = MCPWith b {| mcp_Label := label; mcp_URL := url; mcp_ConnectorID := "";
                      mcp_Description := ""; mcp_Authorization := "";
                      mcp_RequireApproval := ""; mcp_AllowedTools := [] |})
  ∧ (∀ label connectorID authToken,
       MCPConnector b label connectorID authToken
       = MCPWith b {| mcp_Label := label; mcp_URL := "";
                      mcp_ConnectorID := connectorID; mcp_Description := "";
                      mcp_Authorization := authToken; mcp_RequireApproval := "";
                      mcp_AllowedTools := [] |}
       ∧ ∃ tool,
           added (MCPConnector b label connectorID authToken) = Some tool
           ∧ buildBuiltinTool tool !! "server_url" = None).
Proof.
  split; [| split].
  - unfold MCPWith. cbn zeta. eexists. split; [apply added_appendBuiltinTool |].
    split; [apply buildBuiltinTool_discriminator |].
    unfold buildBuiltinTool. cbn [bt_Type String.eqb Ascii.eqb Bool.eqb]. cbn zeta.
    own_assignment. cbn [bt_RequireApproval].
    destruct (String.eqb (mcp_RequireApproval opts) ""); reflexivity.
  - intros label url. reflexivity.
  - intros label connectorID authToken. split; [reflexivity |].
    unfold MCPConnector. eexists. split; [apply added_appendBuiltinTool |].
    unfold buildBuiltinTool. cbn [bt_Type String.eqb Ascii.eqb Bool.eqb]. cbn zeta.
    own_assignment. cbn [bt_ServerURL String.eqb].
    skip_assignments. apply lookup_singleton_ne. discriminate.
Qed.

(** X19. A code interpreter tool made by the builder always carries a
    [container] on the wire, and nothing else besides the discriminator: the
    container ID when [CodeInterpreterWith] is given one, in which case the
    memory limit and the file IDs of the options are not sent at all, and
    otherwise an [auto] container with the memory limit and the file IDs.
    [CodeInterpreter] is [CodeInterpreterWith] without options. *)
Theorem CodeInterpreter_tools_carry_container (b : Builder)
    (opts : CodeInterpreterOptions) :
  (∃ tool,
     added (CodeInterpreterWith b opts) = Some tool
     ∧ buildBuiltinTool tool
       = <["container" :=
             WAny (if String.eqb (cio_ContainerID opts) ""
                   then AnyContainerConfig
                          {| cc_Type := "auto";
                             cc_MemoryLimit := cio_MemoryLimit opts;
                             cc_FileIDs := cio_FileIDs opts |}
                   else AnyString (cio_ContainerID opts))]>
           {[ "type" := WString "code_interpreter" ]})
  ∧ CodeInterpreter b
    = CodeInterpreterWith b {| cio_ContainerID := ""; cio_MemoryLimit := "";
                               cio_FileIDs := [] |}.
Proof.
  split; [| reflexivity].
  unfold CodeInterpreterWith. cbn zeta. eexists.
  split; [apply added_appendBuiltinTool |].
  unfold buildBuiltinTool. cbn [bt_Type String.eqb Ascii.eqb Bool.eqb]. cbn zeta.
  cbn [bt_Container]. destruct (String.eqb (cio_ContainerID opts) ""); reflexivity.
Qed.

(** X20. A web search tool made by [WebSearchWith] carries a
    [user_location] on the wire exactly when one of the four location
    options is set, always of type [approximate] and with the four options
    as given, and [filters] exactly when a domain is allowed; [WebSearch] is
    [WebSearchWith] without options, which sends the discriminator alone. *)
Theorem WebSearchWith_location_and_filters (b : Builder) (opts : WebSearchOptions) :
  (∃ tool,
     added (WebSearchWith b opts) = Some tool
     ∧ buildBuiltinTool tool !! "user_location"
       = (if String.eqb (wso_Country opts) "" && String.eqb (wso_City opts) ""
             && String.eqb (wso_Region opts) "" && String.eqb (wso_Timezone opts) ""
          then None
          else Some (WUserLocation
                       {| ul_Type := "approximate"; ul_Country := wso_Country opts;
                          ul_City := wso_City opts; ul_Region := wso_Region opts;
                          ul_Timezone := wso_Timezone opts |}))
     ∧ buildBuiltinTool tool !! "filters"
       = match wso_AllowedDomains opts with
         | [] => None
         | domains => Some (WSearchFilter {| sf_AllowedDomains := domains |})
         end)
  ∧ WebSearch b
    = WebSearchWith b {| wso_Country := ""; wso_City := ""; wso_Region := "";
                         wso_Timezone := ""; wso_AllowedDomains := [] |}
  ∧ (∃ tool, added (WebSearch b) = Some tool
             ∧ buildBuiltinTool tool = {[ "type" := WString "web_search" ]}).
Proof.
  split; [| split; [reflexivity |]].
  - unfold WebSearchWith. cbn zeta. eexists.
    split; [apply added_appendBuiltinTool |].
    unfold buildBuiltinTool. cbn [bt_Type String.eqb Ascii.eqb Bool.eqb]. cbn zeta.
    cbn [bt_UserLocation bt_SearchFilter]. split.
    + own_assignment.
      destruct (String.eqb (wso_Country opts) ""), (String.eqb (wso_City opts) ""),
        (String.eqb (wso_Region opts) ""), (String.eqb (wso_Timezone opts) "");
        cbn [negb orb andb]; first [reflexivity | apply lookup_singleton_ne; discriminate].
    + rewrite setNonNil_self.
      destruct (wso_AllowedDomains opts) as [| domain domains]; cbn [length Nat.ltb Nat.leb].
      * rewrite setNonNil_other by discriminate. apply lookup_singleton_ne. discriminate.
      * reflexivity.
  - unfold WebSearch. eexists. split; [apply added_appendBuiltinTool |]. reflexivity.
Qed.

End BuilderToolFacts.

Lemma buildBuiltinTool_keeps_own_fields_witness :
  buildBuiltinTool sampleFileSearchTool !! "vector_store_ids"
  = Some (WStrings ["vs_1"])
  ∧ buildBuiltinTool sampleFileSearchTool !! "max_num_results" = None.
Proof.
  assert (bt_Type sampleFileSearchTool ∈ recognizedTags) as Htag
    by (apply list_elem_of_further, list_elem_of_here).
  split.
  - apply (buildBuiltinTool_keeps_own_fields sampleFileSearchTool "vector_store_ids"
             (λ bt, GoStrings (bt_VectorStoreIDs bt)) Htag).
    + apply list_elem_of_here.
    + reflexivity.
    + reflexivity.
  - apply (buildBuiltinTool_keeps_own_fields sampleFileSearchTool "max_num_results"
             (λ bt, GoInt (bt_MaxNumResults bt)) Htag).
    + apply list_elem_of_further, list_elem_of_here.
    + reflexivity.
Defined.

Lemma tool_methods_add_one_recognized_tool_witness :
  ∃ tool,
    added (call (CallMCP "dice" "https://example.com/mcp")
             (SampleWorld.builder "gpt" [] 0 [])) = Some tool
    ∧ bt_Type tool ∈ recognizedTags
    ∧ isZero (GoInt (bt_DisplayWidth tool)) = true.
Proof.
  destruct (@tool_methods_add_one_recognized_tool SampleWorld.opaque
              (CallMCP "dice" "https://example.com/mcp")
              (SampleWorld.builder "gpt" [] 0 []))
    as (tool & _ & Hadded & _ & Htag & Hforeign & _).
  exists tool. split; [exact Hadded |]. split; [exact Htag |].
  apply (Hforeign "computer_use_preview" "display_width"
           (λ bt, GoInt (bt_DisplayWidth bt))).
  - apply list_elem_of_here.
  - vm_compute in Hadded. injection Hadded as <-. discriminate.
Defined.

(** ** The OpenAI provider *)

Section ProviderFacts.
Context `{Opaque} `{ModelConstants} `{EncodingJSON} `{!MessageView}
        `{!ThinkingLevels} `{!Libraries}.

(** X21. Without an API key neither [Send] nor [SendStream] touches the
    network: both return the error [OPENAI_API_KEY not set] with the state
    of the network as it was, no request is marshalled or sent, nothing is
    printed and the callback is not called. [NewOpenAIProvider] keeps a key
    given in the configuration, falls back to the environment variable
    otherwise, and so yields a provider without key exactly when both are
    empty. *)
Theorem provider_without_API_key :
  (∀ p debug ctx req n,
     cfg_APIKey (config p) = "" →
     providerSend p debug ctx req n
     = (Err (providerError "OPENAI_API_KEY not set" None), n, [])
     ∧ SendStream p debug ctx req n
       = (Err (providerError "OPENAI_API_KEY not set" None), n, []))
  ∧ (∀ cfg,
       cfg_APIKey (config (NewOpenAIProvider cfg))
       = (if String.eqb (cfg_APIKey cfg) "" then Getenv "OPENAI_API_KEY"
          else cfg_APIKey cfg)
       ∧ (cfg_APIKey (config (NewOpenAIProvider cfg)) = ""
          ↔ cfg_APIKey cfg = "" ∧ Getenv "OPENAI_API_KEY" = "")).
Proof.
  split.
  - intros p debug ctx req n Hkey. unfold providerSend, SendStream.
    rewrite Hkey. split; reflexivity.
  - intros cfg. split; [reflexivity |].
    unfold NewOpenAIProvider. cbn [config cfg_APIKey].
    destruct (String.eqb_spec (cfg_APIKey cfg) "") as [Hkey | Hkey].
    + rewrite Hkey. tauto.
    + tauto.
Qed.

(** The request that [exchange] sends. *)
Lemma exchange_inversion (p : OpenAIProvider) (debug : bool) (ctx : GoContext)
    (path body : string) (parse : string → result ProviderResponse ProviderError)
    (n n' : Net) (resp : ProviderResponse) (events : list providerEvent) :
  exchange p debug ctx path body parse n = (Ok resp, n', events) →
  ∃ httpReq httpResp,
    events = (if debug then [PEvPrint path false] else []) ++ [PEvDo httpReq]
    ∧ Do (httpClient p) httpReq n = (Ok httpResp, n')
    ∧ hr_Method httpReq = "POST"
    ∧ hr_URL httpReq = cfg_BaseURL (config p) +:+ path
    ∧ hr_Body httpReq = body
    ∧ failure (Body httpResp) = None
    ∧ parse (arriving (Body httpResp)) = Ok resp.
Proof.
  unfold exchange.
  destruct (requestError ctx "POST" (cfg_BaseURL (config p) +:+ path));
    [discriminate |].
  cbn zeta. set (httpReq := setHeaders p _).
  destruct (Do (httpClient p) httpReq n) as [[httpResp | err] n1] eqn:Hdo;
    [| discriminate].
  unfold ReadAll. destruct (failure (Body httpResp)) eqn:Hfailure; [discriminate |].
  intros [= Hparse <- <-]. exists httpReq, httpResp. auto 10.
Qed.

(** X22. A successful [Send] has made exactly one HTTP exchange, a POST
    whose body is the marshalled request: to [/responses] when the request
    has built-in tools, to [/chat/completions] otherwise. The response comes
    from the decoder of that API, so it has a [ResponsesOutput] exactly when
    the request had built-in tools. *)
Theorem providerSend_success (p : OpenAIProvider) (debug : bool) (ctx : GoContext)
    (req : ProviderRequest) (n n' : Net) (resp : ProviderResponse)
    (events : list providerEvent) :
  providerSend p debug ctx req n = (Ok resp, n', events) →
  ∃ httpReq httpResp,
    exchanges events = [httpReq]
    ∧ callbacks events = []
    ∧ Do (httpClient p) httpReq n = (Ok httpResp, n')
    ∧ hr_Method httpReq = "POST"
    ∧ (pr_ResponsesOutput resp ≠ None ↔ req_BuiltinTools req ≠ [])
    ∧ match req_BuiltinTools req with
      | [] =>
          hr_URL httpReq = cfg_BaseURL (config p) +:+ "/chat/completions"
          ∧ Marshal_openAIRequest (buildRequest req) = Ok (hr_Body httpReq)
          ∧ parseResponse (arriving (Body httpResp)) = Ok resp
      | _ :: _ =>
          hr_URL httpReq = cfg_BaseURL (config p) +:+ "/responses"
          ∧ Marshal_responsesRequest (responsesRequestOf req) = Ok (hr_Body httpReq)
          ∧ parseResponsesResponse (arriving (Body httpResp)) = Ok resp
      end.
Proof.
  unfold providerSend.
  destruct (String.eqb (cfg_APIKey (config p)) ""); [discriminate |].
  assert (∀ path httpReq,
            exchanges ((if debug then [PEvPrint path false] else [])
                       ++ [PEvDo httpReq]) = [httpReq]
            ∧ callbacks ((if debug then [PEvPrint path false] else [])
                         ++ [PEvDo httpReq]) = []) as Hevents
    by (intros path httpReq; destruct debug; split; reflexivity).
  destruct (req_BuiltinTools req) as [| bt bts] eqn:Htools; cbn [length Nat.ltb Nat.leb].
  - destruct (Marshal_openAIRequest (buildRequest req)) as [body | err] eqn:Hbody;
      [| discriminate].
    intros (httpReq & httpResp & -> & Hdo & Hmethod & Hurl & <- & _ & Hparse)
             %exchange_inversion.
    destruct (Hevents "/chat/completions" httpReq) as [Hsent Hcalled].
    exists httpReq, httpResp. repeat split; try assumption.
    + intros Houtput. exfalso. apply Houtput.
      eapply parseResponse_without_output. exact Hparse.
    + intros Hne. contradiction.
  - unfold sendResponses.
    destruct (Marshal_responsesRequest (responsesRequestOf req)) as [body | err] eqn:Hbody;
      [| discriminate].
    intros (httpReq & httpResp & -> & Hdo & Hmethod & Hurl & <- & _ & Hparse)
             %exchange_inversion.
    destruct (Hevents "/responses" httpReq) as [Hsent Hcalled].
    exists httpReq, httpResp. repeat split; try assumption; try discriminate.
    intros _.
    destruct (parseResponsesResponse_with_output _ _ Hparse) as (out & -> & _).
    discriminate.
Qed.

End ProviderFacts.

(** ** The OpenAI provider: streaming *)

Lemma noNewline_cons (c : ascii) (s : string) :
  noNewline (String c s) ↔ Ascii.eqb c (ascii_of_nat 10) = false ∧ noNewline s.
Proof. apply IndexByte_absent_cons. Qed.

Lemma ReadBytes_tail (tail : string) : noNewline tail → ReadBytes tail = ([], tail).
Proof.
  induction tail as [| c tail IH]; [reflexivity |].
  intros [Hc Htail]%noNewline_cons. cbn [ReadBytes].
  rewrite (IH Htail), Hc. reflexivity.
Qed.

Lemma ReadBytes_line (line s : string) :
  isLine line →
  ReadBytes (line +:+ s) = (line :: (ReadBytes s).1, (ReadBytes s).2).
Proof.
  intros (text & -> & Htext). induction text as [| c text IH].
  - change (("" +:+ newline) +:+ s) with (String (ascii_of_nat 10) s).
    cbn [ReadBytes]. destruct (ReadBytes s) as [lines rest].
    rewrite Ascii.eqb_refl. reflexivity.
  - apply noNewline_cons in Htext as [Hc Htext].
    rewrite !append_cons. cbn [ReadBytes]. rewrite (IH Htext), Hc. reflexivity.
Qed.

Lemma written_app (l1 l2 : list string) :
  written (l1 ++ l2) = written l1 +:+ written l2.
Proof.
  induction l1 as [| s l1 IH]; [reflexivity |].
  cbn [app written foldr]. fold (written (l1 ++ l2)) (written l1).
  rewrite IH, append_assoc. reflexivity.
Qed.

Lemma ReadBytes_lines (lines : list string) (s : string) :
  Forall isLine lines →
  ReadBytes (written lines +:+ s) = (lines ++ (ReadBytes s).1, (ReadBytes s).2).
Proof.
  induction 1 as [| line lines Hline _ IH].
  - change (written [] +:+ s) with s. destruct (ReadBytes s); reflexivity.
  - cbn [written foldr]. fold (written lines).
    rewrite append_assoc, (ReadBytes_line line _ Hline), IH. reflexivity.
Qed.

(** A string that starts with a prefix is the prefix followed by what
    [TrimPrefix] leaves. *)
Lemma HasPrefix_split (s p : string) :
  HasPrefix s p = true → s = p +:+ TrimPrefix s p.
Proof.
  intros Hprefix. unfold TrimPrefix. rewrite Hprefix. clear -Hprefix. revert s Hprefix.
  induction p as [| a p IH]; intros s Hprefix; [reflexivity |].
  destruct s as [| c s]; [discriminate |].
  rewrite HasPrefix_cons in Hprefix. apply andb_true_iff in Hprefix as [Hac Hprefix].
  apply Ascii.eqb_eq in Hac as ->.
  rewrite append_cons. cbn [String.length sliceFrom]. f_equal. auto.
Qed.

Section StreamFacts.
Context `{Opaque} `{ModelConstants} `{EncodingJSON} `{!MessageView}
        `{!ThinkingLevels} `{!Libraries}.

(** The line that ends the stream. *)
Lemma streamLoop_DONE (line : string) (post : list string) (ending : option string)
    (acc : string) :
  TrimSpace line = "data: [DONE]" →
  streamLoop (line :: post) ending acc = (StreamDone acc, []).
Proof. intros Hline. cbn [streamLoop]. rewrite Hline. reflexivity. Qed.

Lemma streamLoop_noise (line : string) (post : list string) (ending : option string)
    (acc : string) :
  noise line → streamLoop (line :: post) ending acc = streamLoop post ending acc.
Proof.
  unfold noise. cbn zeta. intros Hnoise. cbn [streamLoop].
  destruct Hnoise as [Hprefix | (Hdata & [(err & Hchunk) | Hchunk])].
  - rewrite Hprefix. reflexivity.
  - apply String.eqb_neq in Hdata. rewrite Hdata, Hchunk.
    destruct (HasPrefix _ _); reflexivity.
  - apply String.eqb_neq in Hdata. rewrite Hdata, Hchunk.
    destruct (HasPrefix _ _); reflexivity.
Qed.

(** The loop treats its first lines alike, whatever follows them. *)
Lemma streamLoop_congruence (l1 l2 : list string) (e1 e2 : option string) :
  (∀ acc, streamLoop l1 e1 acc = streamLoop l2 e2 acc) →
  ∀ pre acc, streamLoop (pre ++ l1) e1 acc = streamLoop (pre ++ l2) e2 acc.
Proof.
  intros Hrest pre. induction pre as [| line pre IH]; intros acc; [apply Hrest |].
  cbn [app streamLoop].
  destruct (negb (HasPrefix (TrimSpace line) "data: ")); [apply IH |].
  destruct (String.eqb _ "[DONE]"); [reflexivity |].
  destruct (Unmarshal_chunk _) as [[| content contents] | err];
    rewrite ?IH; reflexivity.
Qed.

(** The content at a [break] is what the calls of [callback] were given. *)
Lemma streamLoop_written (lines : list string) (ending : option string) :
  ∀ acc full,
    (streamLoop lines ending acc).1 = StreamDone full →
    full = acc +:+ written (streamLoop lines ending acc).2.
Proof.
  induction lines as [| line lines IH]; intros acc full; cbn [streamLoop].
  - destruct ending; [discriminate |]. intros [= <-].
    cbn. rewrite append_empty_r. reflexivity.
  - destruct (negb (HasPrefix (TrimSpace line) "data: ")); [apply IH |].
    destruct (String.eqb _ "[DONE]").
    { intros [= <-]. cbn. rewrite append_empty_r. reflexivity. }
    destruct (Unmarshal_chunk _) as [[| content contents] | err]; try apply IH.
    specialize (IH (acc +:+ content) full).
    destruct (streamLoop lines ending (acc +:+ content)) as [e calls].
    cbn [fst snd] in *. intros He. rewrite (IH He).
    cbn [written foldr]. fold (written calls). apply append_assoc.
Qed.

(** A read error at the end of the body changes how the loop ends, not
    what it has passed to [callback]. *)
Lemma streamLoop_failure (lines : list string) (err : string) :
  ∀ acc,
    (streamLoop lines (Some err) acc).2 = (streamLoop lines None acc).2
    ∧ ((∀ line, line ∈ lines → TrimSpace line ≠ "data: [DONE]") →
       (streamLoop lines (Some err) acc).1 = StreamFailed err)
    ∧ ((∃ line, line ∈ lines ∧ TrimSpace line = "data: [DONE]") →
       streamLoop lines (Some err) acc = streamLoop lines None acc).
Proof.
  induction lines as [| line lines IH]; intros acc.
  - split; [reflexivity |]. split; [reflexivity |].
    intros (line & Hin & _). apply elem_of_nil in Hin. contradiction.
  - assert ((∀ l, l ∈ line :: lines → TrimSpace l ≠ "data: [DONE]") →
            ∀ l, l ∈ lines → TrimSpace l ≠ "data: [DONE]") as Htail
      by (intros Hall l Hin; apply Hall, list_elem_of_further, Hin).
    destruct (String.eqb_spec (TrimSpace line) "data: [DONE]") as [Hdone | Hline].
    { rewrite !(streamLoop_DONE line) by exact Hdone.
      split; [reflexivity |]. split; [| reflexivity].
      intros Hall. exfalso. apply (Hall line); [apply list_elem_of_here | exact Hdone]. }
    assert ((∃ l, l ∈ line :: lines ∧ TrimSpace l = "data: [DONE]") →
            ∃ l, l ∈ lines ∧ TrimSpace l = "data: [DONE]") as Hlater.
    { intros (l & [-> | Hin]%elem_of_cons & Hl); [contradiction | eauto]. }
    cbn [streamLoop].
    destruct (HasPrefix (TrimSpace line) "data: ") eqn:Hprefix; cbn [negb];
      [| destruct (IH acc) as (Hcalls & Hfail & Hsame); auto].
    destruct (String.eqb_spec (TrimPrefix (TrimSpace line) "data: ") "[DONE]")
      as [Hdata | Hdata].
    { exfalso. apply Hline. rewrite (HasPrefix_split _ _ Hprefix), Hdata. reflexivity. }
    destruct (Unmarshal_chunk _) as [[| content contents] | e];
      try solve [destruct (IH acc) as (Hcalls & Hfail & Hsame); auto].
    destruct (IH (acc +:+ content)) as (Hcalls & Hfail & Hsame).
    destruct (streamLoop lines (Some err) (acc +:+ content)) as [e1 calls1].
    destruct (streamLoop lines None (acc +:+ content)) as [e0 calls0].
    cbn [fst snd] in *. subst calls1.
    split; [reflexivity |]. split; [auto |].
    intros Hdone. specialize (Hsame (Hlater Hdone)). congruence.
Qed.

End StreamFacts.

Section ProviderOutcomes.
Context `{Opaque} `{ModelConstants} `{EncodingJSON} `{!MessageView}
        `{!ThinkingLevels} `{!Libraries}.

Lemma callbacks_called (calls : list string) :
  callbacks (PEvCallback <$> calls) = calls
  ∧ exchanges (PEvCallback <$> calls) = [].
Proof.
  induction calls as [| content calls [IHc IHe]]; [split; reflexivity |].
  split; [cbn; f_equal; exact IHc | exact IHe].
Qed.

(** The events of a call that reached the network. *)
Lemma events_of_exchange (debug : bool) (path : string) (stream : bool)
    (httpReq : httpRequest) (calls : list string) :
  let events := (if debug then [PEvPrint path stream] else [])
                ++ [PEvDo httpReq] ++ (PEvCallback <$> calls) in
  exchanges events = [httpReq] ∧ callbacks events = calls.
Proof.
  cbn zeta. unfold exchanges, callbacks. rewrite !omap_app.
  fold (exchanges (PEvCallback <$> calls)) (callbacks (PEvCallback <$> calls)).
  destruct (callbacks_called calls) as [-> ->]. destruct debug; split; reflexivity.
Qed.

Lemma events_of_plain_exchange (debug : bool) (path : string) (stream : bool)
    (httpReq : httpRequest) :
  let events := (if debug then [PEvPrint path stream] else []) ++ [PEvDo httpReq] in
  exchanges events = [httpReq] ∧ callbacks events = [].
Proof. apply (events_of_exchange debug path stream httpReq []). Qed.

(** Once the request is sent, the status of the response plays no part in
    what [exchange] returns. *)
Lemma exchange_sent (p : OpenAIProvider) (debug : bool) (ctx : GoContext)
    (path body : string) (parse : string → result ProviderResponse ProviderError)
    (n n' : Net) (httpReq : httpRequest) (httpResp : httpResponse) :
  exchanges (exchange p debug ctx path body parse n).2 = [httpReq] →
  Do (httpClient p) httpReq n = (Ok httpResp, n') →
  (exchange p debug ctx path body parse n).1.1
  = match failure (Body httpResp) with
    | Some err => Err (providerError "failed to read response" (Some err))
    | None => parse (arriving (Body httpResp))
    end.
Proof.
  unfold exchange.
  destruct (requestError ctx "POST" (cfg_BaseURL (config p) +:+ path));
    [discriminate |].
  cbn zeta. set (sent := setHeaders p _).
  destruct (events_of_plain_exchange debug path false sent) as [Hsent _].
  cbn zeta in Hsent.
  destruct (Do (httpClient p) sent n) as [[resp | err] n1] eqn:Hdo;
    [unfold ReadAll; destruct (failure (Body resp)) eqn:Hfailure |];
    cbn [fst snd]; rewrite Hsent; intros [= <-]; rewrite Hdo; intros [= <- <-];
    rewrite ?Hfailure; reflexivity.
Qed.

(** X23. The HTTP status matters only when streaming. What [Send]
    returns once the request is sent is a function of the response body
    alone, fixed before the response is known: a response with an error
    status is decoded like any other. [SendStream] turns every status other
    than 200 into an error that carries the status in decimal as its code
    and the body, as far as it could be read, as its message, and does not
    call the callback. *)
Theorem status_matters_only_when_streaming (p : OpenAIProvider) (debug : bool)
    (ctx : GoContext) (req : ProviderRequest) :
  (∃ outcome : httpBody → result ProviderResponse ProviderError,
     ∀ n n' httpReq httpResp,
       exchanges (providerSend p debug ctx req n).2 = [httpReq] →
       Do (httpClient p) httpReq n = (Ok httpResp, n') →
       (providerSend p debug ctx req n).1.1 = outcome (Body httpResp))
  ∧ (∀ n n' httpReq httpResp,
       exchanges (SendStream p debug ctx req n).2 = [httpReq] →
       Do (httpClient p) httpReq n = (Ok httpResp, n') →
       StatusCode httpResp ≠ 200 →
       (SendStream p debug ctx req n).1.1
       = Err {| pe_Provider := Name; pe_Code := pretty (StatusCode httpResp);
                pe_Message := arriving (Body httpResp); pe_Err := None |}
       ∧ callbacks (SendStream p debug ctx req n).2 = []).
Proof.
  split.
  - exists (λ body,
      match failure body with
      | Some err => Err (providerError "failed to read response" (Some err))
      | None =>
          (if (0 <? length (req_BuiltinTools req))%nat
           then parseResponsesResponse else parseResponse) (arriving body)
      end).
    intros n n' httpReq httpResp. unfold providerSend.
    destruct (String.eqb (cfg_APIKey (config p)) ""); [discriminate |].
    destruct (0 <? length (req_BuiltinTools req))%nat.
    + unfold sendResponses.
      destruct (Marshal_responsesRequest (responsesRequestOf req));
        [apply exchange_sent | discriminate].
    + destruct (Marshal_openAIRequest (buildRequest req));
        [apply exchange_sent | discriminate].
  - intros n n' httpReq httpResp. unfold SendStream.
    destruct (String.eqb (cfg_APIKey (config p)) ""); [discriminate |].
    destruct (Marshal_openAIRequest (streaming (buildRequest req))) as [body | err];
      [| discriminate].
    cbn zeta.
    destruct (requestError ctx "POST" (cfg_BaseURL (config p) +:+ "/chat/completions"));
      [discriminate |].
    set (sent := setHeaders p _).
    destruct (events_of_plain_exchange debug "/chat/completions" true sent)
      as [Hsent Hcalled]. cbn zeta in Hsent, Hcalled.
    destruct (Do (httpClient p) sent n) as [[resp | err] n1] eqn:Hdo.
    + destruct (StatusCode resp =? 200) eqn:Hstatus; cbn [negb].
      * destruct (streamResult (Body resp)) as [r calls].
        destruct (events_of_exchange debug "/chat/completions" true sent calls)
          as [Hsent' _]. cbn zeta in Hsent'. cbn [fst snd]. rewrite Hsent'.
        intros [= <-]. rewrite Hdo. intros [= <- <-] Hne.
        apply Z.eqb_eq in Hstatus. contradiction.
      * cbn [fst snd]. rewrite Hsent. intros [= <-]. rewrite Hdo.
        intros [= <- <-] _. split; [reflexivity | exact Hcalled].
    + cbn [fst snd]. rewrite Hsent. intros [= <-]. rewrite Hdo. discriminate.
Qed.

(** X24. A successful [SendStream] has made one exchange, a POST of the
    marshalled chat request with [stream] set to [/chat/completions], also
    when the request has built-in tools, and got status 200. The content it
    returns is the concatenation of what it passed to the callback, in
    order; the completion tokens and the total tokens are both a quarter of
    the length of the content, rounded down; prompt tokens, tool calls,
    finish reason and [ResponsesOutput] are left empty. *)
Theorem SendStream_success (p : OpenAIProvider) (debug : bool) (ctx : GoContext)
    (req : ProviderRequest) (n n' : Net) (resp : ProviderResponse)
    (events : list providerEvent) :
  SendStream p debug ctx req n = (Ok resp, n', events) →
  pr_Content resp = written (callbacks events)
  ∧ pr_TotalTokens resp = pr_CompletionTokens resp
  ∧ 4 * pr_CompletionTokens resp ≤ Z.of_nat (String.length (pr_Content resp))
    < 4 * pr_CompletionTokens resp + 4
  ∧ pr_PromptTokens resp = 0 ∧ pr_ToolCalls resp = []
  ∧ pr_FinishReason resp = "" ∧ pr_ResponsesOutput resp = None
  ∧ ∃ httpReq httpResp,
      exchanges events = [httpReq]
      ∧ Do (httpClient p) httpReq n = (Ok httpResp, n')
      ∧ StatusCode httpResp = 200
      ∧ hr_Method httpReq = "POST"
      ∧ hr_URL httpReq = cfg_BaseURL (config p) +:+ "/chat/completions"
      ∧ Marshal_openAIRequest (streaming (buildRequest req)) = Ok (hr_Body httpReq).
Proof.
  unfold SendStream.
  destruct (String.eqb (cfg_APIKey (config p)) ""); [discriminate |].
  destruct (Marshal_openAIRequest (streaming (buildRequest req))) as [body | err];
    [| discriminate].
  cbn zeta.
  destruct (requestError ctx "POST" (cfg_BaseURL (config p) +:+ "/chat/completions"));
    [discriminate |].
  set (sent := setHeaders p _).
  destruct (Do (httpClient p) sent n) as [[httpResp | err] n1] eqn:Hdo;
    [| discriminate].
  destruct (StatusCode httpResp =? 200) eqn:Hstatus; cbn [negb]; [| discriminate].
  apply Z.eqb_eq in Hstatus.
  destruct (streamResult (Body httpResp)) as [r calls] eqn:Hresult.
  intros [= -> <- <-].
  destruct (events_of_exchange debug "/chat/completions" true sent calls)
    as [Hsent Hcalled]. cbn zeta in Hsent, Hcalled. cbn [app] in Hsent, Hcalled.
  rewrite Hsent, Hcalled.
  unfold streamResult in Hresult.
  destruct (ReadBytes (arriving (Body httpResp))) as [lines rest].
  pose proof (streamLoop_written lines (failure (Body httpResp)) "") as Hwritten.
  destruct (streamLoop lines (failure (Body httpResp)) "") as [[full | err] calls'];
    [| discriminate].
  injection Hresult as <- <-. cbn [fst snd] in Hwritten.
  specialize (Hwritten full eq_refl). cbn [pr_Content pr_TotalTokens
    pr_CompletionTokens pr_PromptTokens pr_ToolCalls pr_FinishReason
    pr_ResponsesOutput].
  split; [exact Hwritten |]. split; [reflexivity |].
  split.
  { rewrite Z.quot_div_nonneg by lia.
    pose proof (Z.div_mod (Z.of_nat (String.length full)) 4).
    pose proof (Z.mod_pos_bound (Z.of_nat (String.length full)) 4). lia. }
  repeat (split; [reflexivity |]).
  exists sent, httpResp. auto 10.
Qed.

(** X25. Nothing is read after the line that says [DONE], and nothing is
    read of an unterminated last line. A body that goes on after a
    [data: [DONE]] line, with whatever bytes and even if it ends in a read
    error, gives what the body cut after that line gives; and the bytes after
    the last newline of a body never count, so a last event that is not
    followed by a newline is lost. *)
Theorem stream_reads_nothing_after_DONE :
  (∀ pre line rest ending,
     Forall isLine pre → isLine line → TrimSpace line = "data: [DONE]" →
     streamResult {| arriving := written (pre ++ [line]) +:+ rest;
                     failure := ending |}
     = streamResult {| arriving := written (pre ++ [line]); failure := None |})
  ∧ (∀ lines tail ending,
       Forall isLine lines → noNewline tail →
       streamResult {| arriving := written lines +:+ tail; failure := ending |}
       = streamResult {| arriving := written lines; failure := ending |}).
Proof.
  split.
  - intros pre line rest ending Hpre Hline Hdone.
    assert (Forall isLine (pre ++ [line])) as Hlines
      by (apply Forall_app; split; [exact Hpre | repeat constructor; exact Hline]).
    unfold streamResult. cbn [arriving failure].
    rewrite (ReadBytes_lines _ rest Hlines).
    rewrite <- (append_empty_r (written (pre ++ [line]))).
    rewrite (ReadBytes_lines _ "" Hlines). cbn [ReadBytes fst snd].
    rewrite app_nil_r, <- app_assoc.
    rewrite (streamLoop_congruence ([line] ++ (ReadBytes rest).1) [line] ending None);
      [reflexivity |].
    intros acc. cbn [app]. rewrite !(streamLoop_DONE line) by exact Hdone.
    reflexivity.
  - intros lines tail ending Hlines Htail. unfold streamResult. cbn [arriving failure].
    rewrite (ReadBytes_lines _ tail Hlines), (ReadBytes_tail tail Htail).
    rewrite <- (append_empty_r (written lines)).
    rewrite (ReadBytes_lines _ "" Hlines). reflexivity.
Qed.

(** X26. Lines that are not events change nothing. A line that, once
    trimmed, does not start with [data: ] (a blank line, a comment, an
    [event:] line), or whose payload does not decode, or decodes to a chunk
    without choices, can be taken out of the body: the result of the stream
    and the calls of the callback stay the same. *)
Theorem stream_skips_noise (pre : list string) (line : string)
    (post : list string) (tail : string) (ending : option string) :
  Forall isLine pre → isLine line → Forall isLine post →
  noise line →
  streamResult {| arriving := written (pre ++ line :: post) +:+ tail;
                  failure := ending |}
  = streamResult {| arriving := written (pre ++ post) +:+ tail;
                    failure := ending |}.
Proof.
  intros Hpre Hline Hpost Hnoise. unfold streamResult. cbn [arriving failure].
  rewrite !ReadBytes_lines
    by (apply Forall_app; split; [| try constructor]; assumption).
  rewrite <- !app_assoc. cbn [app].
  rewrite (streamLoop_congruence
             (line :: post ++ (ReadBytes tail).1) (post ++ (ReadBytes tail).1)
             ending ending);
    [reflexivity |].
  intros acc. apply streamLoop_noise. exact Hnoise.
Qed.

(** X27. A read error in the middle of a stream loses the result, not the
    calls. When the body ends in a read error the callback has been given
    exactly what it is given when the same bytes end normally; the call
    returns the error [stream read error], with the cause wrapped, unless a
    [DONE] line came before, in which case the error goes unnoticed. *)
Theorem stream_read_error (arrived : string) (err : string) :
  let clean := streamResult {| arriving := arrived; failure := None |} in
  let broken := streamResult {| arriving := arrived; failure := Some err |} in
  broken.2 = clean.2
  ∧ ((∀ line, line ∈ (ReadBytes arrived).1 → TrimSpace line ≠ "data: [DONE]") →
     broken.1 = Err (providerError "stream read error" (Some err)))
  ∧ ((∃ line, line ∈ (ReadBytes arrived).1 ∧ TrimSpace line = "data: [DONE]") →
     broken = clean).
Proof.
  cbn zeta. unfold streamResult. cbn [arriving failure].
  destruct (ReadBytes arrived) as [lines rest]. cbn [fst].
  destruct (streamLoop_failure lines err "") as (Hcalls & Hfail & Hsame).
  destruct (streamLoop lines (Some err) "") as [e1 calls1].
  destruct (streamLoop lines None "") as [e0 calls0].
  cbn [fst snd] in *. subst calls1.
  split; [reflexivity |]. split.
  - intros Hall. rewrite (Hfail Hall). reflexivity.
  - intros Hdone. specialize (Hsame Hdone). injection Hsame as ->. reflexivity.
Qed.

End ProviderOutcomes.

(** ** The OpenAI provider: the requests and the embeddings *)

Section RequestFacts.
Context `{Opaque} `{ModelConstants} `{EncodingJSON} `{!MessageView}
        `{!ThinkingLevels} `{!Libraries}.

Lemma instructionsOf_first (pre : list Message) (msg : Message) (post : list Message) :
  Forall (λ m, messageRole m ≠ "system") pre →
  messageRole msg = "system" →
  instructionsOf (pre ++ msg :: post) = default "" (messageText msg).
Proof.
  intros Hpre Hmsg. induction Hpre as [| m pre Hm _ IH]; cbn [app instructionsOf].
  - rewrite Hmsg. reflexivity.
  - apply String.eqb_neq in Hm. rewrite Hm. exact IH.
Qed.

(** With a system message the input is never the plain string. *)
Lemma responsesInputOf_items (messages : list Message) :
  (∃ m, m ∈ messages ∧ messageRole m = "system") →
  responsesInputOf messages
  = InputItems ((λ msg, {| rii_Role := messageRole msg;
                           rii_Content := default "" (messageText msg) |})
                  <$> messages).
Proof.
  intros (m & Hin & Hrole). unfold responsesInputOf.
  destruct messages as [| m1 [| m2 messages]]; try reflexivity.
  apply list_elem_of_singleton in Hin as <-. rewrite Hrole. reflexivity.
Qed.

(** X28. On the Responses path the system prompt is sent twice. When the
    messages hold a system message whose content is a string, that string is
    the [instructions] of the request (the first system message counts), and
    the message is also sent as an item of [input], at its place among the
    messages, because a list of messages with a system message is never
    replaced by the plain-string input. A single user message with string
    content is sent as that string, without instructions. *)
Theorem responsesRequest_sends_system_prompt_twice (req : ProviderRequest) :
  (∀ pre msg post text,
     req_Messages req = pre ++ msg :: post →
     Forall (λ m, messageRole m ≠ "system") pre →
     messageRole msg = "system" → messageText msg = Some text →
     rreq_Instructions (responsesRequestOf req) = text
     ∧ ∃ items,
         rreq_Input (responsesRequestOf req) = InputItems items
         ∧ length items = length (req_Messages req)
         ∧ items !! length pre = Some {| rii_Role := "system"; rii_Content := text |})
  ∧ (∀ msg text,
       req_Messages req = [msg] →
       messageRole msg = "user" → messageText msg = Some text →
       rreq_Input (responsesRequestOf req) = InputString text
       ∧ rreq_Instructions (responsesRequestOf req) = "").
Proof.
  split.
  - intros pre msg post text Hmessages Hpre Hrole Htext.
    unfold responsesRequestOf. cbn [rreq_Instructions rreq_Input].
    rewrite Hmessages, (instructionsOf_first pre msg post Hpre Hrole), Htext.
    split; [reflexivity |].
    rewrite responsesInputOf_items
      by (exists msg; split; [apply elem_of_app; right; apply list_elem_of_here | exact Hrole]).
    eexists. split; [reflexivity |].
    split; [apply length_fmap |].
    rewrite list_lookup_fmap, list_lookup_middle by reflexivity.
    cbn. rewrite Hrole, Htext. reflexivity.
  - intros msg text Hmessages Hrole Htext.
    unfold responsesRequestOf, responsesInputOf. cbn [rreq_Instructions rreq_Input].
    rewrite Hmessages, Hrole, Htext. cbn [instructionsOf].
    rewrite Hrole. split; reflexivity.
Qed.

(** X29. The two request builders treat the thinking level differently.
    [buildRequest] knows three levels and sends [low] for [ThinkingLow],
    [medium] for [ThinkingMedium] and [high] for [ThinkingHigh] (the level
    being non-empty and the three constants distinct, as the cases of a Go
    [switch] are); any other level is dropped and the request carries no
    [reasoning_effort]. The Responses request carries every non-empty level
    as it is. Both send [tool_choice] [auto]: [buildRequest] exactly when
    the request has function tools, the Responses request always. *)
Theorem thinking_level_on_the_two_paths (req : ProviderRequest) :
  oai_ReasoningEffort (buildRequest req) ∈ [""; "low"; "medium"; "high"]
  ∧ (req_Thinking req ≠ "" →
     (req_Thinking req = ThinkingLow →
      oai_ReasoningEffort (buildRequest req) = "low")
     ∧ (req_Thinking req = ThinkingMedium → ThinkingMedium ≠ ThinkingLow →
        oai_ReasoningEffort (buildRequest req) = "medium")
     ∧ (req_Thinking req = ThinkingHigh →
        ThinkingHigh ≠ ThinkingLow → ThinkingHigh ≠ ThinkingMedium →
        oai_ReasoningEffort (buildRequest req) = "high"))
  ∧ (req_Thinking req ∉ [ThinkingLow; ThinkingMedium; ThinkingHigh] →
     oai_ReasoningEffort (buildRequest req) = "")
  ∧ rreq_Reasoning (responsesRequestOf req)
    = (if String.eqb (req_Thinking req) "" then None
       else Some {| rc_Effort := req_Thinking req |})
  ∧ (oai_ToolChoice (buildRequest req) = Some "auto" ↔ req_Tools req ≠ [])
  ∧ rreq_ToolChoice (responsesRequestOf req) = "auto".
Proof.
  unfold buildRequest, responsesRequestOf.
  cbn [oai_ReasoningEffort oai_ToolChoice rreq_Reasoning rreq_ToolChoice].
  split; [| split; [| split; [| split; [| split]]]].
  - destruct (String.eqb (req_Thinking req) ""); cbn [negb];
      [apply list_elem_of_here |].
    destruct (String.eqb (req_Thinking req) ThinkingLow);
      [apply list_elem_of_further, list_elem_of_here |].
    destruct (String.eqb (req_Thinking req) ThinkingMedium);
      [do 2 apply list_elem_of_further; apply list_elem_of_here |].
    destruct (String.eqb (req_Thinking req) ThinkingHigh);
      [do 3 apply list_elem_of_further; apply list_elem_of_here
      | apply list_elem_of_here].
  - intros Hset. apply String.eqb_neq in Hset. rewrite Hset. cbn [negb].
    split; [| split].
    + intros ->. rewrite String.eqb_refl. reflexivity.
    + intros -> Hlow. apply String.eqb_neq in Hlow.
      rewrite Hlow, String.eqb_refl. reflexivity.
    + intros -> Hlow Hmedium. apply String.eqb_neq in Hlow, Hmedium.
      rewrite Hlow, Hmedium, String.eqb_refl. reflexivity.
  - intros Hnot.
    repeat (apply not_elem_of_cons in Hnot as [Hne Hnot];
            apply String.eqb_neq in Hne; rewrite Hne; clear Hne).
    destruct (negb _); reflexivity.
  - destruct (String.eqb (req_Thinking req) ""); reflexivity.
  - destruct (req_Tools req); cbn; split; intros; first [congruence | discriminate].
  - reflexivity.
Qed.

End RequestFacts.

Section EmbeddingFacts.
Context `{Opaque}.

Lemma placeEmbeddings_returns (data : list embeddingDatum) :
  ∀ embeddings dims,
    (∃ r, placeEmbeddings data embeddings dims = Returned r)
    ↔ Forall (λ d, 0 ≤ ed_Index d < Z.of_nat (length embeddings)) data.
Proof.
  induction data as [| d data IH]; intros embeddings dims; cbn [placeEmbeddings].
  - split; [constructor | eauto].
  - destruct (Z.leb_spec 0 (ed_Index d)), (Z.ltb_spec (ed_Index d)
                                             (Z.of_nat (length embeddings)));
      cbn [andb].
    + rewrite IH, length_insert. split.
      * intros Hrest. constructor; [lia | exact Hrest].
      * intros Hall. inversion Hall. assumption.
    + split; [intros [r [=]] | intros Hall; inversion Hall; lia].
    + split; [intros [r [=]] | intros Hall; inversion Hall; lia].
    + split; [intros [r [=]] | intros Hall; inversion Hall; lia].
Qed.

Lemma placeEmbeddings_run (data : list embeddingDatum) :
  ∀ embeddings dims embeddings' dims',
    placeEmbeddings data embeddings dims = Returned (embeddings', dims') →
    length embeddings' = length embeddings
    ∧ dims' = (if dims =? 0 then firstDimension data else dims)
    ∧ (∀ i, (∀ d, d ∈ data → Z.to_nat (ed_Index d) ≠ i) →
            embeddings' !! i = embeddings !! i)
    ∧ (NoDup (ed_Index <$> data) →
       ∀ d, d ∈ data → embeddings' !! Z.to_nat (ed_Index d) = Some (ed_Embedding d)).
Proof.
  induction data as [| d data IH]; intros embeddings dims embeddings' dims';
    cbn [placeEmbeddings firstDimension].
  - intros [= <- <-]. split; [reflexivity |].
    split; [destruct (Z.eqb_spec dims 0); [assumption | reflexivity] |].
    split; [reflexivity |].
    intros _ d Hin. apply elem_of_nil in Hin. contradiction.
  - destruct (Z.leb_spec 0 (ed_Index d)) as [Hlow |]; [| discriminate].
    destruct (Z.ltb_spec (ed_Index d) (Z.of_nat (length embeddings))) as [Hhigh |];
      [| discriminate].
    cbn [andb]. intros Hrun.
    assert (∃ r, placeEmbeddings data
                   (<[Z.to_nat (ed_Index d) := ed_Embedding d]> embeddings)
                   (if dims =? 0 then Z.of_nat (length (ed_Embedding d)) else dims)
                 = Returned r) as Hrange by eauto.
    apply placeEmbeddings_returns in Hrange. rewrite length_insert in Hrange.
    apply IH in Hrun as (Hlength & Hdims & Hkept & Hplaced).
    rewrite length_insert in Hlength.
    split; [exact Hlength |]. split; [| split].
    + rewrite Hdims. destruct (dims =? 0) eqn:Hzero; [| rewrite Hzero; reflexivity].
      destruct (Z.of_nat (length (ed_Embedding d)) =? 0); reflexivity.
    + intros i Hother. rewrite Hkept.
      * apply list_lookup_insert_ne. apply (Hother d), list_elem_of_here.
      * intros d' Hin. apply Hother, list_elem_of_further, Hin.
    + intros Hnodup d' Hin. cbn [fmap list_fmap] in Hnodup.
      apply NoDup_cons in Hnodup as [Hfresh Hnodup].
      apply elem_of_cons in Hin as [-> | Hin]; [| apply Hplaced; assumption].
      rewrite Hkept.
      * apply list_lookup_insert_eq. lia.
      * intros d' Hin Heq. apply Hfresh. apply list_elem_of_fmap. exists d'.
        split; [| exact Hin].
        pose proof (proj1 (Forall_forall _ _) Hrange d' Hin) as Hd'. cbn in Hd'. lia.
Qed.

(** X30. [Embed] places every embedding of the response at its index.
    When every index is within [0, len(data)) the call returns as many
    embeddings as the response holds, and when moreover the indices are
    pairwise distinct, each embedding is at the position its index names,
    in whatever order the response lists them; [Dimensions] is the length of
    the first embedding that is not empty. An index outside the range makes
    the call panic instead of returning. *)
Theorem Embed_places_by_index (data : list embeddingDatum) :
  ((∃ r, collectEmbeddings data = Returned r)
   ↔ Forall (λ d, 0 ≤ ed_Index d < Z.of_nat (length data)) data)
  ∧ ((∃ d, d ∈ data ∧ ¬ 0 ≤ ed_Index d < Z.of_nat (length data)) →
     collectEmbeddings data = Panicked)
  ∧ (∀ embeddings dims,
       collectEmbeddings data = Returned (embeddings, dims) →
       length embeddings = length data
       ∧ dims = firstDimension data
       ∧ (NoDup (ed_Index <$> data) →
          ∀ d, d ∈ data → embeddings !! Z.to_nat (ed_Index d) = Some (ed_Embedding d))).
Proof.
  assert ((∃ r, collectEmbeddings data = Returned r)
          ↔ Forall (λ d, 0 ≤ ed_Index d < Z.of_nat (length data)) data) as Hreturns.
  { unfold collectEmbeddings. rewrite placeEmbeddings_returns, length_replicate.
    reflexivity. }
  split; [exact Hreturns |]. split.
  - intros (d & Hin & Hout).
    destruct (collectEmbeddings data) as [r |] eqn:Hrun; [| reflexivity].
    exfalso. apply Hout.
    apply (proj1 (Forall_forall _ _) (proj1 Hreturns (ex_intro _ r eq_refl)) d Hin).
  - intros embeddings dims Hrun. unfold collectEmbeddings in Hrun.
    apply placeEmbeddings_run in Hrun as (Hlength & Hdims & _ & Hplaced).
    rewrite length_replicate in Hlength. auto.
Qed.

End EmbeddingFacts.

(** ** The provider run on the sample network *)

Lemma provider_without_API_key_witness :
  @providerSend SampleWorld.opaque sampleModelID SampleJSON.encodingJSON
    SampleNet.messageView SampleNet.thinkingLevels
    (SampleNet.libraries SampleNet.chatServer)
    (SampleNet.provider "") false tt (SampleNet.request ["hi"] []) 0%nat
  = (Err (providerError "OPENAI_API_KEY not set" None), 0%nat, []).
Proof.
  apply (proj1 (@provider_without_API_key SampleWorld.opaque sampleModelID
                  SampleJSON.encodingJSON SampleNet.messageView
                  SampleNet.thinkingLevels
                  (SampleNet.libraries SampleNet.chatServer))
           (SampleNet.provider "") false tt (SampleNet.request ["hi"] []) 0%nat).
  reflexivity.
Defined.

Lemma providerSend_success_witness :
  ∃ resp events httpReq,
    @providerSend SampleWorld.opaque sampleModelID SampleJSON.encodingJSON
      SampleNet.messageView SampleNet.thinkingLevels
      (SampleNet.libraries SampleNet.chatServer)
      (SampleNet.provider "sk-test") false tt (SampleNet.request ["hi"] []) 0%nat
    = (Ok resp, 1%nat, events)
    ∧ exchanges events = [httpReq]
    ∧ hr_URL httpReq = "https://api.openai.com/v1/chat/completions"
    ∧ pr_Content resp = "first".
Proof.
  destruct (@providerSend SampleWorld.opaque sampleModelID SampleJSON.encodingJSON
              SampleNet.messageView SampleNet.thinkingLevels
              (SampleNet.libraries SampleNet.chatServer)
              (SampleNet.provider "sk-test") false tt (SampleNet.request ["hi"] [])
              0%nat) as [[[resp | e] n'] events] eqn:Hrun;
    [| vm_compute in Hrun; discriminate Hrun].
  destruct (providerSend_success _ _ _ _ _ _ _ _ Hrun)
    as (httpReq & httpResp & Hsent & _ & _ & _ & _ & Hroute).
  cbn [SampleNet.request req_BuiltinTools] in Hroute.
  destruct Hroute as (Hurl & _ & _).
  vm_compute in Hrun. injection Hrun as <- <- <-.
  eexists _, _, httpReq. split; [reflexivity |].
  split; [exact Hsent |]. split; [exact Hurl | reflexivity].
Defined.

Lemma status_matters_only_when_streaming_witness :
  (@SendStream SampleWorld.opaque sampleModelID SampleNet.thinkingLevels
     (SampleNet.libraries
        (SampleNet.serving 429 {| arriving := "rate limited";
                                  failure := Some "connection reset" |}))
     (SampleNet.provider "sk-test") false tt (SampleNet.request ["hi"] []) 0%nat).1.1
  = Err {| pe_Provider := "openai"; pe_Code := "429";
           pe_Message := "rate limited"; pe_Err := None |}.
Proof.
  refine (proj1 (proj2 (@status_matters_only_when_streaming SampleWorld.opaque
                          sampleModelID SampleJSON.encodingJSON
                          SampleNet.messageView SampleNet.thinkingLevels
                          (SampleNet.libraries
                             (SampleNet.serving 429
                                {| arriving := "rate limited";
                                   failure := Some "connection reset" |}))
                          (SampleNet.provider "sk-test") false tt
                          (SampleNet.request ["hi"] []))
                   0%nat 1%nat _
                   {| StatusCode := 429;
                      Body := {| arriving := "rate limited";
                                 failure := Some "connection reset" |} |} _ _ _)).
  - vm_compute. reflexivity.
  - reflexivity.
  - discriminate.
Defined.

Lemma SendStream_success_witness :
  ∃ resp events,
    @SendStream SampleWorld.opaque sampleModelID SampleNet.thinkingLevels
      (SampleNet.libraries (SampleNet.serving 200 SampleNet.streamBody))
      (SampleNet.provider "sk-test") false tt (SampleNet.request ["hi"] []) 0%nat
    = (Ok resp, 1%nat, events)
    ∧ callbacks events = ["Hel"; "lo"]
    ∧ pr_Content resp = "Hello"
    ∧ pr_CompletionTokens resp = 1.
Proof.
  destruct (@SendStream SampleWorld.opaque sampleModelID SampleNet.thinkingLevels
              (SampleNet.libraries (SampleNet.serving 200 SampleNet.streamBody))
              (SampleNet.provider "sk-test") false tt (SampleNet.request ["hi"] [])
              0%nat) as [[[resp | e] n'] events] eqn:Hrun;
    [| vm_compute in Hrun; discriminate Hrun].
  destruct (SendStream_success _ _ _ _ _ _ _ _ Hrun) as (Hcontent & _).
  vm_compute in Hrun. injection Hrun as <- <- <-.
  eexists _, _. split; [reflexivity |]. split; [reflexivity |].
  split; [rewrite Hcontent |]; reflexivity.
Defined.

Lemma sample_lines :
  isLine SampleNet.helLine ∧ isLine SampleNet.loLine
  ∧ isLine SampleNet.doneLine ∧ isLine SampleNet.pingLine.
Proof.
  repeat split; eexists;
    (split; [unfold SampleNet.helLine, SampleNet.loLine, SampleNet.doneLine,
               SampleNet.pingLine, SampleNet.dataLine;
             rewrite <- ?append_assoc; reflexivity
            | vm_compute; reflexivity]).
Qed.

Lemma stream_reads_nothing_after_DONE_witness :
  @streamResult SampleWorld.opaque
    (SampleNet.libraries (SampleNet.serving 200 SampleNet.streamBody))
    {| arriving := written ([SampleNet.helLine] ++ [SampleNet.doneLine])
                   +:+ SampleNet.loLine;
       failure := Some "connection reset" |}
  = @streamResult SampleWorld.opaque
      (SampleNet.libraries (SampleNet.serving 200 SampleNet.streamBody))
      {| arriving := written ([SampleNet.helLine] ++ [SampleNet.doneLine]);
         failure := None |}.
Proof.
  destruct sample_lines as (Hhel & _ & Hdone & _).
  apply (proj1 (@stream_reads_nothing_after_DONE SampleWorld.opaque
                  (SampleNet.libraries (SampleNet.serving 200 SampleNet.streamBody)))).
  - repeat constructor. exact Hhel.
  - exact Hdone.
  - vm_compute. reflexivity.
Defined.

Lemma stream_skips_noise_witness :
  @streamResult SampleWorld.opaque
    (SampleNet.libraries (SampleNet.serving 200 SampleNet.streamBody))
    {| arriving := written ([SampleNet.helLine]
                            ++ SampleNet.pingLine :: [SampleNet.loLine]) +:+ "";
       failure := None |}
  = @streamResult SampleWorld.opaque
      (SampleNet.libraries (SampleNet.serving 200 SampleNet.streamBody))
      {| arriving := written ([SampleNet.helLine] ++ [SampleNet.loLine]) +:+ "";
         failure := None |}.
Proof.
  destruct sample_lines as (Hhel & Hlo & _ & Hping).
  apply (@stream_skips_noise SampleWorld.opaque
           (SampleNet.libraries (SampleNet.serving 200 SampleNet.streamBody))).
  - repeat constructor. exact Hhel.
  - exact Hping.
  - repeat constructor. exact Hlo.
  - left. vm_compute. reflexivity.
Defined.

Lemma stream_read_error_witness :
  (@streamResult SampleWorld.opaque
     (SampleNet.libraries (SampleNet.serving 200 SampleNet.streamBody))
     {| arriving := SampleNet.helLine +:+ SampleNet.loLine;
        failure := Some "connection reset" |}).1
  = Err (providerError "stream read error" (Some "connection reset")).
Proof.
  apply (@stream_read_error SampleWorld.opaque
           (SampleNet.libraries (SampleNet.serving 200 SampleNet.streamBody))
           (SampleNet.helLine +:+ SampleNet.loLine) "connection reset").
  vm_compute. intros line Hin.
  repeat (apply elem_of_cons in Hin as [-> | Hin]; [discriminate |]).
  apply elem_of_nil in Hin. contradiction.
Defined.

Lemma responsesRequest_sends_system_prompt_twice_witness :
  rreq_Instructions
    (@responsesRequestOf SampleWorld.opaque sampleModelID SampleNet.messageView
       (SampleNet.request ["system:Be brief"; "user:hi"] [zeroBuiltinTool "web_search"]))
  = "Be brief"
  ∧ rreq_Input
      (@responsesRequestOf SampleWorld.opaque sampleModelID SampleNet.messageView
         (SampleNet.request ["system:Be brief"; "user:hi"]
            [zeroBuiltinTool "web_search"]))
    = InputItems [ {| rii_Role := "system"; rii_Content := "Be brief" |};
                   {| rii_Role := "user"; rii_Content := "hi" |} ].
Proof.
  destruct (proj1 (@responsesRequest_sends_system_prompt_twice SampleWorld.opaque
                     sampleModelID SampleNet.messageView
                     (SampleNet.request ["system:Be brief"; "user:hi"]
                        [zeroBuiltinTool "web_search"]))
              [] "system:Be brief" ["user:hi"] "Be brief")
    as (Hinstructions & items & Hinput & _).
  - reflexivity.
  - constructor.
  - reflexivity.
  - reflexivity.
  - split; [exact Hinstructions |]. vm_compute. reflexivity.
Defined.

Lemma thinking_level_on_the_two_paths_witness :
  (oai_ReasoningEffort
     (@buildRequest SampleWorld.opaque sampleModelID SampleNet.thinkingLevels
        (@Build_ProviderRequest SampleWorld.opaque "gpt-4o" ["hi"] None "low"
           [] [] false false))
   = "low"
   ∧ oai_ReasoningEffort
       (@buildRequest SampleWorld.opaque sampleModelID SampleNet.thinkingLevels
          (@Build_ProviderRequest SampleWorld.opaque "gpt-4o" ["hi"] None "medium"
             [] [] false false))
     = "medium"
   ∧ oai_ReasoningEffort
       (@buildRequest SampleWorld.opaque sampleModelID SampleNet.thinkingLevels
          (@Build_ProviderRequest SampleWorld.opaque "gpt-4o" ["hi"] None "high"
             [] [] false false))
     = "high")
  ∧ oai_ReasoningEffort
      (@buildRequest SampleWorld.opaque sampleModelID SampleNet.thinkingLevels
         (@Build_ProviderRequest SampleWorld.opaque "gpt-4o" ["hi"] None "minimal"
            [] [] false false))
    = "".
Proof.
  pose proof (@thinking_level_on_the_two_paths SampleWorld.opaque sampleModelID
                SampleNet.messageView SampleNet.thinkingLevels) as Hlevels.
  split; [split; [| split] |].
  - apply (Hlevels (@Build_ProviderRequest SampleWorld.opaque "gpt-4o" ["hi"]
                      None "low" [] [] false false));
      first [discriminate | reflexivity].
  - apply (Hlevels (@Build_ProviderRequest SampleWorld.opaque "gpt-4o" ["hi"]
                      None "medium" [] [] false false));
      first [discriminate | reflexivity].
  - apply (Hlevels (@Build_ProviderRequest SampleWorld.opaque "gpt-4o" ["hi"]
                      None "high" [] [] false false));
      first [discriminate | reflexivity].
  - apply (Hlevels (@Build_ProviderRequest SampleWorld.opaque "gpt-4o" ["hi"]
                      None "minimal" [] [] false false)).
    cbn. intros Hin.
    repeat (apply elem_of_cons in Hin as [Hin | Hin]; [discriminate |]).
    apply elem_of_nil in Hin. contradiction.
Defined.

Lemma Embed_places_by_index_witness :
  @collectEmbeddings SampleWorld.opaque
    [ @Build_embeddingDatum SampleWorld.opaque [20; 21] 1;
      @Build_embeddingDatum SampleWorld.opaque [10; 11] 0 ]
  = Returned ([[10; 11]; [20; 21]], 2)
  ∧ @collectEmbeddings SampleWorld.opaque
      [ @Build_embeddingDatum SampleWorld.opaque [20; 21] 2;
        @Build_embeddingDatum SampleWorld.opaque [10; 11] 0 ]
    = Panicked.
Proof.
  split; [reflexivity |].
  apply (@Embed_places_by_index SampleWorld.opaque).
  exists (@Build_embeddingDatum SampleWorld.opaque [20; 21] 2).
  split; [apply list_elem_of_here | cbn; lia].
Defined.
